(** * ai-hedge-fund: the agent / provider orchestration layer

    A shallow embedding of [src/agents/__init__.py] (the orchestrator
    [analyze_market]), [src/agents/specialized.py] (the five agents) and
    [src/providers/*.py] (the provider adapters and their error taxonomy),
    followed by the properties of the specification that concern them.

    Conventions.
    - A Python [str] is a list of code points.
    - JSON-like Python objects (the market and price payloads) are values of
      [pyval]; a [dict] is an association list in insertion order.
    - A Python [float] is a binary64 primitive float.
    - Everything outside the repository (redis, the langchain chat clients,
      pandas, the process environment, the clock) is a field of [Env].
    - A coroutine is a function on a task state (logical clock, number of
      calls made to the task's own chat client) that returns a value or a
      raised exception. *)

From Stdlib Require Import ZArith NArith List String Ascii Bool Floats Lia.
Import ListNotations.

Set Warnings "-register-all,-inexact-float".

(* ================================================================== *)
(** * Python strings *)
(* ================================================================== *)

Module Str.

Definition pystr := list N.

(** A literal of the source, written as a Rocq string of ASCII characters. *)
Definition py (s : string) : pystr := map N_of_ascii (list_ascii_of_string s).

(** ["\n"] *)
Definition nl : pystr := [10%N].

Fixpoint eqb (a b : pystr) : bool :=
  match a, b with
  | [], [] => true
  | x :: a', y :: b' => N.eqb x y && eqb a' b'
  | _, _ => false
  end.

(** [s.startswith(p)] *)
Fixpoint startswith (s p : pystr) : bool :=
  match p, s with
  | [], _ => true
  | _ :: _, [] => false
  | y :: p', x :: s' => N.eqb x y && startswith s' p'
  end.

(** [p in s] for strings: [p] occurs as a contiguous run of [s]. *)
Fixpoint contains (s p : pystr) : bool :=
  startswith s p ||
  match s with
  | [] => false
  | _ :: s' => contains s' p
  end.

(** Code points for which [str.isspace()] holds; these are what
    [str.strip()] without arguments removes. *)
Definition is_space (c : N) : bool :=
  ((9 <=? c) && (c <=? 13) || (28 <=? c) && (c <=? 32) ||
   (c =? 133) || (c =? 160) || (c =? 5760) ||
   (8192 <=? c) && (c <=? 8202) || (c =? 8232) || (c =? 8233) ||
   (c =? 8239) || (c =? 8287) || (c =? 12288))%N.

Fixpoint lstrip (s : pystr) : pystr :=
  match s with
  | [] => []
  | c :: s' => if is_space c then lstrip s' else s
  end.

Definition rstrip (s : pystr) : pystr := rev (lstrip (rev s)).

(** [s.strip()] *)
Definition strip (s : pystr) : pystr := rstrip (lstrip s).

(** [s.split('\n')]: the pieces between line feeds; never empty. *)
Fixpoint split_nl (s : pystr) : list pystr :=
  match s with
  | [] => [[]]
  | c :: s' =>
      if N.eqb c 10 then [] :: split_nl s'
      else match split_nl s' with
           | [] => [[c]]
           | l :: ls => (c :: l) :: ls
           end
  end.

(** ['\n'.join(ls)] *)
Fixpoint join_nl (ls : list pystr) : pystr :=
  match ls with
  | [] => []
  | [l] => l
  | l :: ls' => l ++ nl ++ join_nl ls'
  end.

(** [s.lower()] on the ASCII letters.  The only code points outside ASCII
    whose lower case contains an ASCII letter are U+0130 (to [i] followed by
    U+0307) and U+212A (to [k]); neither can take part in an occurrence of
    the patterns searched in this program ("authentication", "rate limit",
    "rate", "connection"), so the search results are those of Python. *)
Definition lower_char (c : N) : N :=
  if ((65 <=? c) && (c <=? 90))%N then (c + 32)%N else c.

Definition lower (s : pystr) : pystr := map lower_char s.

(** [s.upper()], used on the literals "bullish" and "bearish" only. *)
Definition upper_char (c : N) : N :=
  if ((97 <=? c) && (c <=? 122))%N then (c - 32)%N else c.

Definition upper (s : pystr) : pystr := map upper_char s.

(** Decimal digits of a natural number. *)
Fixpoint digits_of_uint (u : Decimal.uint) : pystr :=
  match u with
  | Decimal.Nil => []
  | Decimal.D0 u' => 48%N :: digits_of_uint u'
  | Decimal.D1 u' => 49%N :: digits_of_uint u'
  | Decimal.D2 u' => 50%N :: digits_of_uint u'
  | Decimal.D3 u' => 51%N :: digits_of_uint u'
  | Decimal.D4 u' => 52%N :: digits_of_uint u'
  | Decimal.D5 u' => 53%N :: digits_of_uint u'
  | Decimal.D6 u' => 54%N :: digits_of_uint u'
  | Decimal.D7 u' => 55%N :: digits_of_uint u'
  | Decimal.D8 u' => 56%N :: digits_of_uint u'
  | Decimal.D9 u' => 57%N :: digits_of_uint u'
  end.

Definition decimal (n : N) : pystr := digits_of_uint (N.to_uint n).

(** [n] written with at least [w] digits, zero padded on the left. *)
Definition decimal_pad (w : nat) (n : N) : pystr :=
  let d := decimal n in
  repeat 48%N (w - List.length d) ++ d.

End Str.

Import Str.

Arguments py s%_string.

(* ================================================================== *)
(** * Python values, exceptions and the builtin operations used *)
(* ================================================================== *)

(** The objects that reach the agents: what [json] decoding produces. *)
Inductive pyval :=
| VNone
| VBool (b : bool)
| VInt (z : Z)
| VFloat (f : float)
| VStr (s : pystr)
| VList (l : list pyval)
| VDict (d : list (pystr * pyval)).

(** Exception classes: the builtin ones the modelled operations raise, the
    taxonomy of [providers/base.py], and [OtherException] for whatever an
    external library raises (always a subclass of [Exception]). *)
Inductive exn_class :=
| KeyError | IndexError | TypeError | ValueError | AttributeError
| StopIteration | ZeroDivisionError | OverflowError | TimeoutError
| ModelProviderError
| ResponseValidationError
| ProviderConnectionError
| ProviderAuthenticationError
| ProviderQuotaError
| OtherException.

(** An exception object; [exn_str e] is [str(e)]. *)
Record exn := Exn { exn_cls : exn_class; exn_str : pystr }.

Inductive result (A : Type) :=
| Ok (a : A)
| Raise (e : exn).

Arguments Ok {A} a.
Arguments Raise {A} e.

Module Res.

Definition bind {A B} (r : result A) (k : A -> result B) : result B :=
  match r with
  | Ok a => k a
  | Raise e => Raise e
  end.

End Res.

Declare Scope res_scope.
Delimit Scope res_scope with res.
Notation "x <- r ;; k" := (Res.bind r (fun x => k))
  (at level 61, r at next level, right associativity) : res_scope.

Module Builtin.

Open Scope res_scope.

(** [type(v).__name__] *)
Definition type_name (v : pyval) : pystr :=
  match v with
  | VNone => py "NoneType"
  | VBool _ => py "bool"
  | VInt _ => py "int"
  | VFloat _ => py "float"
  | VStr _ => py "str"
  | VList _ => py "list"
  | VDict _ => py "dict"
  end.

(** [repr(k)] of a key made of printable characters other than quotes and
    backslashes, as are all the keys written in the source. *)
Definition repr_key (k : pystr) : pystr := py "'" ++ k ++ py "'".

(** [bool(v)] *)
Definition truthy (v : pyval) : bool :=
  match v with
  | VNone => false
  | VBool b => b
  | VInt z => negb (z =? 0)%Z
  | VFloat f => negb (PrimFloat.eqb f 0%float)
  | VStr s => negb (Str.eqb s [])
  | VList l => match l with [] => false | _ => true end
  | VDict d => match d with [] => false | _ => true end
  end.

(** Lookup in a [dict]. *)
Fixpoint dict_get {V} (d : list (pystr * V)) (k : pystr) : option V :=
  match d with
  | [] => None
  | (k', v) :: d' => if Str.eqb k' k then Some v else dict_get d' k
  end.

(** [d[k] = v]: replaces the value of an existing key where it stands,
    appends a new key at the end. *)
Fixpoint dict_set {V} (d : list (pystr * V)) (k : pystr) (v : V)
  : list (pystr * V) :=
  match d with
  | [] => [(k, v)]
  | (k', v') :: d' =>
      if Str.eqb k' k then (k', v) :: d' else (k', v') :: dict_set d' k v
  end.

(** [v[k]] with a string subscript [k]; the messages are CPython 3.11's. *)
Definition subscript (v : pyval) (k : pystr) : result pyval :=
  match v with
  | VDict d =>
      match dict_get d k with
      | Some x => Ok x
      | None => Raise (Exn KeyError (repr_key k))
      end
  | VList _ =>
      Raise (Exn TypeError
               (py "list indices must be integers or slices, not str"))
  | VStr _ =>
      Raise (Exn TypeError (py "string indices must be integers, not 'str'"))
  | _ =>
      Raise (Exn TypeError
               (py "'" ++ type_name v ++ py "' object is not subscriptable"))
  end.

Definition no_attribute (v : pyval) (a : pystr) : exn :=
  Exn AttributeError
      (py "'" ++ type_name v ++ py "' object has no attribute '" ++ a
          ++ py "'").

(** [v.keys()] and [v.values()] *)
Definition keys (v : pyval) : result (list pystr) :=
  match v with
  | VDict d => Ok (map fst d)
  | _ => Raise (no_attribute v (py "keys"))
  end.

Definition values (v : pyval) : result (list pyval) :=
  match v with
  | VDict d => Ok (map snd d)
  | _ => Raise (no_attribute v (py "values"))
  end.

(** [next(iter(xs))] *)
Definition next_iter {A} (xs : list A) : result A :=
  match xs with
  | x :: _ => Ok x
  | [] => Raise (Exn StopIteration [])
  end.

(** [list(xs)[0]] *)
Definition first {A} (xs : list A) : result A :=
  match xs with
  | x :: _ => Ok x
  | [] => Raise (Exn IndexError (py "list index out of range"))
  end.

(** [k in v] for a string [k] *)
Definition contains_key (k : pystr) (v : pyval) : result bool :=
  match v with
  | VDict d => Ok (match dict_get d k with Some _ => true | None => false end)
  | VStr s => Ok (Str.contains s k)
  | VList l =>
      Ok (existsb (fun x => match x with
                            | VStr s => Str.eqb s k
                            | _ => false
                            end) l)
  | _ =>
      Raise (Exn TypeError
               (py "argument of type '" ++ type_name v
                   ++ py "' is not iterable"))
  end.

(** ** Numbers *)

(** [float(z)]: the nearest binary64, ties to even; [None] when Python
    raises [OverflowError]. *)
Definition float_of_Z (z : Z) : option float :=
  match binary_normalize 53 1024 z 0 false with
  | S754_infinity _ => None
  | sf => Some (SF2Prim sf)
  end.

Definition int_too_large : exn :=
  Exn OverflowError (py "int too large to convert to float").

Definition Z_of_bool (b : bool) : Z := if b then 1%Z else 0%Z.

(** The number a value stands for in arithmetic, if it is one:
    [bool] is a subclass of [int]. *)
Inductive number :=
| NInt (z : Z)
| NFloat (f : float).

Definition as_number (v : pyval) : option number :=
  match v with
  | VBool b => Some (NInt (Z_of_bool b))
  | VInt z => Some (NInt z)
  | VFloat f => Some (NFloat f)
  | _ => None
  end.

Definition to_float (n : number) : result float :=
  match n with
  | NFloat f => Ok f
  | NInt z =>
      match float_of_Z z with
      | Some f => Ok f
      | None => Raise int_too_large
      end
  end.

(** [abs(v)] *)
Definition py_abs (v : pyval) : result pyval :=
  match as_number v with
  | Some (NInt z) => Ok (VInt (Z.abs z))
  | Some (NFloat f) => Ok (VFloat (PrimFloat.abs f))
  | None =>
      Raise (Exn TypeError
               (py "bad operand type for abs(): '" ++ type_name v ++ py "'"))
  end.

(** [v > k] and [v < k] for an integer literal [k] of small magnitude
    (10, 5, 0, -5 in the source), for which the comparison of a float with
    [k] is the comparison with [float(k)]. *)
Definition float_lit (k : Z) : float :=
  SF2Prim (binary_normalize 53 1024 k 0 false).

Definition not_supported (op : pystr) (v : pyval) : exn :=
  Exn TypeError
      (py "'" ++ op ++ py "' not supported between instances of '"
          ++ type_name v ++ py "' and 'int'").

Definition gt_int (v : pyval) (k : Z) : result bool :=
  match as_number v with
  | Some (NInt z) => Ok (k <? z)%Z
  | Some (NFloat f) => Ok (PrimFloat.ltb (float_lit k) f)
  | None => Raise (not_supported (py ">") v)
  end.

Definition lt_int (v : pyval) (k : Z) : result bool :=
  match as_number v with
  | Some (NInt z) => Ok (z <? k)%Z
  | Some (NFloat f) => Ok (PrimFloat.ltb f (float_lit k))
  | None => Raise (not_supported (py "<") v)
  end.

(** [v / c] for a non-zero float literal [c] ([1e6], [1e9]). *)
Definition div_float (v : pyval) (c : float) : result float :=
  match as_number v with
  | Some n => f <- to_float n ;; Ok (f / c)%float
  | None =>
      Raise (Exn TypeError
               (py "unsupported operand type(s) for /: '" ++ type_name v
                   ++ py "' and 'float'"))
  end.

(** ** Fixed-point formatting: [format(f, '.<prec>f')]

    The decimal expansion of the exact binary value, rounded to [prec]
    fractional digits, ties to even. *)
Definition round_half_even_div (n d : Z) : Z :=
  let q := (n / d)%Z in
  let r := (n mod d)%Z in
  if ((d <? 2 * r) || ((2 * r =? d) && Z.odd q))%Z then (q + 1)%Z else q.

Definition scaled (m : positive) (e : Z) (prec : nat) : Z :=
  let n := (Zpos m * 10 ^ Z.of_nat prec)%Z in
  if (0 <=? e)%Z then (n * 2 ^ e)%Z else round_half_even_div n (2 ^ (- e)).

Definition format_f (prec : nat) (f : float) : pystr :=
  match Prim2SF f with
  | S754_nan => py "nan"
  | S754_infinity s => if s then py "-inf" else py "inf"
  | S754_zero s =>
      (if s then py "-" else []) ++ py "0." ++ repeat 48%N prec
  | S754_finite s m e =>
      let q := Z.to_N (scaled m e prec) in
      let p := (10 ^ N.of_nat prec)%N in
      (if s then py "-" else [])
        ++ Str.decimal (q / p) ++ py "." ++ Str.decimal_pad prec (q mod p)
  end.

(** [f"{v:.<prec>f}"] for an arbitrary value. *)
Definition format_spec_f (prec : nat) (v : pyval) : result pystr :=
  match as_number v with
  | Some n => f <- to_float n ;; Ok (format_f prec f)
  | None =>
      match v with
      | VStr _ =>
          Raise (Exn ValueError
                   (py "Unknown format code 'f' for object of type 'str'"))
      | _ =>
          Raise (Exn TypeError
                   (py "unsupported format string passed to "
                       ++ type_name v ++ py ".__format__"))
      end
  end.

End Builtin.

Import Builtin.

(* ================================================================== *)
(** * Coroutines *)
(* ================================================================== *)

(** The state a running task carries: the logical time, and how many calls
    the task has made so far to its own chat client (every agent builds a
    client of its own, see [BaseAgent.__init__]). *)
Record tstate := TState { now : nat; attempts : nat }.

Definition task (A : Type) := tstate -> result A * tstate.

Module Task.

Definition ret {A} (a : A) : task A := fun s => (Ok a, s).

Definition raise {A} (e : exn) : task A := fun s => (Raise e, s).

(** A computation that does not suspend. *)
Definition lift {A} (r : result A) : task A := fun s => (r, s).

Definition bind {A B} (m : task A) (k : A -> task B) : task B :=
  fun s =>
    match m s with
    | (Ok a, s') => k a s'
    | (Raise e, s') => (Raise e, s')
    end.

(** [try: body  except Exception as e: handler(e)] *)
Definition try_except {A} (body : task A) (handler : exn -> task A) : task A :=
  fun s =>
    match body s with
    | (Ok a, s') => (Ok a, s')
    | (Raise e, s') => handler e s'
    end.

(** [await] of an external operation whose outcome is [fst o] and which
    takes [snd o] ticks of the clock. *)
Definition await {A} (o : result A * nat) : task A :=
  fun s => (fst o, TState (now s + snd o) (attempts s)).

(** [time.sleep(d)] *)
Definition sleep (d : nat) : task unit :=
  fun s => (Ok tt, TState (now s + d) (attempts s)).

(** The current time and the number of the next call to the chat client. *)
Definition clock : task nat := fun s => (Ok (now s), s).

Definition next_attempt : task nat :=
  fun s => (Ok (attempts s), TState (now s) (S (attempts s))).

End Task.

Declare Scope task_scope.
Delimit Scope task_scope with task.
Notation "x <- m ;; k" := (Task.bind m (fun x => k))
  (at level 61, m at next level, right associativity) : task_scope.
Notation "m ;;; k" := (Task.bind m (fun _ => k))
  (at level 61, right associativity) : task_scope.

(* ================================================================== *)
(** * The world outside the repository *)
(* ================================================================== *)

Inductive provider_class := AnthropicProvider | OpenAIProvider.

Inductive agent_class :=
| MarketDataAgent
| SentimentAgent
| TechnicalAgent
| RiskManagementAgent
| PortfolioAgent.

(** The options a chat client is built with. *)
Record client_settings := ClientSettings {
  temperature : float;
  max_tokens : Z;
  top_p : float
}.

(** What the Technical agent computes on: a pandas frame, of which the model
    keeps the column names and the rows. *)
Record DataFrame := MkFrame {
  df_columns : list pystr;
  df_rows : list (list pyval)
}.

(** The latest values of the indicators, after [float(...)]. *)
Record indicators := Indicators {
  latest_rsi : float;
  latest_macd : float;
  latest_signal : float;
  latest_close : float;
  latest_upper : float;
  latest_lower : float
}.

(** [price_data] as the callers pass it: a decoded JSON object or a frame. *)
Inductive price_data :=
| PriceVal (v : pyval)
| PriceFrame (df : DataFrame).

Record Env := {
  (** [os.getenv] *)
  getenv : pystr -> option pystr;
  (** [config/model_config.py] is not part of the sources at hand:
      [ModelConfig()] and [config.get_provider_config(provider)]. *)
  ModelConfig : result unit;
  get_provider_config : pystr -> result pyval;
  (** [providers/__init__.py] is not part of the sources at hand. *)
  PROVIDER_MAP : list (pystr * provider_class);
  (** [ChatAnthropic(...)] and [ChatOpenAI(...)]: model, settings, key. *)
  chat_client : provider_class -> pyval -> client_settings -> pystr
                -> result unit;
  (** [client.ainvoke(input)] and [client.invoke(input)] on the client owned
      by an agent: the number of the call on that client and the input sent
      give the content of the reply or the exception, and the time taken. *)
  chat_invoke : agent_class -> nat -> pyval -> result pystr * nat;
  (** [get_model_provider("openai").generate_response(system, user)], of
      [src/config], which is not part of the sources at hand. *)
  fallback_generate : pystr -> pystr -> result pystr * nat;
  (** [aioredis.from_url(url)], [redis_client.get(key)] and
      [redis_client.set(key, value, ex=seconds)]. *)
  redis_from_url : pystr -> result unit * nat;
  redis_get : pystr -> result (option pystr) * nat;
  redis_set : pystr -> pystr -> Z -> result unit * nat;
  (** [datetime.now().strftime('%Y-%m-%d-%H')] at a given time. *)
  strftime_hour : nat -> pystr;
  (** [str(v)] as an f-string field without format writes it. *)
  str_of : pyval -> pystr;
  (** [json.dumps] of a string and [json.loads]. *)
  json_dumps : pystr -> pystr;
  json_loads : pystr -> result pyval;
  (** pandas: the frame built from a [dict] (the constructors and
      [to_datetime] of [TechnicalAgent.analyze]), and the latest values of
      [calculate_rsi], [calculate_macd] and [calculate_bollinger_bands]. *)
  frame_of_dict : pyval -> result DataFrame;
  latest_indicators : DataFrame -> result indicators
}.

(* ================================================================== *)
(** * providers/base.py, anthropic_provider.py, openai_provider.py *)
(* ================================================================== *)

Module Provider.

Open Scope task_scope.

(** [ModelProviderError.__init__]: the message is prefixed with the
    provider's name in brackets. *)
Definition provider_error (c : exn_class) (message provider : pystr) : exn :=
  Exn c (py "[" ++ provider ++ py "] " ++ message).

(** The [except] clauses of [AnthropicProvider]. *)
Definition anthropic_classify (e : exn) : exn :=
  let s := exn_str e in
  if Str.contains (Str.lower s) (py "authentication") then
    provider_error ProviderAuthenticationError s (py "Anthropic")
  else if Str.contains (Str.lower s) (py "rate limit") then
    provider_error ProviderQuotaError s (py "Anthropic")
  else if Str.contains (Str.lower s) (py "connection") then
    provider_error ProviderConnectionError s (py "Anthropic")
  else
    provider_error ModelProviderError s (py "Anthropic").

(** The [except] clauses of [OpenAIProvider.create_message] and
    [OpenAIProvider.generate_response]. *)
Definition openai_classify (e : exn) : exn :=
  let s := exn_str e in
  if Str.contains (Str.lower s) (py "authentication") then
    provider_error ProviderAuthenticationError
                   (py "OpenAI authentication failed") (py "OpenAI")
  else if Str.contains (Str.lower s) (py "rate") then
    provider_error ProviderQuotaError
                   (py "OpenAI rate limit exceeded") (py "OpenAI")
  else if Str.contains (Str.lower s) (py "connection") then
    provider_error ProviderConnectionError
                   (py "OpenAI connection failed") (py "OpenAI")
  else
    provider_error ModelProviderError
                   (py "OpenAI response generation failed: " ++ s)
                   (py "OpenAI").

(** A provider object: its class and what it was built with. *)
Record provider := MkProvider {
  prov_class : provider_class;
  model_name : pyval;
  api_key : pystr
}.

(** [AnthropicProvider.__init__] and [OpenAIProvider.__init__], with the
    empty settings the agents pass. *)
Definition _initialize_provider (env : Env) (c : provider_class)
    (model : pyval) (key : pystr) : result provider :=
  match c with
  | AnthropicProvider =>
      let body :=
        (has35 <- contains_key (py "-3-5-") model ;;
         let default_max_tokens := if has35 then 4096%Z else 2048%Z in
         let max_tokens := Z.min default_max_tokens 4096 in
         chat_client env AnthropicProvider model
                     (ClientSettings 0.3 max_tokens 1.0) key)%res in
      match body with
      | Ok _ => Ok (MkProvider AnthropicProvider model key)
      | Raise e => Raise (anthropic_classify e)
      end
  | OpenAIProvider =>
      match chat_client env OpenAIProvider model
                        (ClientSettings 1.0 4096 1.0) key with
      | Ok _ => Ok (MkProvider OpenAIProvider model key)
      | Raise e =>
          Raise (provider_error ModelProviderError
                   (py "Failed to initialize OpenAI provider: " ++ exn_str e)
                   (py "OpenAI"))
      end
  end.

(** [await provider.create_message(prompt)] on the provider of the agent
    [owner]: one call to the chat client; whatever it raises is classified
    and raised again. *)
Definition create_message (env : Env) (owner : agent_class) (p : provider)
    (messages : pystr) : task pystr :=
  match prov_class p with
  | AnthropicProvider =>
      Task.try_except
        (n <- Task.next_attempt ;;
         Task.await (chat_invoke env owner n (VStr (nl ++ nl ++ messages))))
        (fun e => Task.raise (anthropic_classify e))
  | OpenAIProvider =>
      Task.try_except
        (n <- Task.next_attempt ;;
         Task.await (chat_invoke env owner n (VStr messages)))
        (fun e => Task.raise (openai_classify e))
  end.

(** [provider.generate_response(system_prompt, user_prompt)], the
    synchronous call. *)
Definition generate_response (env : Env) (owner : agent_class) (p : provider)
    (system_prompt user_prompt : pystr) : task pystr :=
  match prov_class p with
  | AnthropicProvider =>
      Task.try_except
        (n <- Task.next_attempt ;;
         Task.await
           (chat_invoke env owner n
              (VStr (system_prompt ++ nl ++ nl ++ user_prompt))))
        (fun e => Task.raise (anthropic_classify e))
  | OpenAIProvider =>
      Task.try_except
        (n <- Task.next_attempt ;;
         Task.await
           (chat_invoke env owner n
              (VList [VDict [(py "role", VStr (py "system"));
                             (py "content", VStr system_prompt)];
                      VDict [(py "role", VStr (py "user"));
                             (py "content", VStr user_prompt)]])))
        (fun e => Task.raise (openai_classify e))
  end.

(** [BaseProvider._handle_provider_error(error, retry_count)].  No function
    of the repository calls it. *)
Definition _handle_provider_error (env : Env) (owner : agent_class)
    (p : provider) (error : exn) (retry_count : nat) : task pystr :=
  match exn_cls error with
  | ProviderConnectionError =>
      if retry_count <? 3 then
        Task.sleep (2 ^ retry_count) ;;;
        generate_response env owner p
          (py "Retry after connection error") (py "Please try again")
      else Task.raise error
  | ProviderQuotaError =>
      Task.await
        (fallback_generate env (py "Fallback after quota error")
                           (py "Please try again"))
  | _ => Task.raise error
  end.

End Provider.

(* ================================================================== *)
(** * agents/base.py and agents/specialized.py *)
(* ================================================================== *)

Module Agent.

Import Provider.
Open Scope task_scope.

(** An agent object.  [provider_name] records the argument the constructor
    was called with; the redis fields are those of [MarketDataAgent]. *)
Record agent := MkAgent {
  agent_cls : agent_class;
  provider : option provider;
  provider_name : pystr;
  redis_client : option unit;
  redis_url : pystr
}.

(** [BaseAgent.__init__], which every variant calls through [super()];
    [MarketDataAgent.__init__] then sets its redis fields, left at their
    defaults by the orchestrator. *)
Definition __init__ (env : Env) (cls : agent_class) (model_name : pyval)
    (api_key provider_name : pystr) : result agent :=
  match dict_get (PROVIDER_MAP env) provider_name with
  | None => Raise (Exn KeyError (repr_key provider_name))
  | Some provider_class =>
      (p <- _initialize_provider env provider_class model_name api_key ;;
       Ok (MkAgent cls (Some p) provider_name None (py "redis://localhost")))%res
  end.

(** The indentation of the prompt templates, and the lines of a template:
    each one preceded by a line feed and that indentation. *)
Definition indent : pystr := repeat 32%N 16.

Definition block (lines : list pystr) : pystr :=
  List.concat (map (fun l => nl ++ indent ++ l) lines).

(** [list(market_data['data'].values())[0]['quote']['USD']] *)
Definition first_quote (market_data : pyval) : result pyval :=
  (data <- subscript market_data (py "data") ;;
   vs <- values data ;;
   crypto <- first vs ;;
   q <- subscript crypto (py "quote") ;;
   subscript q (py "USD"))%res.

(** [f"{quote[key]:.<prec>f}"] and [f"{quote[key]/c:.<prec>f}"] *)
Definition field_f (prec : nat) (quote : pyval) (key : pystr)
  : result pystr :=
  (v <- subscript quote key ;; format_spec_f prec v)%res.

Definition field_div_f (prec : nat) (quote : pyval) (key : pystr) (c : float)
  : result pystr :=
  (v <- subscript quote key ;;
   f <- div_float v c ;;
   Ok (format_f prec f))%res.

(** ** MarketDataAgent *)

Definition reasoning_markers : list pystr :=
  [py "Because"; py "This is based on"; py "Given that"; py "Considering"].

(** [line.strip().startswith(('Because', ...))] *)
Definition looks_like_reasoning (line : pystr) : bool :=
  existsb (Str.startswith (Str.strip line)) reasoning_markers.

(** The lines kept when [show_reasoning] is false. *)
Definition filter_reasoning (response : pystr) : pystr :=
  let lines := Str.split_nl response in
  let analysis_lines :=
    filter (fun line => negb (looks_like_reasoning line)) lines in
  Str.join_nl analysis_lines.

Definition _init_redis (env : Env) (self : agent) : task agent :=
  match redis_client self with
  | None =>
      c <- Task.await (redis_from_url env (redis_url self)) ;;
      Task.ret (MkAgent (agent_cls self) (provider self) (provider_name self)
                        (Some c) (redis_url self))
  | Some _ => Task.ret self
  end.

Definition market_stats_of (quote : pyval) : result pystr :=
  (price <- field_f 2 quote (py "price") ;;
   change <- field_f 2 quote (py "percent_change_24h") ;;
   volume <- field_div_f 1 quote (py "volume_24h") 1e6 ;;
   cap <- field_div_f 2 quote (py "market_cap") 1e9 ;;
   Ok (py "=== MARKET STATISTICS ===" ++ nl
       ++ py "Current Price:    $" ++ price ++ nl
       ++ py "24h Change:       " ++ change ++ py "%" ++ nl
       ++ py "Volume:          $" ++ volume ++ py "M" ++ nl
       ++ py "Market Cap:      $" ++ cap ++ py "B"))%res.

Definition reasoning_request (show_reasoning : bool) : pystr :=
  if show_reasoning then
    block [py "For each point, please explain your reasoning by:";
           py "- Citing specific data points that support your conclusion";
           py "- Explaining the significance of these indicators";
           py "- Describing how you arrived at your assessment";
           []]
  else [].

Definition market_prompt (market_stats : pystr) (show_reasoning : bool)
  : pystr :=
  py "Analyze the following cryptocurrency market data and provide insights:"
  ++ block [market_stats;
            [];
            py "Please provide:";
            py "1. Market strength assessment";
            py "2. Notable patterns or concerns";
            py "3. Key factors to watch";
            reasoning_request show_reasoning;
            []].

(** [isinstance(v, dict)] *)
Definition is_dict (v : pyval) : bool :=
  match v with VDict _ => true | _ => false end.

(** [if cached_result:] on what [redis_client.get] returned. *)
Definition cache_hit (cached : option pystr) : option pystr :=
  match cached with
  | Some (c :: b) => Some (c :: b)
  | _ => None
  end.

(** The part of [MarketDataAgent.analyze] after the cache lookup missed. *)
Definition market_recompute (env : Env) (self : agent) (market_data : pyval)
    (show_reasoning : bool) (cache_key : pystr) : task pyval :=
  has_data <- Task.lift
    (if is_dict market_data then contains_key (py "data") market_data
     else Ok false) ;;
  if negb has_data then
    Task.ret (VStr (py "Error: Invalid or missing market data"))
  else
    crypto_data <- Task.lift
      (data <- subscript market_data (py "data") ;;
       vs <- values data ;;
       Ok (match vs with v :: _ => v | [] => VNone end))%res ;;
    well_formed <- Task.lift
      (if negb (truthy crypto_data) then Ok false
       else
         has_quote <- contains_key (py "quote") crypto_data ;;
         if negb has_quote then Ok false
         else
           q <- subscript crypto_data (py "quote") ;;
           contains_key (py "USD") q)%res ;;
    if negb well_formed then
      Task.ret (VStr (py "Error: Invalid cryptocurrency data structure"))
    else
      quote <- Task.lift
        (q <- subscript crypto_data (py "quote") ;;
         subscript q (py "USD"))%res ;;
      market_stats <- Task.lift (market_stats_of quote) ;;
      analysis <-
        match provider self with
        | Some p =>
            let prompt := market_prompt market_stats show_reasoning in
            response <- create_message env MarketDataAgent p prompt ;;
            if negb show_reasoning then Task.ret (filter_reasoning response)
            else Task.ret response
        | None => Task.ret market_stats
        end ;;
      Task.await (redis_set env cache_key (json_dumps env analysis) 3600) ;;;
      Task.ret (VStr analysis).

(** [f"{symbol}:{quote['price']}:{quote['percent_change_24h']}:{hour}"] *)
Definition cache_key_of (env : Env) (symbol : pystr) (price_v change_v : pyval)
    (t : nat) : pystr :=
  symbol ++ py ":" ++ str_of env price_v ++ py ":" ++ str_of env change_v
         ++ py ":" ++ strftime_hour env t.

(** The [try] statement of [MarketDataAgent.analyze]. *)
Definition market_try (env : Env) (self : agent) (market_data : pyval)
    (show_reasoning : bool) : task pyval :=
  Task.try_except
    (symbol <- Task.lift
       (data <- subscript market_data (py "data") ;;
        ks <- keys data ;;
        next_iter ks)%res ;;
     quote <- Task.lift
       (data <- subscript market_data (py "data") ;;
        crypto <- subscript data symbol ;;
        q <- subscript crypto (py "quote") ;;
        subscript q (py "USD"))%res ;;
     price_v <- Task.lift (subscript quote (py "price")) ;;
     change_v <- Task.lift (subscript quote (py "percent_change_24h")) ;;
     t <- Task.clock ;;
     let cache_key := cache_key_of env symbol price_v change_v t in
     cached_result <- Task.await (redis_get env cache_key) ;;
     match cache_hit cached_result with
     | Some cached => Task.lift (json_loads env cached)
     | None =>
         market_recompute env self market_data show_reasoning cache_key
     end)
    (fun e =>
       Task.ret (VStr (py "Error analyzing market data: " ++ exn_str e))).

Definition market_analyze (env : Env) (self : agent) (price : price_data)
    (market_data : pyval) (show_reasoning : bool) : task pyval :=
  self <- _init_redis env self ;;
  market_try env self market_data show_reasoning.

(** ** SentimentAgent *)

Definition sentiment_stats_of (quote : pyval) : result pystr :=
  (c24 <- field_f 2 quote (py "percent_change_24h") ;;
   c7 <- field_f 2 quote (py "percent_change_7d") ;;
   c30 <- field_f 2 quote (py "percent_change_30d") ;;
   vol <- field_f 2 quote (py "volume_change_24h") ;;
   Ok (py "=== MARKET TRENDS ===" ++ nl
       ++ py "24h Change: " ++ c24 ++ py "%" ++ nl
       ++ py "7d Change: " ++ c7 ++ py "%" ++ nl
       ++ py "30d Change: " ++ c30 ++ py "%" ++ nl
       ++ py "Volume Change 24h: " ++ vol ++ py "%"))%res.

Definition sentiment_prompt (market_stats : pystr) : pystr :=
  py "Analyze the market sentiment based on the following cryptocurrency data:"
  ++ block [market_stats;
            [];
            py "Please provide:";
            py "1. Overall market sentiment (bullish/bearish/neutral)";
            py "2. Key sentiment indicators";
            py "3. Sentiment outlook for next 24-48 hours";
            []].

(** The branch taken when [self.provider] is false. *)
Definition sentiment_fallback (quote : pyval) : result pystr :=
  (c <- subscript quote (py "percent_change_24h") ;;
   up <- gt_int c 0 ;;
   let sentiment := if up then py "bullish" else py "bearish" in
   c24 <- field_f 2 quote (py "percent_change_24h") ;;
   c7 <- field_f 2 quote (py "percent_change_7d") ;;
   Ok (py "Market Sentiment: " ++ Str.upper sentiment ++ nl
       ++ py "24h Trend: " ++ c24 ++ py "%" ++ nl
       ++ py "7d Trend: " ++ c7 ++ py "%"))%res.

Definition sentiment_analyze (env : Env) (self : agent) (price : price_data)
    (market_data : pyval) (show_reasoning : bool) : task pyval :=
  Task.try_except
    (quote <- Task.lift (first_quote market_data) ;;
     market_stats <- Task.lift (sentiment_stats_of quote) ;;
     analysis <-
       match provider self with
       | Some p =>
           let prompt := sentiment_prompt market_stats in
           response <- create_message env SentimentAgent p prompt ;;
           Task.ret response
       | None => Task.lift (sentiment_fallback quote)
       end ;;
     Task.ret (VStr analysis))
    (fun e => Task.ret (VStr (py "Error analyzing sentiment: " ++ exn_str e))).

(** ** TechnicalAgent *)

(** [df.empty]: some axis of the frame has length zero. *)
Definition df_empty (df : DataFrame) : bool :=
  match df_columns df, df_rows df with
  | _ :: _, _ :: _ => false
  | _, _ => true
  end.

(** The conversion of a [dict] to a frame, with the check of the required
    column; whatever is raised is raised again as a [ValueError]. *)
Definition frame_of_price_dict (env : Env) (v : pyval) : result DataFrame :=
  let body :=
    (df <- frame_of_dict env v ;;
     if existsb (Str.eqb (py "close")) (df_columns df) then Ok df
     else Raise (Exn ValueError (py "Missing required columns: ['close']")))%res
  in
  match body with
  | Ok df => Ok df
  | Raise e =>
      Raise (Exn ValueError
               (py "Error converting prices to DataFrame: " ++ exn_str e))
  end.

Definition technical_data_of (i : indicators) : pystr :=
  py "=== TECHNICAL INDICATORS ===" ++ nl
  ++ py "RSI (14): " ++ format_f 2 (latest_rsi i) ++ nl
  ++ py "MACD: " ++ format_f 2 (latest_macd i) ++ nl
  ++ py "Signal Line: " ++ format_f 2 (latest_signal i) ++ nl
  ++ py "Current Price: " ++ format_f 2 (latest_close i) ++ nl
  ++ py "Upper BB: " ++ format_f 2 (latest_upper i) ++ nl
  ++ py "Lower BB: " ++ format_f 2 (latest_lower i).

Definition technical_prompt (technical_data : pystr) : pystr :=
  py "Analyze these technical indicators and provide trading insights:"
  ++ block [technical_data;
            [];
            py "Please provide:";
            py "1. Overall technical analysis summary";
            py "2. Key indicator signals (RSI, MACD, Bollinger Bands)";
            py "3. Potential price action scenarios";
            py "4. Trading recommendations based on technical analysis";
            []].

Definition technical_fallback (i : indicators) : pystr :=
  let rsi_signal :=
    if PrimFloat.ltb (float_lit 70) (latest_rsi i) then py "Overbought"
    else if PrimFloat.ltb (latest_rsi i) (float_lit 30) then py "Oversold"
    else py "Neutral" in
  let macd_signal :=
    if PrimFloat.ltb (latest_signal i) (latest_macd i) then py "Bullish"
    else py "Bearish" in
  let bb_signal :=
    if PrimFloat.ltb (latest_upper i) (latest_close i) then py "Overbought"
    else if PrimFloat.ltb (latest_close i) (latest_lower i) then py "Oversold"
    else py "Neutral" in
  py "Technical Analysis:" ++ nl
  ++ py "RSI (14): " ++ format_f 2 (latest_rsi i) ++ py " - " ++ rsi_signal
  ++ nl
  ++ py "MACD Signal: " ++ macd_signal ++ py " (MACD: "
  ++ format_f 2 (latest_macd i) ++ py ", Signal: "
  ++ format_f 2 (latest_signal i) ++ py ")" ++ nl
  ++ py "Bollinger Bands: " ++ bb_signal ++ py " (Price: "
  ++ format_f 2 (latest_close i) ++ py ", Upper: "
  ++ format_f 2 (latest_upper i) ++ py ", Lower: "
  ++ format_f 2 (latest_lower i) ++ py ")".

Definition technical_analyze (env : Env) (self : agent) (price : price_data)
    (market_data : pyval) (show_reasoning : bool) : task pyval :=
  Task.try_except
    (df <- Task.lift
       match price with
       | PriceVal (VDict d) => frame_of_price_dict env (VDict d)
       | PriceVal v => Raise (no_attribute v (py "empty"))
       | PriceFrame df => Ok df
       end ;;
     if df_empty df then
       Task.ret
         (VStr (py "Error: No price data available for technical analysis"))
     else
       i <- Task.lift (latest_indicators env df) ;;
       let technical_data := technical_data_of i in
       analysis <-
         match provider self with
         | Some p =>
             let prompt := technical_prompt technical_data in
             response <- create_message env TechnicalAgent p prompt ;;
             Task.ret response
         | None => Task.ret (technical_fallback i)
         end ;;
       Task.ret (VStr analysis))
    (fun e =>
       Task.ret
         (VStr (py "Error analyzing technical indicators: " ++ exn_str e))).

(** ** RiskManagementAgent *)

Definition risk_data_of (quote volatility : pyval) : result pystr :=
  (vol <- format_spec_f 2 volatility ;;
   volume_change <- field_f 2 quote (py "volume_change_24h") ;;
   cap <- field_div_f 2 quote (py "market_cap") 1e9 ;;
   volume <- field_div_f 2 quote (py "volume_24h") 1e6 ;;
   Ok (py "=== RISK METRICS ===" ++ nl
       ++ py "24h Volatility: " ++ vol ++ py "%" ++ nl
       ++ py "Volume Change: " ++ volume_change ++ py "%" ++ nl
       ++ py "Market Cap: $" ++ cap ++ py "B" ++ nl
       ++ py "24h Volume: $" ++ volume ++ py "M"))%res.

Definition risk_prompt (risk_data : pystr) : pystr :=
  py "Analyze the following risk metrics for this cryptocurrency:"
  ++ block [risk_data;
            [];
            py "Please provide:";
            py "1. Overall risk assessment";
            py "2. Key risk factors";
            py "3. Risk mitigation recommendations";
            py "4. Position sizing suggestions";
            []].

Definition risk_fallback (quote volatility : pyval) : result pystr :=
  (high <- gt_int volatility 10 ;;
   risk_level <-
     (if high then Ok (py "HIGH")
      else
        medium <- gt_int volatility 5 ;;
        Ok (if medium then py "MEDIUM" else py "LOW")) ;;
   vol <- format_spec_f 2 volatility ;;
   volume_change <- field_f 2 quote (py "volume_change_24h") ;;
   Ok (py "Risk Level: " ++ risk_level ++ nl
       ++ py "Volatility: " ++ vol ++ py "%" ++ nl
       ++ py "Volume Change: " ++ volume_change ++ py "%"))%res.

Definition risk_analyze (env : Env) (self : agent) (price : price_data)
    (market_data : pyval) (show_reasoning : bool) : task pyval :=
  Task.try_except
    (quote <- Task.lift (first_quote market_data) ;;
     volatility <- Task.lift
       (c <- subscript quote (py "percent_change_24h") ;; py_abs c)%res ;;
     risk_data <- Task.lift (risk_data_of quote volatility) ;;
     analysis <-
       match provider self with
       | Some p =>
           let prompt := risk_prompt risk_data in
           response <- create_message env RiskManagementAgent p prompt ;;
           Task.ret response
       | None => Task.lift (risk_fallback quote volatility)
       end ;;
     Task.ret (VStr analysis))
    (fun e => Task.ret (VStr (py "Error analyzing risks: " ++ exn_str e))).

(** ** PortfolioAgent *)

Definition portfolio_data_of (quote : pyval) : result pystr :=
  (price <- field_f 2 quote (py "price") ;;
   c24 <- field_f 2 quote (py "percent_change_24h") ;;
   c7 <- field_f 2 quote (py "percent_change_7d") ;;
   cap <- field_div_f 2 quote (py "market_cap") 1e9 ;;
   volume <- field_div_f 2 quote (py "volume_24h") 1e6 ;;
   Ok (py "=== PORTFOLIO METRICS ===" ++ nl
       ++ py "Current Price: $" ++ price ++ nl
       ++ py "24h Change: " ++ c24 ++ py "%" ++ nl
       ++ py "7d Change: " ++ c7 ++ py "%" ++ nl
       ++ py "Market Cap: $" ++ cap ++ py "B" ++ nl
       ++ py "Volume: $" ++ volume ++ py "M"))%res.

Definition portfolio_prompt (portfolio_data : pystr) : pystr :=
  py "Analyze these portfolio metrics and provide investment recommendations:"
  ++ block [portfolio_data;
            [];
            py "Please provide:";
            py "1. Recommended portfolio action (buy/sell/hold)";
            py "2. Position sizing recommendation";
            py "3. Risk management considerations";
            py "4. Short-term and long-term outlook";
            []].

Definition portfolio_fallback (quote : pyval) : result pystr :=
  (trend <- subscript quote (py "percent_change_24h") ;;
   take <- gt_int trend 5 ;;
   action <-
     (if take then Ok (py "TAKE PROFIT")
      else
        dip <- lt_int trend (-5) ;;
        Ok (if dip then py "BUY DIP" else py "HOLD")) ;;
   shown <- format_spec_f 2 trend ;;
   up <- gt_int trend 0 ;;
   Ok (py "Recommended Action: " ++ action ++ nl
       ++ py "Price Trend: " ++ shown ++ py "%" ++ nl
       ++ py "Market Direction: "
       ++ (if up then py "Upward" else py "Downward")))%res.

Definition portfolio_analyze (env : Env) (self : agent) (price : price_data)
    (market_data : pyval) (show_reasoning : bool) : task pyval :=
  Task.try_except
    (quote <- Task.lift (first_quote market_data) ;;
     portfolio_data <- Task.lift (portfolio_data_of quote) ;;
     analysis <-
       match provider self with
       | Some p =>
           let prompt := portfolio_prompt portfolio_data in
           response <- create_message env PortfolioAgent p prompt ;;
           Task.ret response
       | None => Task.lift (portfolio_fallback quote)
       end ;;
     Task.ret (VStr analysis))
    (fun e =>
       Task.ret (VStr (py "Error generating portfolio advice: " ++ exn_str e))).

(** [agent.analyze(symbol=..., price_data=..., market_data=...,
    show_reasoning=...)], by the class of the agent.  Every variant
    overwrites or ignores [symbol]. *)
Definition analyze (env : Env) (self : agent) (symbol : pystr)
    (price : price_data) (market_data : pyval) (show_reasoning : bool)
  : task pyval :=
  match agent_cls self with
  | MarketDataAgent => market_analyze env self price market_data show_reasoning
  | SentimentAgent =>
      sentiment_analyze env self price market_data show_reasoning
  | TechnicalAgent =>
      technical_analyze env self price market_data show_reasoning
  | RiskManagementAgent => risk_analyze env self price market_data show_reasoning
  | PortfolioAgent =>
      portfolio_analyze env self price market_data show_reasoning
  end.

End Agent.

(* ================================================================== *)
(** * agents/__init__.py: the orchestrator *)
(* ================================================================== *)

Module Orchestrator.

Import Agent.
Open Scope res_scope.

(** The [provider_map] argument: [None], one provider name, or a list. *)
Inductive provider_arg :=
| ProvidersNone
| ProvidersStr (s : pystr)
| ProvidersList (l : list pystr).

Definition agent_mapping : list (pystr * (pystr * agent_class)) :=
  [(py "market", (py "market_data_agent", MarketDataAgent));
   (py "sentiment", (py "sentiment_agent", SentimentAgent));
   (py "technical", (py "technical_agent", TechnicalAgent));
   (py "risk", (py "risk_management_agent", RiskManagementAgent));
   (py "portfolio", (py "portfolio_agent", PortfolioAgent))].

(** The two dictionaries filled by the loop over the providers. *)
Record tables := Tables {
  provider_configs : list (pystr * pyval);
  api_keys : list (pystr * pystr)
}.

(** [os.getenv(var)] followed by [if not api_key: raise ValueError(...)]. *)
Definition require_key (env : Env) (var : pystr) : result pystr :=
  match getenv env var with
  | Some (c :: k) => Ok (c :: k)
  | _ =>
      Raise (Exn ValueError (var ++ py " not found in environment variables"))
  end.

(** The body of [for provider in providers:]. *)
Definition configure (env : Env) (t : tables) (provider : pystr)
  : result tables :=
  provider_config <- get_provider_config env provider ;;
  default_model <- subscript provider_config (py "default_model") ;;
  let configs := dict_set (provider_configs t) provider default_model in
  if Str.eqb provider (py "anthropic") then
    api_key <- require_key env (py "ANTHROPIC_API_KEY") ;;
    Ok (Tables configs (dict_set (api_keys t) provider api_key))
  else if Str.eqb provider (py "openai") then
    api_key <- require_key env (py "OPENAI_API_KEY") ;;
    Ok (Tables configs (dict_set (api_keys t) provider api_key))
  else Ok (Tables configs (api_keys t)).

Fixpoint configure_all (env : Env) (t : tables) (providers : list pystr)
  : result tables :=
  match providers with
  | [] => Ok t
  | provider :: rest =>
      t' <- configure env t provider ;;
      configure_all env t' rest
  end.

(** [if provider_map:] and the conversion of a single name to a list. *)
Definition providers_of (provider_map : provider_arg) : list pystr :=
  match provider_map with
  | ProvidersNone => []
  | ProvidersStr [] => []
  | ProvidersStr s => [s]
  | ProvidersList l => l
  end.

(** [agent_class(model_name=provider_configs[provider],
                 api_key=api_keys[provider], provider_name=provider)] *)
Definition construct (env : Env) (t : tables) (cls : agent_class)
    (provider : pystr) : result agent :=
  model_name <-
    match dict_get (provider_configs t) provider with
    | Some m => Ok m
    | None => Raise (Exn KeyError (repr_key provider))
    end ;;
  api_key <-
    match dict_get (api_keys t) provider with
    | Some k => Ok k
    | None => Raise (Exn KeyError (repr_key provider))
    end ;;
  __init__ env cls model_name api_key provider.

(** [provider_list[i % len(provider_list)]] *)
Definition round_robin (provider_list : list pystr) (i : nat)
  : result pystr :=
  match provider_list with
  | [] =>
      Raise (Exn ZeroDivisionError (py "integer modulo by zero"))
  | p :: _ => Ok (nth (i mod List.length provider_list) provider_list p)
  end.

(** The loop [for i, (_, (agent_name, agent_class)) in
    enumerate(agent_mapping.items()):], started at index [i] with the
    agents built so far. *)
Fixpoint build_all (env : Env) (t : tables) (provider_list : list pystr)
    (mapping : list (pystr * (pystr * agent_class))) (i : nat)
    (agents : list (pystr * agent)) : result (list (pystr * agent)) :=
  match mapping with
  | [] => Ok agents
  | (_, (agent_name, cls)) :: rest =>
      provider <- round_robin provider_list i ;;
      a <- construct env t cls provider ;;
      build_all env t provider_list rest (S i) (dict_set agents agent_name a)
  end.

(** Everything [analyze_market] does before it starts the analyses: the
    agents, each with its provider, or the exception that ends the call. *)
Definition resolve_agents (env : Env) (provider_map : provider_arg)
    (agent_type : option pystr) : result (list (pystr * agent)) :=
  _ <- ModelConfig env ;;
  t <- configure_all env (Tables [] []) (providers_of provider_map) ;;
  let provider_list := map fst (provider_configs t) in
  match agent_type with
  | Some (c :: k) =>
      match dict_get agent_mapping (c :: k) with
      | None =>
          Raise (Exn ValueError (py "Invalid agent_type: " ++ (c :: k)))
      | Some (agent_name, cls) =>
          provider <- first provider_list ;;
          a <- construct env t cls provider ;;
          Ok (dict_set [] agent_name a)
      end
  | _ => build_all env t provider_list agent_mapping 0 []
  end.

(** What a slot of the result holds: the value the agent's coroutine
    returned, or (by [return_exceptions=True]) the exception it raised. *)
Inductive slot :=
| Returned (v : pyval)
| Raised (e : exn).

(** A task started at time [t0] on a client not yet used: its slot and
    the time at which it finishes. *)
Definition run_task (t0 : nat) (t : task pyval) : slot * nat :=
  match t (TState t0 0) with
  | (Ok v, s) => (Returned v, now s)
  | (Raise e, s) => (Raised e, now s)
  end.

(** [dict(pairs)] *)
Definition dict_of {V} (pairs : list (pystr * V)) : list (pystr * V) :=
  fold_left (fun d kv => dict_set d (fst kv) (snd kv)) pairs [].

(** [await asyncio.gather] with [return_exceptions=True]: every task
    runs to its end; the call returns when the last one has. *)
Definition gather (t0 : nat) (tasks : list (task pyval)) : list slot * nat :=
  let outcomes := map (run_task t0) tasks in
  (map fst outcomes, fold_left Nat.max (map snd outcomes) t0).

Definition run_agents (env : Env) (symbol : pystr) (market_data : pyval)
    (price : price_data) (show_reasoning : bool)
    (agents : list (pystr * agent)) (t0 : nat)
  : list (pystr * slot) * nat :=
  let tasks :=
    dict_of (map (fun na =>
                    (fst na,
                     analyze env (snd na) symbol price market_data
                             show_reasoning)) agents) in
  let (results, t1) := gather t0 (map snd tasks) in
  (dict_of (combine (map fst tasks) results), t1).

(** [analyze_market], called at time [t0]: the mapping from agent name to
    slot, or the exception raised, and the time at which the call ends. *)
Definition analyze_market (env : Env) (symbol : pystr) (market_data : pyval)
    (price : price_data) (show_reasoning : bool) (provider_map : provider_arg)
    (agent_type : option pystr) (t0 : nat)
  : result (list (pystr * slot)) * nat :=
  match resolve_agents env provider_map agent_type with
  | Raise e => (Raise e, t0)
  | Ok agents =>
      let (results, t1) :=
        run_agents env symbol market_data price show_reasoning agents t0 in
      (Ok results, t1)
  end.

End Orchestrator.

(* ================================================================== *)
(** * Notions used by the properties, and concrete worlds *)
(* ================================================================== *)

Module Scenario.

Import Provider Agent Orchestrator.

(** The payload of the market-data source for one symbol:
    [{'data': {symbol: {'quote': {'USD': quote}}}}]. *)
Definition snapshot (symbol : pystr) (quote : pyval) : pyval :=
  VDict [(py "data",
          VDict [(symbol, VDict [(py "quote", VDict [(py "USD", quote)])])])].

(** The name under which the orchestrator files the agent of a class. *)
Definition name_of_class (c : agent_class) : pystr :=
  match c with
  | MarketDataAgent => py "market_data_agent"
  | SentimentAgent => py "sentiment_agent"
  | TechnicalAgent => py "technical_agent"
  | RiskManagementAgent => py "risk_management_agent"
  | PortfolioAgent => py "portfolio_agent"
  end.

(** The five names in the order of [agent_mapping]. *)
Definition canonical_names : list pystr :=
  map (fun e => fst (snd e)) agent_mapping.

(** The provider the agent at position [i] was constructed with. *)
Definition assigned (agents : list (pystr * agent)) (i : nat)
  : option pystr :=
  option_map (fun na => provider_name (snd na)) (nth_error agents i).

(** The names of a list without their repetitions, each at the place of
    its first occurrence. *)
Definition note (acc : list pystr) (x : pystr) : list pystr :=
  if existsb (Str.eqb x) acc then acc else acc ++ [x].

Definition first_occurrences (l : list pystr) : list pystr :=
  fold_left note l [].

(** [i mod m]-th element of a list of names. *)
Definition at_mod (l : list pystr) (i : nat) : option pystr :=
  nth_error l (i mod List.length l).

Definition agent_class_eqb (a b : agent_class) : bool :=
  match a, b with
  | MarketDataAgent, MarketDataAgent
  | SentimentAgent, SentimentAgent
  | TechnicalAgent, TechnicalAgent
  | RiskManagementAgent, RiskManagementAgent
  | PortfolioAgent, PortfolioAgent => true
  | _, _ => false
  end.

(** The world [env] in which the chat client of the agent of class [c]
    behaves as [f] instead; everything else is as in [env]. *)
Definition with_chat (env : Env) (c : agent_class)
    (f : nat -> pyval -> result pystr * nat) : Env :=
  {| getenv := getenv env;
     ModelConfig := ModelConfig env;
     get_provider_config := get_provider_config env;
     PROVIDER_MAP := PROVIDER_MAP env;
     chat_client := chat_client env;
     chat_invoke := fun c' => if agent_class_eqb c' c then f
                              else chat_invoke env c';
     fallback_generate := fallback_generate env;
     redis_from_url := redis_from_url env;
     redis_get := redis_get env;
     redis_set := redis_set env;
     strftime_hour := strftime_hour env;
     str_of := str_of env;
     json_dumps := json_dumps env;
     json_loads := json_loads env;
     frame_of_dict := frame_of_dict env;
     latest_indicators := latest_indicators env |}.

(** The slot filed under a name in the result of [analyze_market]. *)
Definition slot_of (r : result (list (pystr * slot)) * nat) (name : pystr)
  : option slot :=
  match fst r with
  | Ok results => dict_get results name
  | Raise _ => None
  end.

(** ** A world in which everything works

    Both keys are set, both providers are configured and registered, the
    chat clients answer ["All good"] after two ticks, the cache is empty
    and accepts what is stored. *)
Definition world (chat : agent_class -> nat -> pyval -> result pystr * nat)
    (from_url : pystr -> result unit * nat)
    (get : pystr -> result (option pystr) * nat)
    (set : pystr -> pystr -> Z -> result unit * nat) : Env :=
  {| getenv := fun _ => Some (py "secret");
     ModelConfig := Ok tt;
     get_provider_config :=
       fun p => Ok (VDict [(py "default_model", VStr (py "model-of-" ++ p))]);
     PROVIDER_MAP := [(py "anthropic", AnthropicProvider);
                      (py "openai", OpenAIProvider)];
     chat_client := fun _ _ _ _ => Ok tt;
     chat_invoke := chat;
     fallback_generate := fun _ _ => (Ok (py "Fallback answer"), 1);
     redis_from_url := from_url;
     redis_get := get;
     redis_set := set;
     strftime_hour := fun _ => py "2024-01-01-00";
     str_of := fun _ => py "?";
     json_dumps := fun s => s;
     json_loads := fun s => Ok (VStr s);
     frame_of_dict :=
       fun _ => Ok (MkFrame [py "close"] [[VFloat 100]]);
     latest_indicators := fun _ => Ok (Indicators 50 1 1 100 110 90) |}.

Definition chat_ok : agent_class -> nat -> pyval -> result pystr * nat :=
  fun _ _ _ => (Ok (py "All good"), 2).

Definition url_ok : pystr -> result unit * nat := fun _ => (Ok tt, 0).
Definition get_miss : pystr -> result (option pystr) * nat :=
  fun _ => (Ok None, 1).
Definition set_ok : pystr -> pystr -> Z -> result unit * nat :=
  fun _ _ _ => (Ok tt, 1).

Definition env_ok : Env := world chat_ok url_ok get_miss set_ok.

(** The snapshot of the scenario: exactly the four fields it lists. *)
Definition four_fields : list (pystr * pyval) :=
  [(py "price", VFloat 100.00);
   (py "percent_change_24h", VFloat 12.0);
   (py "volume_24h", VInt 5000000);
   (py "market_cap", VInt 2000000000)].

Definition quote_four : pyval := VDict four_fields.

(** The same with the three other fields of a quote. *)
Definition all_fields : list (pystr * pyval) :=
  four_fields ++
  [(py "percent_change_7d", VFloat 3.5);
   (py "percent_change_30d", VFloat (-1.25));
   (py "volume_change_24h", VFloat 0.5)].

Definition quote_full : pyval := VDict all_fields.

Definition BTC : pystr := py "BTC".

Definition no_prices : price_data := PriceVal VNone.

Definition some_prices : price_data :=
  PriceFrame (MkFrame [py "close"] [[VFloat 100]]).

(** An agent of a class with no provider configured, and one with an
    Anthropic provider. *)
Definition without_provider (c : agent_class) : agent :=
  MkAgent c None (py "anthropic") None (py "redis://localhost").

Definition with_provider (c : agent_class) : agent :=
  MkAgent c (Some (MkProvider AnthropicProvider (VStr (py "model")) (py "secret")))
          (py "anthropic") None (py "redis://localhost").

Definition start : tstate := TState 0 0.

(** What the Market agent stores and returns once its statistics exist
    (the [if self.provider:] of [MarketDataAgent.analyze]): the statistics
    themselves without a provider, the provider's response otherwise,
    filtered unless the reasoning is to be shown. *)
Definition market_analysis (env : Env) (self : agent) (stats : pystr)
    (show_reasoning : bool) : task pystr :=
  match provider self with
  | Some p =>
      Task.bind
        (create_message env MarketDataAgent p
                        (market_prompt stats show_reasoning))
        (fun response =>
           if negb show_reasoning then Task.ret (filter_reasoning response)
           else Task.ret response)
  | None => Task.ret stats
  end.

(** A line: a string without a line feed. *)
Definition no_nl (l : pystr) : Prop := ~ In 10%N l.

(** ** The deadline of the specification

    In the words of the specification: an agent task still running when
    the deadline expires has its slot reported as a Timeout error.  Here
    the call is made at [t0] and the deadline expires at [t0 + deadline]. *)
Definition deadline_respected (env : Env) (symbol : pystr)
    (market_data : pyval) (price : price_data) (show_reasoning : bool)
    (provider_map : provider_arg) (agent_type : option pystr) (t0 : nat)
    (deadline : nat) : Prop :=
  forall agents name a,
    resolve_agents env provider_map agent_type = Ok agents ->
    In (name, a) agents ->
    t0 + deadline <
      snd (run_task t0 (analyze env a symbol price market_data
                                show_reasoning)) ->
    exists e,
      slot_of (analyze_market env symbol market_data price show_reasoning
                              provider_map agent_type t0) name
      = Some (Raised e) /\ exn_cls e = TimeoutError.

(** A world in which the chat client of the Technical agent answers after
    a hundred ticks, the others after two. *)
Definition chat_slow_technical
  : agent_class -> nat -> pyval -> result pystr * nat :=
  fun c _ _ =>
    match c with
    | TechnicalAgent => (Ok (py "Late but complete"), 100)
    | _ => (Ok (py "All good"), 2)
    end.

Definition env_slow : Env := world chat_slow_technical url_ok get_miss set_ok.

(** [aioredis.from_url] refuses a URL without one of its schemes. *)
Definition url_checked : pystr -> result unit * nat :=
  fun url =>
    if Str.startswith url (py "redis://") || Str.startswith url (py "rediss://")
       || Str.startswith url (py "unix://")
    then (Ok tt, 0)
    else (Raise (Exn ValueError
                   (py "Redis URL must specify one of the following schemes (redis://, rediss://, unix://)")),
          0).

Definition env_url_checked : Env := world chat_ok url_checked get_miss set_ok.

(** A Market agent built with a URL that has no scheme. *)
Definition market_agent_bad_url : agent :=
  MkAgent MarketDataAgent
          (Some (MkProvider AnthropicProvider (VStr (py "model")) (py "secret")))
          (py "anthropic") None (py "localhost:6379").

(** A cache that cannot be reached. *)
Definition get_down : pystr -> result (option pystr) * nat :=
  fun _ => (Raise (Exn OtherException (py "Connection refused")), 1).

Definition set_down : pystr -> pystr -> Z -> result unit * nat :=
  fun _ _ _ => (Raise (Exn OtherException (py "Connection refused")), 1).

Definition env_get_down : Env := world chat_ok url_ok get_down set_ok.
Definition env_set_down : Env := world chat_ok url_ok get_miss set_down.

(** A chat client whose first call fails on the connection and whose
    later calls answer. *)
Definition chat_flaky : agent_class -> nat -> pyval -> result pystr * nat :=
  fun _ n _ =>
    match n with
    | 0 => (Raise (Exn OtherException (py "Connection reset by peer")), 1)
    | S _ => (Ok (py "Recovered"), 1)
    end.

Definition env_flaky : Env := world chat_flaky url_ok get_miss set_ok.

(** A chat client that answers one line of reasoning. *)
Definition chat_because : agent_class -> nat -> pyval -> result pystr * nat :=
  fun _ _ _ => (Ok (py "Because volume is rising"), 1).

Definition env_because : Env := world chat_because url_ok get_miss set_ok.

(** A chat client that is out of quota. *)
Definition quota_exhausted : nat -> pyval -> result pystr * nat :=
  fun _ _ => (Raise (Exn OtherException (py "429: rate limit exceeded")), 1).

End Scenario.

(* ================================================================== *)
(** * Further worlds and notions *)
(* ================================================================== *)

Module Worlds.

Import Provider Agent Orchestrator Scenario.

(** The world [env] without the environment variable [var]. *)
Definition without_variable (env : Env) (var : pystr) : Env :=
  {| getenv := fun v => if Str.eqb v var then None else getenv env v;
     ModelConfig := ModelConfig env;
     get_provider_config := get_provider_config env;
     PROVIDER_MAP := PROVIDER_MAP env;
     chat_client := chat_client env;
     chat_invoke := chat_invoke env;
     fallback_generate := fallback_generate env;
     redis_from_url := redis_from_url env;
     redis_get := redis_get env;
     redis_set := redis_set env;
     strftime_hour := strftime_hour env;
     str_of := str_of env;
     json_dumps := json_dumps env;
     json_loads := json_loads env;
     frame_of_dict := frame_of_dict env;
     latest_indicators := latest_indicators env |}.

(** A cache that holds an analysis under every key. *)
Definition get_hit : pystr -> result (option pystr) * nat :=
  fun _ => (Ok (Some (py "Stored analysis")), 1).

Definition env_cached : Env := world chat_ok url_ok get_hit set_ok.

(** A task makes at most [n] calls to the chat client of its agent, and
    never turns the clock back. *)
Definition calls_at_most {A} (n : nat) (m : task A) : Prop :=
  forall st,
    attempts st <= attempts (snd (m st)) <= attempts st + n /\
    now st <= now (snd (m st)).

(** A task that, when it returns, returns a string. *)
Definition text_or_raises (m : task pyval) : Prop :=
  forall st,
    match fst (m st) with
    | Ok (VStr _) | Raise _ => True
    | Ok _ => False
    end.

End Worlds.

(* ================================================================== *)
(** * providers/cmc_client.py, providers/crypto_market_provider.py,
      tools.py and api/main.py: where the market data come from and where
      the analyses go *)
(* ================================================================== *)

Module Api.

Import Provider Agent Orchestrator Scenario.

(** ** providers/cmc_client.py *)

Module CMCClient.

(** [CMCClient.__init__]: the key it keeps.  [getenv] is the environment
    of the running application, which [load_dotenv()] has filled already
    (the [lifespan] of [api/main.py] builds a [CMCClient] before any route
    runs), so that the call of [load_dotenv()] here changes nothing. *)
Definition __init__ (env : Env) : result pystr :=
  match getenv env (py "COINMARKETCAP_API_KEY") with
  | Some (c :: k) => Ok (c :: k)
  | _ =>
      Raise (Exn ValueError
               (py "COINMARKETCAP_API_KEY not found in environment variables"))
  end.

End CMCClient.

(** ** providers/crypto_market_provider.py *)

Module CryptoMarketProvider.

(** [CryptoMarketProvider()]: it builds its [CMCClient]. *)
Definition __init__ (env : Env) : result pystr := CMCClient.__init__ env.

(** [not response or 'data' not in response] *)
Definition invalid (response : pyval) : result bool :=
  if negb (truthy response) then Ok true
  else (has_data <- contains_key (py "data") response ;;
        Ok (negb has_data))%res.

(** [await provider.get_market_data(symbol)], the first call on a provider
    (the only one its callers make): [response] is the outcome of
    [self.client.get_market_data(symbol)], the request to the service.
    What is raised is logged and raised again. *)
Definition get_market_data (response : result pyval) (symbol : pystr)
  : result pyval :=
  (response <- response ;;
   bad <- invalid response ;;
   if bad then
     Raise (Exn ValueError
              (py "Invalid response format from CoinMarketCap API for "
                  ++ symbol))
   else Ok response)%res.

End CryptoMarketProvider.

(** ** tools.py *)

Module Tools.

(** [await get_market_data(symbol)].  [provider] is bound only when the
    key is set; [cmc symbol] is the outcome of the request for [symbol].
    The message for the unbound variable is CPython 3.11's. *)
Definition get_market_data (env : Env) (cmc : pystr -> result pyval)
    (symbol : pystr) : result pyval :=
  let body :=
    match getenv env (py "COINMARKETCAP_API_KEY") with
    | Some (_ :: _) =>
        (_ <- CryptoMarketProvider.__init__ env ;;
         CryptoMarketProvider.get_market_data (cmc symbol) symbol)%res
    | _ =>
        Raise (Exn OtherException
                 (py "cannot access local variable 'provider' where it is not associated with a value"))
    end in
  match body with
  | Ok market_data => Ok market_data
  | Raise e =>
      Raise (Exn OtherException
               (py "Failed to get market data: " ++ exn_str e))
  end.

End Tools.

(** ** api/main.py *)

(** What leaves a [try] block of a route: an exception of Python or of the
    libraries, or an [HTTPException(status_code, detail)]. *)
Inductive thrown :=
| Thrown (e : exn)
| HTTPException (status_code : Z) (detail : pystr).

(** What a route does: it returns a value, or an exception leaves it. *)
Inductive route (A : Type) :=
| Responds (a : A)
| Throws (t : thrown).

Arguments Responds {A} a.
Arguments Throws {A} t.

(** The [agent_functions] of [get_crypto_analysis]: the name under which
    each analysis is read, and the [agent_type] it is requested with. *)
Definition agent_functions : list (pystr * pystr) :=
  [(py "market_data_agent", py "market");
   (py "sentiment_agent", py "sentiment");
   (py "technical_agent", py "technical");
   (py "risk_management_agent", py "risk");
   (py "portfolio_agent", py "portfolio")].

(** The titles of the answer and the names they are read under. *)
Definition agent_titles : list (pystr * pystr) :=
  [(py "Market Data Agent", py "market_data_agent");
   (py "Sentiment Agent", py "sentiment_agent");
   (py "Technical Agent", py "technical_agent");
   (py "Risk Agent", py "risk_management_agent");
   (py "Portfolio Agent", py "portfolio_agent")].

Definition is_type_error (e : exn) : bool :=
  match exn_cls e with TypeError => true | _ => false end.

(** The loop [for agent_name, task in agent_tasks] with its inner [try]:
    [bound] tells whether [result] has been assigned, which the handler of
    [TypeError] reads. *)
Fixpoint await_tasks
    (agent_tasks : list (pystr * result (list (pystr * slot))))
    (bound : bool) (analysis_results : list (pystr * slot))
  : route (list (pystr * slot)) :=
  match agent_tasks with
  | [] => Responds analysis_results
  | (agent_name, task) :: rest =>
      match task with
      | Ok result =>
          match dict_get result agent_name with
          | Some entry =>
              await_tasks rest true
                          (dict_set analysis_results agent_name entry)
          | None =>
              Throws (HTTPException 500
                        (py "Failed during " ++ agent_name
                            ++ py " analysis: " ++ repr_key agent_name))
          end
      | Raise e =>
          if is_type_error e then
            if bound then
              Throws (HTTPException 500
                        (py "Type error in " ++ agent_name ++ py ": "
                            ++ exn_str e
                            ++ py ". This might be due to unhashable dictionary values."))
            else
              Throws (Thrown
                        (Exn OtherException
                           (py "cannot access local variable 'result' where it is not associated with a value")))
          else
            Throws (HTTPException 500
                      (py "Failed during " ++ agent_name
                          ++ py " analysis: " ++ exn_str e))
      end
  end.

(** [[{"title": t, "content": analysis_results[name]}, ...]] *)
Fixpoint format_agents (titles : list (pystr * pystr))
    (analysis_results : list (pystr * slot))
  : result (list (pystr * slot)) :=
  match titles with
  | [] => Ok []
  | (title, name) :: rest =>
      match dict_get analysis_results name with
      | None => Raise (Exn KeyError (repr_key name))
      | Some content =>
          (agents <- format_agents rest analysis_results ;;
           Ok ((title, content) :: agents))%res
      end
  end.

(** The quote of [symbol] in the market data and the four fields that
    [get_crypto_market_data] answers with.  (The text of the [KeyError] for
    a symbol that is not there is exact when the symbol is made of
    printable characters other than quotes and backslashes, see
    [repr_key].) *)
Definition market_answer (market_data : pyval) (symbol : pystr)
  : result pyval :=
  (data <- subscript market_data (py "data") ;;
   crypto <- subscript data symbol ;;
   q <- subscript crypto (py "quote") ;;
   quote <- subscript q (py "USD") ;;
   price <- subscript quote (py "price") ;;
   change24h <- subscript quote (py "percent_change_24h") ;;
   volume <- subscript quote (py "volume_24h") ;;
   marketcap <- subscript quote (py "market_cap") ;;
   Ok (VDict [(py "price", price);
              (py "change24h", change24h);
              (py "volume", volume);
              (py "marketcap", marketcap)]))%res.

Section Routes.

(** The world of the agents; [str(e)] of an [HTTPException], which is the
    library's; [str.upper]; the request to the service behind
    [CMCClient.get_market_data]. *)
Variable env : Env.
Variable http_str : Z -> pystr -> pystr.
Variable upper : pystr -> pystr.
Variable cmc : pystr -> result pyval.

Definition str_thrown (t : thrown) : pystr :=
  match t with
  | Thrown e => exn_str e
  | HTTPException status_code detail => http_str status_code detail
  end.

(** [GET /api/market-data/{symbol}], when the route runs. *)
Definition get_crypto_market_data (symbol : pystr) : route pyval :=
  let symbol := upper symbol in
  let body :=
    match Tools.get_market_data env cmc symbol with
    | Raise e => Throws (Thrown e)
    | Ok market_data =>
        if negb (truthy market_data) then
          Throws (HTTPException 404
                    (py "No market data found for " ++ symbol))
        else
          match market_answer market_data symbol with
          | Ok answer => Responds answer
          | Raise e => Throws (Thrown e)
          end
    end in
  match body with
  | Responds answer => Responds answer
  | Throws t => Throws (HTTPException 500 (str_thrown t))
  end.

(** [GET /api/analysis/{symbol}], when the route runs, at time [t0]:
    [fetched] is the outcome of the two requests for the market data and
    the prices; the answer is the list under ['agents'], each analysis
    under its title.  Nothing in the [try] that creates the tasks can
    raise; the five calls of [analyze_market] start together. *)
Definition get_crypto_analysis (symbol provider : pystr)
    (fetched : result (pyval * pyval)) (t0 : nat)
  : route (list (pystr * slot)) :=
  let body :=
    if negb (existsb (Str.eqb provider) [py "openai"; py "anthropic"]) then
      Throws (HTTPException 400
                (py "Invalid provider: " ++ provider
                    ++ py ". Supported providers are: openai, anthropic"))
    else
      match CryptoMarketProvider.__init__ env with
      | Raise e => Throws (Thrown e)
      | Ok _ =>
          match fetched with
          | Raise e =>
              Throws (HTTPException 500
                        (py "Failed to fetch market or price data: "
                            ++ exn_str e))
          | Ok (market_data, price_data) =>
              let symbol := upper symbol in
              let agent_tasks :=
                map (fun f =>
                       (fst f,
                        fst (analyze_market env symbol market_data
                                            (PriceVal price_data) true
                                            (ProvidersStr provider)
                                            (Some (snd f)) t0)))
                    agent_functions in
              match await_tasks agent_tasks false [] with
              | Throws t =>
                  Throws (HTTPException 500
                            (py "Failed during agent analysis: "
                                ++ str_thrown t))
              | Responds analysis_results =>
                  match format_agents agent_titles analysis_results with
                  | Ok agents => Responds agents
                  | Raise e => Throws (Thrown e)
                  end
              end
          end
      end in
  match body with
  | Responds agents => Responds agents
  | Throws (HTTPException status_code detail) =>
      Throws (HTTPException status_code detail)
  | Throws (Thrown e) =>
      Throws (HTTPException 500
                (py "Unexpected error during analysis: " ++ exn_str e))
  end.

End Routes.

End Api.

(* ================================================================== *)
(** * Facts about strings and dictionaries *)
(* ================================================================== *)

Module Facts.

Import Provider Agent Orchestrator Scenario.

Lemma eqb_refl (s : pystr) : Str.eqb s s = true.
Proof.
  induction s as [|c s IH]; simpl; [reflexivity|].
  now rewrite N.eqb_refl, IH.
Qed.

Lemma eqb_eq (a b : pystr) : Str.eqb a b = true <-> a = b.
Proof.
  split.
  - revert b; induction a as [|x a IH]; intros [|y b] H; simpl in H;
      try discriminate; [reflexivity|].
    apply andb_true_iff in H as [Hxy Hab].
    apply N.eqb_eq in Hxy. apply IH in Hab. now subst.
  - intros ->. apply eqb_refl.
Qed.

Lemma eqb_neq (a b : pystr) : Str.eqb a b = false <-> a <> b.
Proof.
  split.
  - intros H E. apply eqb_eq in E. congruence.
  - intros H. destruct (Str.eqb a b) eqn:E; [|reflexivity].
    apply eqb_eq in E. contradiction.
Qed.

Lemma startswith_app (p rest : pystr) : Str.startswith (p ++ rest) p = true.
Proof.
  induction p as [|c p IH]; simpl; [now destruct rest|].
  now rewrite N.eqb_refl, IH.
Qed.

Section Dict.

Context {V : Type}.
Implicit Types (d : list (pystr * V)) (k : pystr) (v : V).

Lemma dict_set_fresh d k v :
  ~ In k (map fst d) -> dict_set d k v = d ++ [(k, v)].
Proof.
  induction d as [|[k' v'] d IH]; simpl; intros H; [reflexivity|].
  destruct (Str.eqb k' k) eqn:E.
  - apply eqb_eq in E. tauto.
  - rewrite IH by tauto. reflexivity.
Qed.

Lemma dict_set_keys_present d k v :
  In k (map fst d) -> map fst (dict_set d k v) = map fst d.
Proof.
  induction d as [|[k' v'] d IH]; simpl; intros H; [tauto|].
  destruct (Str.eqb k' k) eqn:E; simpl; [reflexivity|].
  apply eqb_neq in E. f_equal. apply IH. destruct H; congruence.
Qed.

(** The keys after an assignment: unchanged for a key already there, the
    key added at the end otherwise. *)
Lemma dict_set_keys d k v :
  map fst (dict_set d k v) =
  if existsb (Str.eqb k) (map fst d) then map fst d else map fst d ++ [k].
Proof.
  destruct (existsb (Str.eqb k) (map fst d)) eqn:E.
  - apply existsb_exists in E as (x & Hin & Hx).
    apply eqb_eq in Hx. subst. now apply dict_set_keys_present.
  - rewrite dict_set_fresh, map_app; [reflexivity|].
    intros Hin.
    assert (existsb (Str.eqb k) (map fst d) = true) as E'.
    { apply existsb_exists. exists k. split; [assumption|apply eqb_refl]. }
    congruence.
Qed.

Lemma fold_dict_set_nodup (l acc : list (pystr * V)) :
  NoDup (map fst (acc ++ l)) ->
  fold_left (fun d kv => dict_set d (fst kv) (snd kv)) l acc = acc ++ l.
Proof.
  revert acc; induction l as [|[k v] l IH]; intros acc H; simpl.
  - now rewrite app_nil_r.
  - rewrite dict_set_fresh.
    + rewrite IH; rewrite <- app_assoc; [reflexivity|exact H].
    + rewrite map_app in H. simpl in H.
      apply NoDup_remove_2 in H. intros Hin. apply H.
      apply in_or_app. now left.
Qed.

(** A list of pairs with distinct keys is the dictionary it builds. *)
Lemma dict_of_nodup (l : list (pystr * V)) :
  NoDup (map fst l) -> dict_of l = l.
Proof.
  intros H. unfold dict_of. now rewrite fold_dict_set_nodup.
Qed.

End Dict.

Lemma fold_max_le (l : list nat) (t : nat) :
  t <= fold_left Nat.max l t /\
  forall x, In x l -> x <= fold_left Nat.max l t.
Proof.
  revert t; induction l as [|y l IH]; intros t; simpl.
  - split; [lia|tauto].
  - destruct (IH (Nat.max t y)) as [H1 H2]. split; [lia|].
    intros x [->|Hx]; [lia|auto].
Qed.

End Facts.

(* ================================================================== *)
(** * Facts about the resolution of the agents *)
(* ================================================================== *)

Module Resolution.

Import Provider Agent Orchestrator Scenario Facts.

Lemma init_fields env cls model key name a :
  __init__ env cls model key name = Ok a ->
  agent_cls a = cls /\ provider_name a = name /\ redis_client a = None /\
  exists p, provider a = Some p.
Proof.
  unfold __init__. destruct (dict_get (PROVIDER_MAP env) name); [|discriminate].
  destruct (_initialize_provider env p model key) eqn:E; simpl; [|discriminate].
  intros [= <-]. simpl. repeat split. now exists a0.
Qed.

Lemma construct_fields env t cls p a :
  construct env t cls p = Ok a ->
  agent_cls a = cls /\ provider_name a = p /\ redis_client a = None /\
  exists q, provider a = Some q.
Proof.
  unfold construct.
  destruct (dict_get (provider_configs t) p); simpl; [|discriminate].
  destruct (dict_get (api_keys t) p); simpl; [|discriminate].
  apply init_fields.
Qed.

(** What the loop over [agent_mapping] builds: one agent per entry, in
    order, under the entry's name and of the entry's class, constructed with
    the provider at the entry's index modulo the number of providers. *)
Lemma build_all_spec env t pl :
  forall mapping i acc agents,
    build_all env t pl mapping i acc = Ok agents ->
    NoDup (map fst acc ++ map (fun e => fst (snd e)) mapping) ->
    exists new,
      agents = acc ++ new /\
      Forall2 (fun e na => fst na = fst (snd e) /\
                           agent_cls (snd na) = snd (snd e)) mapping new /\
      forall j na, nth_error new j = Some na ->
                   round_robin pl (i + j) = Ok (provider_name (snd na)).
Proof.
  induction mapping as [|[key [name cls]] rest IH]; intros i acc agents H ND.
  - simpl in H. injection H as <-. exists []. rewrite app_nil_r.
    repeat split; [constructor|]. intros [|j] na; discriminate.
  - simpl in H.
    destruct (round_robin pl i) as [p|] eqn:Hp; simpl in H; [|discriminate].
    destruct (construct env t cls p) as [a|] eqn:Ha; simpl in H; [|discriminate].
    simpl in ND.
    rewrite dict_set_fresh in H.
    2:{ apply NoDup_remove_2 in ND. intros Hin. apply ND.
        apply in_or_app. now left. }
    apply IH in H.
    2:{ rewrite map_app. simpl. rewrite <- app_assoc. exact ND. }
    destruct H as (new & -> & HF & Hrr).
    apply construct_fields in Ha as (Hcls & Hname & _).
    exists ((name, a) :: new). rewrite <- app_assoc. split; [reflexivity|].
    split; [constructor; [now split|assumption]|].
    intros [|j] na Hj; simpl in Hj.
    + injection Hj as <-. simpl. rewrite Nat.add_0_r. now rewrite Hname.
    + replace (i + S j) with (S i + j) by lia. now apply Hrr.
Qed.

Lemma agent_mapping_nodup :
  NoDup (map (fun e => fst (snd e)) agent_mapping).
Proof.
  unfold agent_mapping; simpl.
  repeat (constructor; [simpl; intros H;
                        repeat (destruct H as [H|H]; [discriminate H|]);
                        exact H|]).
  constructor.
Qed.

(** The agents of a call that asks for no particular agent. *)
Lemma resolve_all env provider_map agent_type agents :
  resolve_agents env provider_map agent_type = Ok agents ->
  match agent_type with Some (_ :: _) => False | _ => True end ->
  exists t,
    configure_all env (Tables [] []) (providers_of provider_map) = Ok t /\
    map fst agents = canonical_names /\
    Forall (fun na => fst na = name_of_class (agent_cls (snd na))) agents /\
    forall j na, nth_error agents j = Some na ->
                 round_robin (map fst (provider_configs t)) j
                 = Ok (provider_name (snd na)).
Proof.
  unfold resolve_agents. intros H Hty.
  destruct (ModelConfig env); cbn [Res.bind] in H; [|discriminate].
  destruct (configure_all env (Tables [] []) (providers_of provider_map))
    as [t|] eqn:Ht; cbn [Res.bind] in H; [|discriminate].
  assert (build_all env t (map fst (provider_configs t)) agent_mapping 0 []
          = Ok agents) as Hb.
  { destruct agent_type as [[|c k]|]; [exact H|contradiction|exact H]. }
  clear H. apply build_all_spec in Hb; [|exact agent_mapping_nodup].
  destruct Hb as (new & -> & HF & Hrr). simpl.
  exists t. split; [reflexivity|].
  unfold agent_mapping in HF.
  repeat match goal with
         | H : Forall2 _ (_ :: _) _ |- _ => inversion H; clear H; subst
         | H : Forall2 _ [] _ |- _ => inversion H; clear H; subst
         end.
  repeat match goal with
         | H : _ /\ _ |- _ => destruct H
         end.
  simpl in *.
  split; [unfold canonical_names, agent_mapping; simpl; congruence|].
  split; [|exact Hrr].
  repeat constructor; simpl;
    match goal with
    | H : agent_cls ?a = _ |- _ = name_of_class (agent_cls ?a) =>
        rewrite H; simpl; assumption
    end.
Qed.

(** The agent of a call that asks for one. *)
Lemma resolve_single env provider_map c k agents :
  resolve_agents env provider_map (Some (c :: k)) = Ok agents ->
  exists t name cls a p,
    configure_all env (Tables [] []) (providers_of provider_map) = Ok t /\
    dict_get agent_mapping (c :: k) = Some (name, cls) /\
    agents = [(name, a)] /\
    agent_cls a = cls /\ provider_name a = p /\
    first (map fst (provider_configs t)) = Ok p.
Proof.
  unfold resolve_agents. intros H.
  destruct (ModelConfig env) as [u|]; cbn [Res.bind] in H; [|discriminate].
  destruct (configure_all env (Tables [] []) (providers_of provider_map))
    as [t|] eqn:Ht; cbn [Res.bind] in H; [|discriminate].
  destruct (dict_get agent_mapping (c :: k)) as [[name cls]|] eqn:Hm;
    [|discriminate].
  destruct (first (map fst (provider_configs t))) as [p|] eqn:Hp;
    cbn [Res.bind] in H; [|discriminate].
  destruct (construct env t cls p) as [ag|] eqn:Ha; cbn [Res.bind] in H; [|discriminate].
  injection H as <-.
  apply construct_fields in Ha as (Hcls & Hname & _).
  exists t, name, cls, ag, p. repeat split; assumption.
Qed.

Lemma mapping_name_of_class key name cls :
  dict_get agent_mapping key = Some (name, cls) -> name = name_of_class cls.
Proof.
  unfold agent_mapping. simpl.
  repeat match goal with
         | |- context [if ?b then _ else _] => destruct b
         end; intros [= <- <-]; reflexivity.
Qed.

(** The names under which the resolved agents are filed are distinct, and
    each agent is filed under the name of its class. *)
Lemma resolve_names env provider_map agent_type agents :
  resolve_agents env provider_map agent_type = Ok agents ->
  NoDup (map fst agents) /\
  Forall (fun na => fst na = name_of_class (agent_cls (snd na))) agents.
Proof.
  intros H.
  destruct agent_type as [[|c k]|].
  - apply resolve_all in H; [|exact I].
    destruct H as (t & _ & Hk & HF & _). split; [|exact HF].
    rewrite Hk. exact agent_mapping_nodup.
  - apply resolve_single in H.
    destruct H as (t & name & cls & a & p & _ & Hm & -> & Hc & _).
    split; [repeat constructor; simpl; tauto|].
    repeat constructor. simpl. rewrite Hc.
    eapply mapping_name_of_class; eassumption.
  - apply resolve_all in H; [|exact I].
    destruct H as (t & _ & Hk & HF & _). split; [|exact HF].
    rewrite Hk. exact agent_mapping_nodup.
Qed.

(** With distinct names, the result of the fan-out is the list of the
    agents' own outcomes, and the call ends when the last task does. *)
Lemma run_agents_spec env symbol market_data price show_reasoning agents t0 :
  NoDup (map fst agents) ->
  run_agents env symbol market_data price show_reasoning agents t0 =
  (map (fun na =>
          (fst na,
           fst (run_task t0 (analyze env (snd na) symbol price market_data
                                     show_reasoning)))) agents,
   fold_left Nat.max
     (map (fun na =>
             snd (run_task t0 (analyze env (snd na) symbol price market_data
                                       show_reasoning))) agents) t0).
Proof.
  intros ND. unfold run_agents, gather.
  set (tasks := map (fun na => (fst na,
                                analyze env (snd na) symbol price market_data
                                        show_reasoning)) agents).
  assert (map fst tasks = map fst agents) as Hkeys.
  { unfold tasks. rewrite map_map. reflexivity. }
  rewrite (dict_of_nodup tasks) by (rewrite Hkeys; exact ND).
  assert (forall (ks : list pystr) (vs : list slot),
             List.length ks = List.length vs ->
             map fst (combine ks vs) = ks) as Hc.
  { induction ks as [|x ks IHk]; intros [|v vs] Hl; simpl in *;
      try discriminate; [reflexivity|]. f_equal. apply IHk. lia. }
  rewrite dict_of_nodup.
  2:{ rewrite Hc; [rewrite Hkeys; exact ND|]. now rewrite !length_map. }
  unfold tasks. rewrite !map_map. simpl. f_equal.
  clear. induction agents as [|[n a] l IH]; simpl; [reflexivity|].
  f_equal. exact IH.
Qed.

End Resolution.

(* ================================================================== *)
(** * Properties of the orchestrator *)
(* ================================================================== *)

Module OrchestratorProps.

Import Provider Agent Orchestrator Scenario Facts Resolution.

(** C1.  Once the agents and their providers are resolved, [analyze_market]
    returns a mapping, whatever the agents' analyses do (return, return an
    error text, raise): it has one entry per resolved agent, filed under
    the agents' names in their order -- the five canonical names when no
    agent type is asked for, the name of the selected agent otherwise. *)
Theorem analyze_market_complete env symbol market_data price show_reasoning
    provider_map agent_type t0 agents :
  resolve_agents env provider_map agent_type = Ok agents ->
  exists results t1,
    analyze_market env symbol market_data price show_reasoning provider_map
                   agent_type t0 = (Ok results, t1) /\
    map fst results = map fst agents /\
    NoDup (map fst results) /\
    match agent_type with
    | Some (c :: k) =>
        exists name cls,
          dict_get agent_mapping (c :: k) = Some (name, cls) /\
          map fst results = [name]
    | _ => map fst results = canonical_names
    end.
Proof.
  intros H. unfold analyze_market. rewrite H.
  destruct (resolve_names _ _ _ _ H) as [ND _].
  rewrite run_agents_spec by exact ND.
  eexists _, _. split; [reflexivity|].
  rewrite map_map. simpl.
  split; [reflexivity|]. split; [exact ND|].
  destruct agent_type as [[|c k]|].
  - apply resolve_all in H; [|exact I]. now destruct H as (t & _ & Hk & _).
  - apply resolve_single in H.
    destruct H as (t & name & cls & a & p & _ & Hm & -> & _).
    exists name, cls. split; [exact Hm|reflexivity].
  - apply resolve_all in H; [|exact I]. now destruct H as (t & _ & Hk & _).
Qed.

(** The statement of C1 at a request for all agents with two providers. *)
Lemma analyze_market_complete_witness :
  exists results t1,
    analyze_market env_ok BTC (snapshot BTC quote_full) some_prices false
                   (ProvidersList [py "anthropic"; py "openai"]) None 0
    = (Ok results, t1) /\
    map fst results =
      map fst
        [(py "market_data_agent",
          MkAgent MarketDataAgent
            (Some (MkProvider AnthropicProvider
                     (VStr (py "model-of-anthropic")) (py "secret")))
            (py "anthropic") None (py "redis://localhost"));
         (py "sentiment_agent",
          MkAgent SentimentAgent
            (Some (MkProvider OpenAIProvider
                     (VStr (py "model-of-openai")) (py "secret")))
            (py "openai") None (py "redis://localhost"));
         (py "technical_agent",
          MkAgent TechnicalAgent
            (Some (MkProvider AnthropicProvider
                     (VStr (py "model-of-anthropic")) (py "secret")))
            (py "anthropic") None (py "redis://localhost"));
         (py "risk_management_agent",
          MkAgent RiskManagementAgent
            (Some (MkProvider OpenAIProvider
                     (VStr (py "model-of-openai")) (py "secret")))
            (py "openai") None (py "redis://localhost"));
         (py "portfolio_agent",
          MkAgent PortfolioAgent
            (Some (MkProvider AnthropicProvider
                     (VStr (py "model-of-anthropic")) (py "secret")))
            (py "anthropic") None (py "redis://localhost"))] /\
    NoDup (map fst results) /\
    map fst results = canonical_names.
Proof.
  apply (analyze_market_complete env_ok BTC (snapshot BTC quote_full)
           some_prices false (ProvidersList [py "anthropic"; py "openai"])
           None 0).
  vm_compute. reflexivity.
Defined.

End OrchestratorProps.

(* ================================================================== *)
(** * Time: the fan-out has no deadline *)
(* ================================================================== *)

Module Deadline.

Import Provider Agent Orchestrator Scenario Facts Resolution.




End Deadline.

(* ================================================================== *)
(** * Isolation of the agents from each other *)
(* ================================================================== *)

Module Isolation.

Import Provider Agent Orchestrator Scenario Facts Resolution.

Lemma configure_all_with_chat env c f providers :
  forall t, configure_all (with_chat env c f) t providers
            = configure_all env t providers.
Proof.
  induction providers as [|p rest IH]; intros t; simpl; [reflexivity|].
  change (configure (with_chat env c f) t p) with (configure env t p).
  destruct (configure env t p); simpl; [apply IH|reflexivity].
Qed.

Lemma build_all_with_chat env c f t pl mapping :
  forall i acc, build_all (with_chat env c f) t pl mapping i acc
                = build_all env t pl mapping i acc.
Proof.
  induction mapping as [|[key [name cls]] rest IH]; intros i acc; simpl;
    [reflexivity|].
  destruct (round_robin pl i); simpl; [|reflexivity].
  change (construct (with_chat env c f) t cls a) with (construct env t cls a).
  destruct (construct env t cls a); simpl; [apply IH|reflexivity].
Qed.

(** The resolution of the agents does not call any chat client. *)
Lemma resolve_agents_with_chat env c f provider_map agent_type :
  resolve_agents (with_chat env c f) provider_map agent_type
  = resolve_agents env provider_map agent_type.
Proof.
  unfold resolve_agents.
  change (ModelConfig (with_chat env c f)) with (ModelConfig env).
  destruct (ModelConfig env); cbn [Res.bind]; [|reflexivity].
  rewrite configure_all_with_chat.
  destruct (configure_all env (Tables [] []) (providers_of provider_map));
    cbn [Res.bind]; [|reflexivity].
  destruct agent_type as [[|ch k]|]; try apply build_all_with_chat.
  destruct (dict_get agent_mapping (ch :: k)) as [[name cls]|]; reflexivity.
Qed.

(** An agent calls the chat client of its own class only. *)
Lemma analyze_with_chat env c f a symbol price market_data show_reasoning :
  agent_cls a <> c ->
  analyze (with_chat env c f) a symbol price market_data show_reasoning
  = analyze env a symbol price market_data show_reasoning.
Proof.
  intros H. unfold analyze.
  destruct (agent_cls a), c; try contradiction; reflexivity.
Qed.

Lemma dict_get_map_ext {A V} (g1 g2 : pystr * A -> V)
    (l : list (pystr * A)) (name : pystr) :
  (forall na, In na l -> fst na = name -> g1 na = g2 na) ->
  dict_get (map (fun na => (fst na, g1 na)) l) name
  = dict_get (map (fun na => (fst na, g2 na)) l) name.
Proof.
  induction l as [|[n a] l IH]; intros H; simpl; [reflexivity|].
  destruct (Str.eqb n name) eqn:E.
  - apply eqb_eq in E. rewrite (H (n, a)); simpl; auto.
  - apply IH. intros na Hin. apply H. now right.
Qed.

(** C2.  Two runs of [analyze_market] that differ only in how the chat
    client of one agent (the one of class [c]) behaves -- what it answers,
    what it raises, how long it takes -- have the same entry for every
    other agent. *)
Theorem fault_isolation env c f symbol market_data price show_reasoning
    provider_map agent_type t0 name :
  name <> name_of_class c ->
  slot_of (analyze_market (with_chat env c f) symbol market_data price
                          show_reasoning provider_map agent_type t0) name
  = slot_of (analyze_market env symbol market_data price show_reasoning
                            provider_map agent_type t0) name.
Proof.
  intros Hname. unfold slot_of, analyze_market.
  rewrite resolve_agents_with_chat.
  destruct (resolve_agents env provider_map agent_type) as [agents|] eqn:Hr;
    [|reflexivity].
  destruct (resolve_names _ _ _ _ Hr) as [ND HF].
  rewrite !run_agents_spec by exact ND. simpl.
  apply (dict_get_map_ext
           (fun na => fst (run_task t0 (analyze (with_chat env c f) (snd na)
                                                symbol price market_data
                                                show_reasoning)))
           (fun na => fst (run_task t0 (analyze env (snd na) symbol price
                                                market_data show_reasoning)))).
  intros na Hin Hn.
  rewrite analyze_with_chat; [reflexivity|].
  rewrite Forall_forall in HF. specialize (HF na Hin).
  intros Hc. apply Hname. rewrite <- Hn, HF, Hc. reflexivity.
Qed.

(** The Technical agent's provider runs out of quota: the Sentiment entry
    of the same request is the one of the run in which it did not. *)
Lemma fault_isolation_witness :
  py "sentiment_agent" <> name_of_class TechnicalAgent /\
  slot_of (analyze_market (with_chat env_ok TechnicalAgent quota_exhausted)
                          BTC (snapshot BTC quote_full) some_prices false
                          (ProvidersStr (py "anthropic")) None 0)
          (py "sentiment_agent")
  = slot_of (analyze_market env_ok BTC (snapshot BTC quote_full) some_prices
                            false (ProvidersStr (py "anthropic")) None 0)
            (py "sentiment_agent").
Proof.
  assert (py "sentiment_agent" <> name_of_class TechnicalAgent) as H
    by (vm_compute; discriminate).
  split; [exact H|].
  exact (fault_isolation env_ok TechnicalAgent quota_exhausted BTC
           (snapshot BTC quote_full) some_prices false
           (ProvidersStr (py "anthropic")) None 0 (py "sentiment_agent") H).
Defined.

(** In that run the Technical entry is the error text of the agent, the
    Sentiment entry the answer of its provider. *)
Example quota_run_entries :
  slot_of (analyze_market (with_chat env_ok TechnicalAgent quota_exhausted)
                          BTC (snapshot BTC quote_full) some_prices false
                          (ProvidersStr (py "anthropic")) None 0)
          (py "technical_agent")
  = Some (Returned
            (VStr (py "Error analyzing technical indicators: [Anthropic] 429: rate limit exceeded"))) /\
  slot_of (analyze_market (with_chat env_ok TechnicalAgent quota_exhausted)
                          BTC (snapshot BTC quote_full) some_prices false
                          (ProvidersStr (py "anthropic")) None 0)
          (py "sentiment_agent")
  = Some (Returned (VStr (py "All good"))).
Proof. split; vm_compute; reflexivity. Qed.

End Isolation.

(* ================================================================== *)
(** * The price data *)
(* ================================================================== *)

Module PriceData.

Import Provider Agent Orchestrator Scenario Facts Resolution Isolation.

(** C10.  The Sentiment, Risk and Portfolio agents never read
    [price_data]: with the same world, agent, market data and flag, two
    values of [price_data] give the same coroutine, hence the same result
    from every state. *)
Theorem price_data_not_read env self (price1 price2 : price_data)
    market_data show_reasoning :
  sentiment_analyze env self price1 market_data show_reasoning
  = sentiment_analyze env self price2 market_data show_reasoning /\
  risk_analyze env self price1 market_data show_reasoning
  = risk_analyze env self price2 market_data show_reasoning /\
  portfolio_analyze env self price1 market_data show_reasoning
  = portfolio_analyze env self price2 market_data show_reasoning.
Proof. repeat split. Qed.

(** Hence the entries of these three agents in the result of
    [analyze_market] do not depend on the price data of the request. *)
Lemma price_data_not_read_by_slots env symbol market_data price1 price2
    show_reasoning provider_map agent_type t0 name :
  In name [py "sentiment_agent"; py "risk_management_agent";
           py "portfolio_agent"] ->
  slot_of (analyze_market env symbol market_data price1 show_reasoning
                          provider_map agent_type t0) name
  = slot_of (analyze_market env symbol market_data price2 show_reasoning
                            provider_map agent_type t0) name.
Proof.
  intros Hname. unfold slot_of, analyze_market.
  destruct (resolve_agents env provider_map agent_type) as [agents|] eqn:Hr;
    [|reflexivity].
  destruct (resolve_names _ _ _ _ Hr) as [ND HF].
  rewrite !run_agents_spec by exact ND. simpl.
  apply (dict_get_map_ext
           (fun na => fst (run_task t0 (analyze env (snd na) symbol price1
                                                market_data show_reasoning)))
           (fun na => fst (run_task t0 (analyze env (snd na) symbol price2
                                                market_data show_reasoning)))).
  intros na Hin Hn.
  rewrite Forall_forall in HF. specialize (HF na Hin).
  rewrite Hn in HF. unfold analyze.
  destruct (agent_cls (snd na)); try reflexivity; exfalso; simpl in Hname;
    destruct Hname as [H|[H|[H|[]]]]; rewrite <- H in HF; discriminate HF.
Qed.

(** The Technical agent does read it. *)
Example technical_reads_price_data :
  fst (technical_analyze env_ok (with_provider TechnicalAgent) no_prices
                         (snapshot BTC quote_full) false start)
  <> fst (technical_analyze env_ok (with_provider TechnicalAgent) some_prices
                            (snapshot BTC quote_full) false start).
Proof. vm_compute. discriminate. Qed.

End PriceData.

(* ================================================================== *)
(** * The assignment of providers to agents *)
(* ================================================================== *)

Module Assignment.

Import Provider Agent Orchestrator Scenario Facts Resolution.

Lemma configure_keys env t p t' :
  configure env t p = Ok t' ->
  map fst (provider_configs t') = note (map fst (provider_configs t)) p.
Proof.
  unfold configure, note. intros H.
  destruct (get_provider_config env p) as [cfg|]; cbn [Res.bind] in H;
    [|discriminate].
  destruct (subscript cfg (py "default_model")) as [m|]; cbn [Res.bind] in H;
    [|discriminate].
  assert (map fst (provider_configs t') =
          map fst (dict_set (provider_configs t) p m)) as ->.
  { destruct (Str.eqb p (py "anthropic")).
    - destruct (require_key env (py "ANTHROPIC_API_KEY"));
        cbn [Res.bind] in H; [|discriminate]. now injection H as <-.
    - destruct (Str.eqb p (py "openai")).
      + destruct (require_key env (py "OPENAI_API_KEY"));
          cbn [Res.bind] in H; [|discriminate]. now injection H as <-.
      + now injection H as <-. }
  apply dict_set_keys.
Qed.

Lemma configure_all_keys env providers :
  forall t t',
    configure_all env t providers = Ok t' ->
    map fst (provider_configs t')
    = fold_left note providers (map fst (provider_configs t)).
Proof.
  induction providers as [|p rest IH]; intros t t' H; simpl in H.
  - now injection H as <-.
  - destruct (configure env t p) as [t1|] eqn:E; cbn [Res.bind] in H;
      [|discriminate].
    simpl. rewrite <- (configure_keys _ _ _ _ E). now apply IH.
Qed.

(** [provider_list] holds the requested providers without repetitions,
    in the order of their first occurrences. *)
Lemma provider_list_distinct env provider_map t :
  configure_all env (Tables [] []) (providers_of provider_map) = Ok t ->
  map fst (provider_configs t) = first_occurrences (providers_of provider_map).
Proof. intros H. apply configure_all_keys in H. exact H. Qed.

Lemma fold_note_nodup (l acc : list pystr) :
  NoDup (acc ++ l) -> fold_left note l acc = acc ++ l.
Proof.
  revert acc; induction l as [|x l IH]; intros acc H; simpl.
  - now rewrite app_nil_r.
  - unfold note at 2.
    destruct (existsb (Str.eqb x) acc) eqn:E.
    + apply existsb_exists in E as (y & Hy & Hxy). apply eqb_eq in Hxy. subst y.
      apply NoDup_remove_2 in H. exfalso. apply H. apply in_or_app. now left.
    + rewrite IH; rewrite <- app_assoc; [reflexivity|exact H].
Qed.

Lemma fold_note_head (l acc : list pystr) (x : pystr) :
  nth_error (fold_left note l (x :: acc)) 0 = Some x.
Proof.
  revert acc; induction l as [|y l IH]; intros acc; simpl; [reflexivity|].
  unfold note at 2. destruct (existsb (Str.eqb y) (x :: acc)); apply IH.
Qed.

Lemma first_occurrences_head (l : list pystr) :
  nth_error (first_occurrences l) 0 = nth_error l 0.
Proof.
  destruct l as [|x l]; [reflexivity|].
  unfold first_occurrences. simpl. apply fold_note_head.
Qed.

Lemma fold_note_spec (l acc : list pystr) :
  NoDup acc ->
  NoDup (fold_left note l acc) /\
  forall x, In x (fold_left note l acc) <-> In x acc \/ In x l.
Proof.
  revert acc; induction l as [|y l IH]; intros acc H; simpl.
  - split; [exact H|]. tauto.
  - assert (NoDup (note acc y) /\
            forall x, In x (note acc y) <-> In x acc \/ x = y) as [ND Hin].
    { unfold note. destruct (existsb (Str.eqb y) acc) eqn:E.
      - split; [exact H|]. intros x. split; [tauto|].
        intros [Hx| ->]; [exact Hx|].
        apply existsb_exists in E as (z & Hz & Hyz).
        apply eqb_eq in Hyz. now subst.
      - split.
        + apply NoDup_app; [exact H|repeat constructor; simpl; tauto|].
          intros x Hx [Heq|[]]. subst x.
          assert (existsb (Str.eqb y) acc = true) as E'
            by (apply existsb_exists; exists y; split;
                [exact Hx|apply eqb_refl]).
          congruence.
        + intros x. rewrite in_app_iff. simpl. intuition. }
    destruct (IH _ ND) as [ND' Hin']. split; [exact ND'|].
    intros x. rewrite Hin', Hin. intuition.
Qed.

(** [first_occurrences] has no repetition and the elements of the list. *)
Lemma first_occurrences_spec (l : list pystr) :
  NoDup (first_occurrences l) /\
  forall x, In x (first_occurrences l) <-> In x l.
Proof.
  destruct (fold_note_spec l [] (NoDup_nil pystr)) as [ND Hin].
  split; [exact ND|]. intros x. rewrite (Hin x). simpl. tauto.
Qed.

Lemma round_robin_at_mod (pl : list pystr) (i : nat) (p : pystr) :
  round_robin pl i = Ok p -> at_mod pl i = Some p.
Proof.
  unfold round_robin, at_mod. intros H.
  destruct pl as [|p0 pl']; [discriminate|].
  set (l := p0 :: pl') in *.
  assert (p = nth (i mod List.length l) l p0) as -> by congruence.
  apply nth_error_nth'. apply Nat.mod_upper_bound.
  unfold l. simpl. discriminate.
Qed.

(** C3, as the code has it.  The providers are assigned round-robin over
    the requested providers without their repetitions (each kept at its
    first occurrence): the agent at position [i] of the five is built with
    the provider at position [i mod m] of that list of length [m], which
    is the requested list itself when it names no provider twice.  When one
    agent is asked for, it is built with the first requested provider. *)
Theorem provider_assignment env provider_map agent_type agents :
  resolve_agents env provider_map agent_type = Ok agents ->
  let providers := providers_of provider_map in
  (NoDup providers -> first_occurrences providers = providers) /\
  match agent_type with
  | Some (_ :: _) =>
      List.length agents = 1 /\
      assigned agents 0 = nth_error providers 0 /\
      exists p, assigned agents 0 = Some p
  | _ =>
      List.length agents = 5 /\
      forall i, i < 5 ->
                assigned agents i = at_mod (first_occurrences providers) i /\
                exists p, assigned agents i = Some p
  end.
Proof.
  intros H. cbv zeta. split.
  { intros ND. unfold first_occurrences.
    rewrite (fold_note_nodup (providers_of provider_map) []); [reflexivity|exact ND]. }
  assert (forall t,
             configure_all env (Tables [] []) (providers_of provider_map)
             = Ok t ->
             match agent_type with Some (_ :: _) => False | _ => True end ->
             map fst agents = canonical_names ->
             (forall j na, nth_error agents j = Some na ->
                           round_robin (map fst (provider_configs t)) j
                           = Ok (provider_name (snd na))) ->
             List.length agents = 5 /\
             forall i, i < 5 ->
                       assigned agents i
                       = at_mod (first_occurrences (providers_of provider_map)) i /\
                       exists p, assigned agents i = Some p) as Hall.
  { intros t Ht _ Hk Hrr.
    assert (List.length agents = 5) as Hlen.
    { rewrite <- (length_map fst agents), Hk. reflexivity. }
    split; [exact Hlen|]. intros i Hi.
    destruct (nth_error agents i) as [na|] eqn:Hn.
    2:{ apply nth_error_None in Hn. lia. }
    unfold assigned. rewrite Hn. simpl.
    split; [|now eexists].
    symmetry. apply round_robin_at_mod.
    rewrite <- (provider_list_distinct _ _ _ Ht). now apply Hrr. }
  destruct agent_type as [[|c k]|].
  - apply resolve_all in H; [|exact I].
    destruct H as (t & Ht & Hk & _ & Hrr). now apply (Hall t).
  - apply resolve_single in H.
    destruct H as (t & name & cls & a & p & Ht & _ & -> & _ & Hp & Hfirst).
    split; [reflexivity|].
    assert (assigned [(name, a)] 0 = Some p) as ->
      by (unfold assigned; simpl; now rewrite Hp).
    split; [|now eexists].
    rewrite <- first_occurrences_head.
    rewrite <- (provider_list_distinct _ _ _ Ht).
    destruct (map fst (provider_configs t)); simpl in *; [discriminate|].
    now injection Hfirst as ->.
  - apply resolve_all in H; [|exact I].
    destruct H as (t & Ht & Hk & _ & Hrr). now apply (Hall t).
Qed.

(** The statement above at a request for all agents with the providers
    [anthropic, anthropic, openai]. *)
Lemma provider_assignment_witness :
  let providers := [py "anthropic"; py "anthropic"; py "openai"] in
  exists agents,
    resolve_agents env_ok (ProvidersList providers) None = Ok agents /\
    (NoDup providers -> first_occurrences providers = providers) /\
    List.length agents = 5 /\
    forall i, i < 5 ->
              assigned agents i = at_mod (first_occurrences providers) i /\
              exists p, assigned agents i = Some p.
Proof.
  intros providers.
  destruct (resolve_agents env_ok (ProvidersList providers) None)
    as [agents|e] eqn:H.
  - exists agents. split; [reflexivity|].
    exact (provider_assignment env_ok (ProvidersList providers) None agents H).
  - vm_compute in H. discriminate H.
Defined.

(** C3, as stated, fails on a list that names a provider twice: of the
    three providers [anthropic, anthropic, openai], the agent at position 1
    (Sentiment) is built with [openai], not with the provider at position
    [1 mod 3]. *)
Lemma assignment_skips_repeated_providers :
  let providers := [py "anthropic"; py "anthropic"; py "openai"] in
  1 <= List.length providers <= 5 /\
  exists agents,
    resolve_agents env_ok (ProvidersList providers) None = Ok agents /\
    assigned agents 1 = Some (py "openai") /\
    at_mod providers 1 = Some (py "anthropic") /\
    ~ (forall i, i < 5 -> assigned agents i = at_mod providers i).
Proof.
  intros providers. split; [simpl; lia|].
  eexists. split; [vm_compute; reflexivity|].
  split; [vm_compute; reflexivity|]. split; [vm_compute; reflexivity|].
  intros H. specialize (H 1 ltac:(lia)). vm_compute in H. discriminate H.
Qed.

End Assignment.

(* ================================================================== *)
(** * The agent boundary *)
(* ================================================================== *)

Module Boundary.

Import Provider Agent Orchestrator Scenario Facts.

(** A [try] whose handler returns never raises. *)
Lemma try_except_returns {A} (body : task A) (h : exn -> A) (st : tstate) :
  exists v st',
    Task.try_except body (fun e => Task.ret (h e)) st = (Ok v, st').
Proof.
  unfold Task.try_except, Task.ret.
  destruct (body st) as [[v|e] st']; eexists _, _; reflexivity.
Qed.

(** The Sentiment, Technical, Risk and Portfolio agents never raise:
    their whole body stands in the [try]. *)
Lemma sentiment_never_raises env self price market_data show_reasoning st :
  exists v st',
    sentiment_analyze env self price market_data show_reasoning st
    = (Ok v, st').
Proof. apply try_except_returns. Qed.

Lemma technical_never_raises env self price market_data show_reasoning st :
  exists v st',
    technical_analyze env self price market_data show_reasoning st
    = (Ok v, st').
Proof. apply try_except_returns. Qed.

Lemma risk_never_raises env self price market_data show_reasoning st :
  exists v st',
    risk_analyze env self price market_data show_reasoning st = (Ok v, st').
Proof. apply try_except_returns. Qed.

Lemma portfolio_never_raises env self price market_data show_reasoning st :
  exists v st',
    portfolio_analyze env self price market_data show_reasoning st
    = (Ok v, st').
Proof. apply try_except_returns. Qed.

(** Neither does the Market agent once its redis client exists. *)
Lemma market_never_raises_after_init env self price market_data
    show_reasoning st :
  redis_client self <> None \/
  fst (redis_from_url env (redis_url self)) = Ok tt ->
  exists v st',
    market_analyze env self price market_data show_reasoning st = (Ok v, st').
Proof.
  intros H. unfold market_analyze, _init_redis, Task.bind at 1.
  destruct (redis_client self) as [c|].
  - unfold Task.ret at 1. apply try_except_returns.
  - destruct H as [H|H]; [congruence|].
    unfold Task.bind at 1, Task.await at 1. rewrite H.
    unfold Task.ret at 1. cbv beta iota. apply try_except_returns.
Qed.

(** C4 fails for the Market agent: [await self._init_redis()] stands before
    the [try].  When the agent has no redis client yet and
    [aioredis.from_url] raises, the exception leaves [analyze]; in
    [analyze_market] the agent's slot then holds the exception object, not
    an error text. *)
Theorem market_init_redis_escapes env self symbol price market_data
    show_reasoning st e d :
  agent_cls self = MarketDataAgent ->
  redis_client self = None ->
  redis_from_url env (redis_url self) = (Raise e, d) ->
  analyze env self symbol price market_data show_reasoning st
  = (Raise e, TState (now st + d) (attempts st)) /\
  fst (run_task (now st)
         (analyze env self symbol price market_data show_reasoning))
  = Raised e.
Proof.
  intros Hc Hr Hu.
  assert (forall s, analyze env self symbol price market_data show_reasoning s
                    = (Raise e, TState (now s + d) (attempts s))) as H.
  { intros s. unfold analyze. rewrite Hc.
    unfold market_analyze, _init_redis. rewrite Hr.
    unfold Task.bind, Task.await. rewrite Hu. reflexivity. }
  split; [apply H|]. unfold run_task. rewrite H. reflexivity.
Qed.

(** The statement above for a Market agent built with the URL
    [localhost:6379]. *)
Lemma market_init_redis_escapes_witness :
  analyze env_url_checked market_agent_bad_url BTC some_prices
          (snapshot BTC quote_full) false start
  = (Raise (Exn ValueError
              (py "Redis URL must specify one of the following schemes (redis://, rediss://, unix://)")),
     TState (now start + 0) (attempts start)) /\
  fst (run_task (now start)
         (analyze env_url_checked market_agent_bad_url BTC some_prices
                  (snapshot BTC quote_full) false))
  = Raised (Exn ValueError
              (py "Redis URL must specify one of the following schemes (redis://, rediss://, unix://)")).
Proof.
  apply (market_init_redis_escapes env_url_checked market_agent_bad_url BTC
           some_prices (snapshot BTC quote_full) false start);
    reflexivity.
Defined.

(** What [create_message] does when the call to the chat client raises:
    it classifies the exception and raises, after that one call. *)
Lemma create_message_raises env owner p messages st e d :
  (forall input, chat_invoke env owner (attempts st) input = (Raise e, d)) ->
  create_message env owner p messages st
  = (Raise (match prov_class p with
            | AnthropicProvider => anthropic_classify e
            | OpenAIProvider => openai_classify e
            end),
     TState (now st + d) (S (attempts st))).
Proof.
  intros H. unfold create_message.
  destruct (prov_class p);
    unfold Task.try_except, Task.bind, Task.next_attempt, Task.await,
           Task.raise; rewrite H; reflexivity.
Qed.

(** C8 fails on the code: [_handle_provider_error] is never called.  A
    chat client whose first call fails on the connection and whose second
    call would answer: the Sentiment agent returns the error text after
    that single call, one tick after it started (no retry, no backoff).
    A chat client out of quota, with a fallback provider that would
    answer: the agent returns the error text of the quota error. *)
Theorem provider_errors_are_terminal :
  sentiment_analyze env_flaky (with_provider SentimentAgent) no_prices
                    (snapshot BTC quote_full) false start
  = (Ok (VStr (py "Error analyzing sentiment: [Anthropic] Connection reset by peer")),
     TState 1 1) /\
  fst (chat_invoke env_flaky SentimentAgent 1
                   (VStr (nl ++ nl ++ sentiment_prompt
                            (py "=== MARKET TRENDS ===" ++ nl
                             ++ py "24h Change: 12.00%" ++ nl
                             ++ py "7d Change: 3.50%" ++ nl
                             ++ py "30d Change: -1.25%" ++ nl
                             ++ py "Volume Change 24h: 0.50%"))))
  = Ok (py "Recovered") /\
  exn_cls (anthropic_classify
             (Exn OtherException (py "Connection reset by peer")))
  = ProviderConnectionError /\
  sentiment_analyze (with_chat env_ok SentimentAgent quota_exhausted)
                    (with_provider SentimentAgent) no_prices
                    (snapshot BTC quote_full) false start
  = (Ok (VStr (py "Error analyzing sentiment: [Anthropic] 429: rate limit exceeded")),
     TState 1 1) /\
  exn_cls (anthropic_classify
             (Exn OtherException (py "429: rate limit exceeded")))
  = ProviderQuotaError /\
  fst (fallback_generate (with_chat env_ok SentimentAgent quota_exhausted)
                         (py "Fallback after quota error")
                         (py "Please try again"))
  = Ok (py "Fallback answer").
Proof. repeat split; vm_compute; reflexivity. Qed.

End Boundary.

(* ================================================================== *)
(** * The agents on a well-formed snapshot *)
(* ================================================================== *)

Module Analysis.

Import Provider Agent Orchestrator Scenario Facts.

Open Scope task_scope.

Lemma bind_lift_ok {A B} (a : A) (k : A -> task B) :
  Task.bind (Task.lift (Ok a)) k = k a.
Proof. reflexivity. Qed.

Lemma snapshot_symbol symbol quote :
  (data <- subscript (snapshot symbol quote) (py "data") ;;
   ks <- keys data ;;
   next_iter ks)%res = Ok symbol.
Proof. reflexivity. Qed.

Lemma snapshot_quote symbol quote :
  (data <- subscript (snapshot symbol quote) (py "data") ;;
   crypto <- subscript data symbol ;;
   q <- subscript crypto (py "quote") ;;
   subscript q (py "USD"))%res = Ok quote.
Proof.
  unfold snapshot. simpl. rewrite eqb_refl. reflexivity.
Qed.

Lemma first_quote_snapshot symbol quote :
  first_quote (snapshot symbol quote) = Ok quote.
Proof. reflexivity. Qed.

Lemma snapshot_has_data symbol quote :
  (if is_dict (snapshot symbol quote)
   then contains_key (py "data") (snapshot symbol quote)
   else Ok false) = Ok true.
Proof. reflexivity. Qed.

Lemma snapshot_crypto_data symbol quote :
  (data <- subscript (snapshot symbol quote) (py "data") ;;
   vs <- values data ;;
   Ok (match vs with v :: _ => v | [] => VNone end))%res
  = Ok (VDict [(py "quote", VDict [(py "USD", quote)])]).
Proof. reflexivity. Qed.

Lemma crypto_data_well_formed quote :
  let crypto_data := VDict [(py "quote", VDict [(py "USD", quote)])] in
  (if negb (truthy crypto_data) then Ok false
   else
     has_quote <- contains_key (py "quote") crypto_data ;;
     if negb has_quote then Ok false
     else
       q <- subscript crypto_data (py "quote") ;;
       contains_key (py "USD") q)%res = Ok true /\
  (q <- subscript crypto_data (py "quote") ;; subscript q (py "USD"))%res
  = Ok quote.
Proof. split; reflexivity. Qed.

(** The statistics of the Market agent read the two fields of the key. *)
Lemma market_stats_fields quote stats :
  market_stats_of quote = Ok stats ->
  exists price_v change_v,
    subscript quote (py "price") = Ok price_v /\
    subscript quote (py "percent_change_24h") = Ok change_v.
Proof.
  unfold market_stats_of, field_f. intros H.
  destruct (subscript quote (py "price")) as [pv|]; [|discriminate H].
  cbn [Res.bind] in H.
  destruct (format_spec_f 2 pv); [|discriminate H]. cbn [Res.bind] in H.
  destruct (subscript quote (py "percent_change_24h")) as [cv|];
    [|discriminate H].
  now exists pv, cv.
Qed.

Lemma market_recompute_snapshot env self symbol quote show_reasoning key
    stats :
  market_stats_of quote = Ok stats ->
  market_recompute env self (snapshot symbol quote) show_reasoning key
  = (analysis <- market_analysis env self stats show_reasoning ;;
     Task.await (redis_set env key (json_dumps env analysis) 3600) ;;;
     Task.ret (VStr analysis)).
Proof.
  intros Hs. unfold market_recompute.
  rewrite snapshot_has_data, bind_lift_ok. cbn [negb].
  rewrite snapshot_crypto_data, bind_lift_ok.
  destruct (crypto_data_well_formed quote) as [Hw Hq].
  cbv zeta in Hw, Hq. rewrite Hw, bind_lift_ok. cbn [negb].
  rewrite Hq, bind_lift_ok. rewrite Hs, bind_lift_ok.
  reflexivity.
Qed.

(** [MarketDataAgent.analyze] on a snapshot, after [_init_redis]. *)
Lemma market_body_snapshot env self symbol quote show_reasoning stats
    price_v change_v st :
  market_stats_of quote = Ok stats ->
  subscript quote (py "price") = Ok price_v ->
  subscript quote (py "percent_change_24h") = Ok change_v ->
  let key := cache_key_of env symbol price_v change_v (now st) in
  let st1 := TState (now st + snd (redis_get env key)) (attempts st) in
  market_try env self (snapshot symbol quote) show_reasoning st
  = match fst (redis_get env key) with
    | Raise e =>
        (Ok (VStr (py "Error analyzing market data: " ++ exn_str e)), st1)
    | Ok cached_result =>
        match cache_hit cached_result with
        | Some cached =>
            match json_loads env cached with
            | Ok v => (Ok v, st1)
            | Raise e =>
                (Ok (VStr (py "Error analyzing market data: " ++ exn_str e)),
                 st1)
            end
        | None =>
            match market_analysis env self stats show_reasoning st1 with
            | (Raise e, st2) =>
                (Ok (VStr (py "Error analyzing market data: " ++ exn_str e)),
                 st2)
            | (Ok analysis, st2) =>
                let o := redis_set env key (json_dumps env analysis) 3600 in
                let st3 := TState (now st2 + snd o) (attempts st2) in
                match fst o with
                | Ok _ => (Ok (VStr analysis), st3)
                | Raise e =>
                    (Ok (VStr (py "Error analyzing market data: "
                                  ++ exn_str e)), st3)
                end
            end
        end
    end.
Proof.
  intros Hs Hp Hc key st1. unfold market_try.
  rewrite snapshot_symbol, bind_lift_ok.
  rewrite snapshot_quote, bind_lift_ok.
  rewrite Hp, bind_lift_ok. rewrite Hc, bind_lift_ok.
  unfold Task.try_except, Task.bind at 1, Task.clock.
  unfold Task.bind at 1, Task.await at 1. fold key. fold st1.
  destruct (fst (redis_get env key)) as [cached_result|e]; [|reflexivity].
  destruct (cache_hit cached_result) as [cached|].
  - unfold Task.lift. destruct (json_loads env cached); reflexivity.
  - rewrite (@market_recompute_snapshot env self symbol quote show_reasoning key
               stats Hs).
    unfold Task.bind at 1.
    destruct (market_analysis env self stats show_reasoning st1)
      as [[analysis|e] st2]; [|reflexivity].
    unfold Task.bind, Task.await, Task.ret.
    destruct (fst (redis_set env key (json_dumps env analysis) 3600));
      reflexivity.
Qed.

End Analysis.

(* ================================================================== *)
(** * Lines, and the filter of the reasoning *)
(* ================================================================== *)

Module Lines.

Import Provider Agent Orchestrator Scenario Facts.

Lemma startswith_inv (s p : pystr) :
  Str.startswith s p = true -> exists rest, s = p ++ rest.
Proof.
  revert s; induction p as [|y p IH]; intros s H.
  - exists s. reflexivity.
  - destruct s as [|x s]; simpl in H; [discriminate|].
    apply andb_true_iff in H as [Hxy Hp]. apply N.eqb_eq in Hxy. subst.
    destruct (IH _ Hp) as [rest ->]. now exists rest.
Qed.

Lemma lstrip_app_keep (a b : pystr) (c : N) :
  Str.is_space c = false ->
  exists a', Str.lstrip (a ++ c :: b) = a' ++ c :: b.
Proof.
  intros Hc. induction a as [|x a IH]; simpl.
  - rewrite Hc. now exists [].
  - destruct (Str.is_space x); [exact IH|].
    now exists (x :: a).
Qed.

(** Stripping a line that starts with a word whose first and last
    characters are not blank leaves a line that starts with it. *)
Lemma strip_keeps_prefix (m rest m' r : pystr) (c l : N) :
  m = c :: m' -> Str.is_space c = false ->
  rev m = l :: r -> Str.is_space l = false ->
  exists tail, Str.strip (m ++ rest) = m ++ tail.
Proof.
  intros Hm Hc Hr Hl. unfold Str.strip, Str.rstrip.
  assert (Str.lstrip (m ++ rest) = m ++ rest) as ->.
  { rewrite Hm. simpl. now rewrite Hc. }
  rewrite rev_app_distr, Hr.
  destruct (lstrip_app_keep (rev rest) r l Hl) as [a' ->].
  rewrite <- Hr, rev_app_distr, rev_involutive. now exists (rev a').
Qed.

(** A line that begins with one of the markers looks like reasoning. *)
Lemma marker_line (line marker : pystr) :
  In marker reasoning_markers ->
  Str.startswith line marker = true ->
  looks_like_reasoning line = true.
Proof.
  intros Hin Hs. destruct (startswith_inv _ _ Hs) as [rest ->].
  assert (exists tail, Str.strip (marker ++ rest) = marker ++ tail)
    as [tail Ht].
  { unfold reasoning_markers in Hin. simpl in Hin.
    destruct Hin as [<-|[<-|[<-|[<-|[]]]]];
      eapply strip_keeps_prefix; reflexivity. }
  unfold looks_like_reasoning. rewrite Ht.
  apply existsb_exists. exists marker. split; [exact Hin|].
  apply startswith_app.
Qed.

Lemma split_nl_nonempty (s : pystr) : Str.split_nl s <> [].
Proof.
  destruct s as [|c s]; simpl; [discriminate|].
  destruct (N.eqb c 10); [discriminate|].
  destruct (Str.split_nl s); discriminate.
Qed.

Lemma split_nl_no_nl (s : pystr) : Forall no_nl (Str.split_nl s).
Proof.
  induction s as [|c s IH]; simpl.
  - repeat constructor. intros [].
  - destruct (N.eqb c 10) eqn:E.
    + constructor; [intros []|exact IH].
    + apply N.eqb_neq in E.
      destruct (Str.split_nl s) as [|l ls].
      * repeat constructor. intros [H|[]]. congruence.
      * inversion IH; subst. constructor; [|assumption].
        intros [H|H]; [congruence|contradiction].
Qed.

(** Splitting into lines loses nothing. *)
Lemma join_split (s : pystr) : Str.join_nl (Str.split_nl s) = s.
Proof.
  induction s as [|c s IH]; simpl; [reflexivity|].
  pose proof (split_nl_nonempty s) as Hne.
  destruct (N.eqb c 10) eqn:E.
  - apply N.eqb_eq in E. subst c.
    destruct (Str.split_nl s) as [|l ls]; [contradiction|].
    simpl in *. now rewrite IH.
  - destruct (Str.split_nl s) as [|l ls]; [contradiction|].
    destruct ls; simpl in *; now rewrite <- IH.
Qed.

Lemma split_line (l : pystr) : no_nl l -> Str.split_nl l = [l].
Proof.
  induction l as [|c l IH]; intros H; simpl; [reflexivity|].
  destruct (N.eqb c 10) eqn:E.
  - apply N.eqb_eq in E. subst. exfalso. apply H. now left.
  - rewrite IH; [reflexivity|]. intros Hin. apply H. now right.
Qed.

Lemma split_app (l rest : pystr) :
  no_nl l -> Str.split_nl (l ++ 10%N :: rest) = l :: Str.split_nl rest.
Proof.
  induction l as [|c l IH]; intros H; simpl; [reflexivity|].
  destruct (N.eqb c 10) eqn:E.
  - apply N.eqb_eq in E. subst. exfalso. apply H. now left.
  - rewrite IH; [reflexivity|]. intros Hin. apply H. now right.
Qed.

(** Joining lines and splitting again gives the lines back. *)
Lemma split_join (ls : list pystr) :
  ls <> [] -> Forall no_nl ls -> Str.split_nl (Str.join_nl ls) = ls.
Proof.
  induction ls as [|l ls IH]; intros Hne HF; [contradiction|].
  inversion HF as [|? ? Hl HF']; subst.
  destruct ls as [|l2 ls].
  - simpl. now apply split_line.
  - change (Str.join_nl (l :: l2 :: ls))
      with (l ++ 10%N :: Str.join_nl (l2 :: ls)).
    rewrite split_app by exact Hl. f_equal.
    apply IH; [discriminate|exact HF'].
Qed.

Lemma filter_forall {A} (P : A -> Prop) (f : A -> bool) (l : list A) :
  Forall P l -> Forall P (filter f l).
Proof.
  induction 1 as [|x l Hx HF IH]; simpl; [constructor|].
  destruct (f x); [constructor|]; assumption.
Qed.

Lemma filter_all {A} (f : A -> bool) (l : list A) :
  (forall x, In x l -> f x = true) -> filter f l = l.
Proof.
  induction l as [|x l IH]; intros H; simpl; [reflexivity|].
  rewrite (H x) by now left. f_equal. apply IH. intros y Hy. apply H.
  now right.
Qed.

(** What [filter_reasoning] does to a response. *)
Lemma filter_reasoning_spec (response : pystr) :
  let kept := filter (fun line => negb (looks_like_reasoning line))
                     (Str.split_nl response) in
  filter_reasoning response = Str.join_nl kept /\
  (kept <> [] -> Str.split_nl (filter_reasoning response) = kept) /\
  (kept = [] -> filter_reasoning response = []) /\
  ((forall line, In line (Str.split_nl response) ->
                 looks_like_reasoning line = false) ->
   filter_reasoning response = response).
Proof.
  intros kept. split; [reflexivity|]. split; [|split].
  - intros Hne. unfold filter_reasoning. fold kept.
    apply split_join; [exact Hne|].
    apply filter_forall, split_nl_no_nl.
  - intros H. unfold filter_reasoning. fold kept. now rewrite H.
  - intros H. unfold filter_reasoning.
    rewrite filter_all; [apply join_split|].
    intros x Hx. now rewrite (H x Hx).
Qed.

End Lines.

(* ================================================================== *)
(** * The cache *)
(* ================================================================== *)

Module Cache.

Import Provider Agent Orchestrator Scenario Facts Analysis.

Lemma init_redis_ok env self st :
  redis_client self <> None \/
  fst (redis_from_url env (redis_url self)) = Ok tt ->
  exists self' st',
    _init_redis env self st = (Ok self', st') /\
    provider self' = provider self.
Proof.
  intros H. unfold _init_redis.
  destruct (redis_client self) as [c|].
  - now exists self, st.
  - destruct H as [H|H]; [congruence|].
    unfold Task.bind, Task.await, Task.ret. rewrite H.
    eexists _, _. split; reflexivity.
Qed.

Lemma market_analysis_provider env self self' stats show_reasoning :
  provider self' = provider self ->
  market_analysis env self' stats show_reasoning
  = market_analysis env self stats show_reasoning.
Proof. unfold market_analysis. now intros ->. Qed.

(** The outcomes of [MarketDataAgent.analyze] on a snapshot, by what the
    cache does. *)
Lemma market_analyze_snapshot env self price symbol quote show_reasoning st
    stats :
  market_stats_of quote = Ok stats ->
  redis_client self <> None \/
  fst (redis_from_url env (redis_url self)) = Ok tt ->
  exists key st1,
    fst (market_analyze env self price (snapshot symbol quote)
                        show_reasoning st)
    = match fst (redis_get env key) with
      | Raise e => Ok (VStr (py "Error analyzing market data: " ++ exn_str e))
      | Ok cached_result =>
          match cache_hit cached_result with
          | Some cached =>
              match json_loads env cached with
              | Ok v => Ok v
              | Raise e =>
                  Ok (VStr (py "Error analyzing market data: " ++ exn_str e))
              end
          | None =>
              match market_analysis env self stats show_reasoning st1 with
              | (Raise e, _) =>
                  Ok (VStr (py "Error analyzing market data: " ++ exn_str e))
              | (Ok analysis, _) =>
                  match fst (redis_set env key (json_dumps env analysis) 3600)
                  with
                  | Ok _ => Ok (VStr analysis)
                  | Raise e =>
                      Ok (VStr (py "Error analyzing market data: "
                                   ++ exn_str e))
                  end
              end
          end
      end.
Proof.
  intros Hs Hinit.
  destruct (@market_stats_fields quote stats Hs) as (pv & cv & Hp & Hc).
  unfold market_analyze.
  destruct (init_redis_ok env self st Hinit) as (self' & st' & Hi & Hprov).
  unfold Task.bind at 1. rewrite Hi. cbv beta iota.
  rewrite (@market_body_snapshot env self' symbol quote show_reasoning stats pv cv
             st' Hs Hp Hc).
  cbv zeta.
  rewrite (@market_analysis_provider env self self' stats show_reasoning Hprov).
  set (key := cache_key_of env symbol pv cv (now st')).
  set (st1 := TState (now st' + snd (redis_get env key)) (attempts st')).
  exists key, st1.
  destruct (fst (redis_get env key)) as [cached_result|e]; [|reflexivity].
  destruct (cache_hit cached_result) as [cached|].
  - destruct (json_loads env cached); reflexivity.
  - destruct (market_analysis env self stats show_reasoning st1)
      as [[analysis|e] st2]; [|reflexivity].
    destruct (fst (redis_set env key (json_dumps env analysis) 3600));
      reflexivity.
Qed.

(** C7, as the code has it.  For the Market agent (the only one with a
    cache) on a well-formed snapshot: a miss -- nothing stored, or an empty
    value -- is no error and the analysis is computed; an exception raised
    by the cache [get] or by the cache [set] is not treated as a miss: the
    [except] clause of the agent catches it and the agent returns the error
    text made of its message. *)
Theorem cache_fault_is_agent_error env self price symbol quote show_reasoning
    st stats analysis e :
  market_stats_of quote = Ok stats ->
  redis_client self <> None \/
  fst (redis_from_url env (redis_url self)) = Ok tt ->
  (forall s, exists s',
      market_analysis env self stats show_reasoning s = (Ok analysis, s')) ->
  let result :=
    fst (market_analyze env self price (snapshot symbol quote) show_reasoning
                        st) in
  ((forall key, fst (redis_get env key) = Raise e) ->
   result = Ok (VStr (py "Error analyzing market data: " ++ exn_str e))) /\
  ((forall key, exists c,
       fst (redis_get env key) = Ok c /\ cache_hit c = None) ->
   ((forall key value ex, fst (redis_set env key value ex) = Ok tt) ->
    result = Ok (VStr analysis)) /\
   ((forall key value ex, fst (redis_set env key value ex) = Raise e) ->
    result = Ok (VStr (py "Error analyzing market data: " ++ exn_str e)))).
Proof.
  intros Hs Hinit Ha result.
  destruct (@market_analyze_snapshot env self price symbol quote show_reasoning
              st stats Hs Hinit) as (key & st1 & H).
  fold result in H. split.
  - intros Hget. rewrite H, Hget. reflexivity.
  - intros Hmiss. destruct (Hmiss key) as (c & Hc & Hhit).
    destruct (Ha st1) as [s' Hs'].
    split; intros Hset; rewrite H, Hc, Hhit, Hs', Hset; reflexivity.
Qed.

(** The statement above for the Market agent without a provider on the full
    quote of the scenario, in the world whose cache [get] raises. *)
Lemma cache_fault_is_agent_error_witness :
  let result :=
    fst (market_analyze env_get_down (without_provider MarketDataAgent)
                        some_prices (snapshot BTC quote_full) false start) in
  let e := Exn OtherException (py "Connection refused") in
  let analysis :=
    py "=== MARKET STATISTICS ===" ++ nl
    ++ py "Current Price:    $100.00" ++ nl
    ++ py "24h Change:       12.00%" ++ nl
    ++ py "Volume:          $5.0M" ++ nl
    ++ py "Market Cap:      $2.00B" in
  ((forall key, fst (redis_get env_get_down key) = Raise e) ->
   result = Ok (VStr (py "Error analyzing market data: " ++ exn_str e))) /\
  ((forall key, exists c,
       fst (redis_get env_get_down key) = Ok c /\ cache_hit c = None) ->
   ((forall key value ex, fst (redis_set env_get_down key value ex) = Ok tt) ->
    result = Ok (VStr analysis)) /\
   ((forall key value ex,
        fst (redis_set env_get_down key value ex) = Raise e) ->
    result = Ok (VStr (py "Error analyzing market data: " ++ exn_str e)))).
Proof.
  apply (@cache_fault_is_agent_error env_get_down
           (without_provider MarketDataAgent) some_prices BTC quote_full
           false start
           (py "=== MARKET STATISTICS ===" ++ nl
            ++ py "Current Price:    $100.00" ++ nl
            ++ py "24h Change:       12.00%" ++ nl
            ++ py "Volume:          $5.0M" ++ nl
            ++ py "Market Cap:      $2.00B")
           (py "=== MARKET STATISTICS ===" ++ nl
            ++ py "Current Price:    $100.00" ++ nl
            ++ py "24h Change:       12.00%" ++ nl
            ++ py "Volume:          $5.0M" ++ nl
            ++ py "Market Cap:      $2.00B")
           (Exn OtherException (py "Connection refused"))).
  - vm_compute. reflexivity.
  - right. reflexivity.
  - intros s. exists s. reflexivity.
Defined.

(** C7, as stated, fails: with a cache whose [get] raises, the Market agent
    returns the error text of that exception, while with a cache that
    misses it returns its statistics; the same with a cache whose [set]
    raises. *)
Lemma cache_fault_is_not_a_miss :
  fst (market_analyze env_get_down (without_provider MarketDataAgent)
                      some_prices (snapshot BTC quote_full) false start)
  = Ok (VStr (py "Error analyzing market data: Connection refused")) /\
  fst (market_analyze env_set_down (without_provider MarketDataAgent)
                      some_prices (snapshot BTC quote_full) false start)
  = Ok (VStr (py "Error analyzing market data: Connection refused")) /\
  fst (market_analyze env_ok (without_provider MarketDataAgent)
                      some_prices (snapshot BTC quote_full) false start)
  = Ok (VStr (py "=== MARKET STATISTICS ===" ++ nl
              ++ py "Current Price:    $100.00" ++ nl
              ++ py "24h Change:       12.00%" ++ nl
              ++ py "Volume:          $5.0M" ++ nl
              ++ py "Market Cap:      $2.00B")).
Proof. repeat split; vm_compute; reflexivity. Qed.

End Cache.

(* ================================================================== *)
(** * The local fallbacks *)
(* ================================================================== *)

Module Fallback.

Import Provider Agent Orchestrator Scenario Facts Analysis.

Lemma subscript_get (q : list (pystr * pyval)) (k : pystr) (v : pyval) :
  dict_get q k = Some v -> subscript (VDict q) k = Ok v.
Proof. unfold subscript. now intros ->. Qed.

Lemma field_f_get (prec : nat) (q : list (pystr * pyval)) (k : pystr)
    (v : pyval) (s : pystr) :
  dict_get q k = Some v -> format_spec_f prec v = Ok s ->
  field_f prec (VDict q) k = Ok s.
Proof.
  intros Hg Hf. unfold field_f. rewrite (@subscript_get _ _ _ Hg). exact Hf.
Qed.

Lemma field_div_f_get (prec : nat) (q : list (pystr * pyval)) (k : pystr)
    (v : pyval) (c f : float) :
  dict_get q k = Some v -> div_float v c = Ok f ->
  field_div_f prec (VDict q) k c = Ok (format_f prec f).
Proof.
  intros Hg Hf. unfold field_div_f. rewrite (@subscript_get _ _ _ Hg).
  cbn [Res.bind]. rewrite Hf. reflexivity.
Qed.

(** C6, as the code has it.  A quote with price 100.00, 24h change 12.0,
    24h volume 5000000 and market cap 2000000000 whose three other fields
    (7d change, 30d change, 24h volume change) hold numbers, and agents
    without a provider: the Risk agent returns [Risk Level: HIGH], the
    Portfolio agent [Recommended Action: TAKE PROFIT], the Sentiment agent
    [Market Sentiment: BULLISH], each followed by the lines below. *)
Theorem local_fallbacks env self price symbol (q : list (pystr * pyval))
    show_reasoning st v7 v30 vvc s7 s30 svc :
  provider self = None ->
  dict_get q (py "price") = Some (VFloat 100.00) ->
  dict_get q (py "percent_change_24h") = Some (VFloat 12.0) ->
  dict_get q (py "volume_24h") = Some (VInt 5000000) ->
  dict_get q (py "market_cap") = Some (VInt 2000000000) ->
  dict_get q (py "percent_change_7d") = Some v7 ->
  format_spec_f 2 v7 = Ok s7 ->
  dict_get q (py "percent_change_30d") = Some v30 ->
  format_spec_f 2 v30 = Ok s30 ->
  dict_get q (py "volume_change_24h") = Some vvc ->
  format_spec_f 2 vvc = Ok svc ->
  risk_analyze env self price (snapshot symbol (VDict q)) show_reasoning st
  = (Ok (VStr (py "Risk Level: HIGH" ++ nl
               ++ py "Volatility: 12.00%" ++ nl
               ++ py "Volume Change: " ++ svc ++ py "%")), st) /\
  portfolio_analyze env self price (snapshot symbol (VDict q)) show_reasoning
                    st
  = (Ok (VStr (py "Recommended Action: TAKE PROFIT" ++ nl
               ++ py "Price Trend: 12.00%" ++ nl
               ++ py "Market Direction: Upward")), st) /\
  sentiment_analyze env self price (snapshot symbol (VDict q)) show_reasoning
                    st
  = (Ok (VStr (py "Market Sentiment: BULLISH" ++ nl
               ++ py "24h Trend: 12.00%" ++ nl
               ++ py "7d Trend: " ++ s7 ++ py "%")), st).
Proof.
  intros Hprov Hprice H24 Hvol Hcap H7 Hs7 H30 Hs30 Hvc Hsvc.
  assert (format_spec_f 2 (VFloat 12.0) = Ok (py "12.00")) as F12
    by (vm_compute; reflexivity).
  assert (format_spec_f 2 (VFloat 100.00) = Ok (py "100.00")) as F100
    by (vm_compute; reflexivity).
  assert (div_float (VInt 2000000000) 1e9 = Ok 2%float) as Dcap
    by (vm_compute; reflexivity).
  assert (div_float (VInt 5000000) 1e6 = Ok 5%float) as Dvol
    by (vm_compute; reflexivity).
  repeat split.
  - unfold risk_analyze.
    rewrite first_quote_snapshot, bind_lift_ok.
    rewrite (@subscript_get _ _ _ H24). cbn [Res.bind].
    change (py_abs (VFloat 12.0)) with (Ok (VFloat 12.0)).
    rewrite bind_lift_ok.
    unfold risk_data_of. rewrite F12. cbn [Res.bind].
    rewrite (@field_f_get 2 _ _ _ _ Hvc Hsvc). cbn [Res.bind].
    rewrite (@field_div_f_get 2 _ _ _ _ _ Hcap Dcap). cbn [Res.bind].
    rewrite (@field_div_f_get 2 _ _ _ _ _ Hvol Dvol). cbn [Res.bind].
    rewrite bind_lift_ok. rewrite Hprov.
    unfold risk_fallback.
    change (gt_int (VFloat 12.0) 10) with (Ok true). cbn [Res.bind].
    rewrite F12. cbn [Res.bind].
    rewrite (@field_f_get 2 _ _ _ _ Hvc Hsvc). cbn [Res.bind].
    reflexivity.
  - unfold portfolio_analyze.
    rewrite first_quote_snapshot, bind_lift_ok.
    unfold portfolio_data_of.
    rewrite (@field_f_get 2 _ _ _ _ Hprice F100). cbn [Res.bind].
    rewrite (@field_f_get 2 _ _ _ _ H24 F12). cbn [Res.bind].
    rewrite (@field_f_get 2 _ _ _ _ H7 Hs7). cbn [Res.bind].
    rewrite (@field_div_f_get 2 _ _ _ _ _ Hcap Dcap). cbn [Res.bind].
    rewrite (@field_div_f_get 2 _ _ _ _ _ Hvol Dvol). cbn [Res.bind].
    rewrite bind_lift_ok. rewrite Hprov.
    unfold portfolio_fallback.
    rewrite (@subscript_get _ _ _ H24). cbn [Res.bind].
    change (gt_int (VFloat 12.0) 5) with (Ok true). cbn [Res.bind].
    rewrite F12. cbn [Res.bind].
    change (gt_int (VFloat 12.0) 0) with (Ok true). cbn [Res.bind].
    reflexivity.
  - unfold sentiment_analyze.
    rewrite first_quote_snapshot, bind_lift_ok.
    unfold sentiment_stats_of.
    rewrite (@field_f_get 2 _ _ _ _ H24 F12). cbn [Res.bind].
    rewrite (@field_f_get 2 _ _ _ _ H7 Hs7). cbn [Res.bind].
    rewrite (@field_f_get 2 _ _ _ _ H30 Hs30). cbn [Res.bind].
    rewrite (@field_f_get 2 _ _ _ _ Hvc Hsvc). cbn [Res.bind].
    rewrite bind_lift_ok. rewrite Hprov.
    unfold sentiment_fallback.
    rewrite (@subscript_get _ _ _ H24). cbn [Res.bind].
    change (gt_int (VFloat 12.0) 0) with (Ok true). cbn [Res.bind].
    rewrite (@field_f_get 2 _ _ _ _ H24 F12). cbn [Res.bind].
    rewrite (@field_f_get 2 _ _ _ _ H7 Hs7). cbn [Res.bind].
    reflexivity.
Qed.

(** The statement above on the full quote of the scenario. *)
Lemma local_fallbacks_witness :
  risk_analyze env_ok (without_provider RiskManagementAgent) no_prices
               (snapshot BTC (VDict all_fields)) false start
  = (Ok (VStr (py "Risk Level: HIGH" ++ nl
               ++ py "Volatility: 12.00%" ++ nl
               ++ py "Volume Change: " ++ py "0.50" ++ py "%")), start) /\
  portfolio_analyze env_ok (without_provider RiskManagementAgent) no_prices
                    (snapshot BTC (VDict all_fields)) false start
  = (Ok (VStr (py "Recommended Action: TAKE PROFIT" ++ nl
               ++ py "Price Trend: 12.00%" ++ nl
               ++ py "Market Direction: Upward")), start) /\
  sentiment_analyze env_ok (without_provider RiskManagementAgent) no_prices
                    (snapshot BTC (VDict all_fields)) false start
  = (Ok (VStr (py "Market Sentiment: BULLISH" ++ nl
               ++ py "24h Trend: 12.00%" ++ nl
               ++ py "7d Trend: " ++ py "3.50" ++ py "%")), start).
Proof.
  apply (@local_fallbacks env_ok (without_provider RiskManagementAgent)
           no_prices BTC all_fields false start
           (VFloat 3.5) (VFloat (-1.25)) (VFloat 0.5)
           (py "3.50") (py "-1.25") (py "0.50"));
    vm_compute; reflexivity.
Defined.

(** C6, as stated, fails on the snapshot it gives: with the four fields
    only, each agent fails on a field it formats before it reaches its
    fallback, and returns its error text; the fallbacks of the Risk and
    Sentiment agents read such a field themselves. *)
Lemma four_fields_are_not_enough :
  fst (risk_analyze env_ok (without_provider RiskManagementAgent) no_prices
                    (snapshot BTC quote_four) false start)
  = Ok (VStr (py "Error analyzing risks: 'volume_change_24h'")) /\
  Str.startswith (py "Error analyzing risks: 'volume_change_24h'")
                 (py "Risk Level: HIGH") = false /\
  fst (portfolio_analyze env_ok (without_provider PortfolioAgent) no_prices
                         (snapshot BTC quote_four) false start)
  = Ok (VStr (py "Error generating portfolio advice: 'percent_change_7d'")) /\
  Str.startswith (py "Error generating portfolio advice: 'percent_change_7d'")
                 (py "Recommended Action: TAKE PROFIT") = false /\
  fst (sentiment_analyze env_ok (without_provider SentimentAgent) no_prices
                         (snapshot BTC quote_four) false start)
  = Ok (VStr (py "Error analyzing sentiment: 'percent_change_7d'")) /\
  Str.startswith (py "Error analyzing sentiment: 'percent_change_7d'")
                 (py "Market Sentiment: BULLISH") = false /\
  risk_fallback quote_four (VFloat 12.0)
  = Raise (Exn KeyError (py "'volume_change_24h'")) /\
  sentiment_fallback quote_four
  = Raise (Exn KeyError (py "'percent_change_7d'")).
Proof. repeat split; vm_compute; reflexivity. Qed.

End Fallback.

(* ================================================================== *)
(** * The reasoning-visibility flag *)
(* ================================================================== *)

Module Reasoning.

Import Provider Agent Orchestrator Scenario Facts Analysis Lines Cache.

Lemma create_message_answers env owner p messages st response :
  (forall n input, fst (chat_invoke env owner n input) = Ok response) ->
  exists st', create_message env owner p messages st = (Ok response, st').
Proof.
  intros H. unfold create_message.
  destruct (prov_class p);
    unfold Task.try_except, Task.bind, Task.next_attempt, Task.await;
    rewrite H; eexists; reflexivity.
Qed.

Lemma try_bind_lift {A B} (r : result A) (k : A -> task B)
    (h : exn -> task B) (st : tstate) :
  Task.try_except (Task.bind (Task.lift r) k) h st
  = match r with
    | Ok a => Task.try_except (k a) h st
    | Raise e => h e st
    end.
Proof. destruct r; reflexivity. Qed.

(** The end of the four simple agents, when the provider answers. *)
Lemma try_ask env owner p prompt (h : exn -> task pyval) st response :
  (forall n input, fst (chat_invoke env owner n input) = Ok response) ->
  fst (Task.try_except
         (Task.bind
            (Task.bind (create_message env owner p prompt)
                       (fun response => Task.ret response))
            (fun analysis => Task.ret (VStr analysis))) h st)
  = Ok (VStr response).
Proof.
  intros H.
  destruct (create_message_answers env owner p prompt st response H)
    as [st' E].
  unfold Task.try_except, Task.bind. rewrite E. reflexivity.
Qed.

(** With a provider that answers [response], the Sentiment, Technical,
    Risk and Portfolio agents return [response] itself, unless they return
    one of their error texts. *)
Lemma sentiment_passes env self price market_data show_reasoning st p
    response :
  provider self = Some p ->
  (forall n input,
      fst (chat_invoke env SentimentAgent n input) = Ok response) ->
  let result :=
    fst (sentiment_analyze env self price market_data show_reasoning st) in
  result = Ok (VStr response) \/
  exists e, result = Ok (VStr (py "Error analyzing sentiment: " ++ exn_str e)).
Proof.
  intros Hp Hchat result. subst result.
  unfold sentiment_analyze. rewrite try_bind_lift.
  destruct (first_quote market_data) as [quote|e];
    [|right; exists e; reflexivity].
  rewrite try_bind_lift.
  destruct (sentiment_stats_of quote) as [stats|e];
    [|right; exists e; reflexivity].
  rewrite Hp. left. now apply try_ask.
Qed.

Lemma risk_passes env self price market_data show_reasoning st p response :
  provider self = Some p ->
  (forall n input,
      fst (chat_invoke env RiskManagementAgent n input) = Ok response) ->
  let result :=
    fst (risk_analyze env self price market_data show_reasoning st) in
  result = Ok (VStr response) \/
  exists e, result = Ok (VStr (py "Error analyzing risks: " ++ exn_str e)).
Proof.
  intros Hp Hchat result. subst result.
  unfold risk_analyze. rewrite try_bind_lift.
  destruct (first_quote market_data) as [quote|e];
    [|right; exists e; reflexivity].
  rewrite try_bind_lift.
  match goal with
  | |- context [match ?r with Ok _ => _ | Raise _ => _ end] =>
      destruct r as [volatility|e]
  end; [|right; exists e; reflexivity].
  rewrite try_bind_lift.
  destruct (risk_data_of quote volatility) as [risk_data|e];
    [|right; exists e; reflexivity].
  rewrite Hp. left. now apply try_ask.
Qed.

Lemma portfolio_passes env self price market_data show_reasoning st p
    response :
  provider self = Some p ->
  (forall n input,
      fst (chat_invoke env PortfolioAgent n input) = Ok response) ->
  let result :=
    fst (portfolio_analyze env self price market_data show_reasoning st) in
  result = Ok (VStr response) \/
  exists e,
    result = Ok (VStr (py "Error generating portfolio advice: " ++ exn_str e)).
Proof.
  intros Hp Hchat result. subst result.
  unfold portfolio_analyze. rewrite try_bind_lift.
  destruct (first_quote market_data) as [quote|e];
    [|right; exists e; reflexivity].
  rewrite try_bind_lift.
  destruct (portfolio_data_of quote) as [portfolio_data|e];
    [|right; exists e; reflexivity].
  rewrite Hp. left. now apply try_ask.
Qed.

Lemma technical_passes env self price market_data show_reasoning st p
    response :
  provider self = Some p ->
  (forall n input,
      fst (chat_invoke env TechnicalAgent n input) = Ok response) ->
  let result :=
    fst (technical_analyze env self price market_data show_reasoning st) in
  result = Ok (VStr response) \/
  result
  = Ok (VStr (py "Error: No price data available for technical analysis")) \/
  exists e,
    result
    = Ok (VStr (py "Error analyzing technical indicators: " ++ exn_str e)).
Proof.
  intros Hp Hchat result. subst result.
  unfold technical_analyze. rewrite try_bind_lift.
  match goal with
  | |- context [match ?r with Ok _ => _ | Raise _ => _ end] =>
      destruct r as [df|e]
  end; [|right; right; exists e; reflexivity].
  destruct (df_empty df); [right; left; reflexivity|].
  rewrite try_bind_lift.
  destruct (latest_indicators env df) as [i|e];
    [|right; right; exists e; reflexivity].
  rewrite Hp. left. now apply try_ask.
Qed.




End Reasoning.

(* ================================================================== *)
(** * Requests that do not resolve, and what resolved agents hold *)
(* ================================================================== *)

Module Requests.

Import Provider Agent Orchestrator Scenario Worlds Facts Resolution Assignment.

(** Without a provider ([provider_map] left at [None], or given as an
    empty string or an empty list) [analyze_market] always ends in an
    exception, before any agent runs: [provider_list] is empty, so
    [i % len(provider_list)] divides by zero when all agents are asked
    for, and [provider_list[0]] is out of range when one is; an unknown
    agent type is reported first. *)
Theorem no_provider_no_analysis env symbol market_data price show_reasoning
    provider_map agent_type t0 :
  ModelConfig env = Ok tt ->
  provider_map = ProvidersNone \/ provider_map = ProvidersStr [] \/
  provider_map = ProvidersList [] ->
  analyze_market env symbol market_data price show_reasoning provider_map
                 agent_type t0
  = (Raise
       match agent_type with
       | Some (c :: k) =>
           match dict_get agent_mapping (c :: k) with
           | Some _ => Exn IndexError (py "list index out of range")
           | None => Exn ValueError (py "Invalid agent_type: " ++ c :: k)
           end
       | _ =>
           Exn ZeroDivisionError (py "integer modulo by zero")
       end, t0).
Proof.
  intros Hcfg Hpm. unfold analyze_market, resolve_agents. rewrite Hcfg.
  assert (providers_of provider_map = []) as ->
    by (destruct Hpm as [->|[->| ->]]; reflexivity).
  cbn [Res.bind configure_all provider_configs map].
  destruct agent_type as [[|c k]|]; try reflexivity.
  destruct (dict_get agent_mapping (c :: k)) as [[name cls]|]; reflexivity.
Qed.

(** The statement above for the default [provider_map=None]. *)
Lemma no_provider_no_analysis_witness :
  analyze_market env_ok BTC (snapshot BTC quote_full) some_prices false
                 ProvidersNone None 0
  = (Raise (Exn ZeroDivisionError (py "integer modulo by zero")),
     0).
Proof.
  exact (no_provider_no_analysis env_ok BTC (snapshot BTC quote_full)
           some_prices false ProvidersNone None 0 eq_refl
           (or_introl eq_refl)).
Defined.

Lemma agent_type_known (key : pystr) :
  In key [py "market"; py "sentiment"; py "technical"; py "risk";
          py "portfolio"] <->
  dict_get agent_mapping key <> None.
Proof.
  unfold agent_mapping. cbn [dict_get].
  split.
  - intros H. simpl in H.
    destruct H as [<-|[<-|[<-|[<-|[<-|[]]]]]]; vm_compute; discriminate.
  - intros H.
    repeat match type of H with
           | context [Str.eqb ?a key] =>
               let E := fresh "E" in
               destruct (Str.eqb a key) eqn:E;
               [apply eqb_eq in E; rewrite <- E; simpl; tauto|]
           end.
    contradiction.
Qed.

(** An agent type other than the five of [agent_mapping] (the comparison
    is exact: case and blanks count) ends the call in a [ValueError] that
    quotes it, once the providers are configured; no agent is built. *)
Theorem unknown_agent_type env symbol market_data price show_reasoning
    provider_map c k t t0 :
  ModelConfig env = Ok tt ->
  configure_all env (Tables [] []) (providers_of provider_map) = Ok t ->
  ~ In (c :: k) [py "market"; py "sentiment"; py "technical"; py "risk";
                 py "portfolio"] ->
  analyze_market env symbol market_data price show_reasoning provider_map
                 (Some (c :: k)) t0
  = (Raise (Exn ValueError (py "Invalid agent_type: " ++ c :: k)), t0).
Proof.
  intros Hcfg Ht Hk. unfold analyze_market, resolve_agents.
  rewrite Hcfg. cbn [Res.bind]. rewrite Ht. cbn [Res.bind].
  destruct (dict_get agent_mapping (c :: k)) as [[name cls]|] eqn:E;
    [|reflexivity].
  exfalso. apply Hk. apply agent_type_known. congruence.
Qed.

(** The statement above for the agent type [Market] (capitalised). *)
Lemma unknown_agent_type_witness :
  analyze_market env_ok BTC (snapshot BTC quote_full) some_prices false
                 (ProvidersStr (py "openai")) (Some (py "Market")) 0
  = (Raise (Exn ValueError (py "Invalid agent_type: " ++ py "Market")), 0).
Proof.
  apply (unknown_agent_type env_ok BTC (snapshot BTC quote_full) some_prices
           false (ProvidersStr (py "openai")) 77%N (py "arket")
           (Tables [(py "openai", VStr (py "model-of-openai"))]
                   [(py "openai", py "secret")]) 0).
  - reflexivity.
  - vm_compute. reflexivity.
  - vm_compute. intros H.
    repeat (destruct H as [H|H]; [discriminate H|]). exact H.
Defined.

Lemma configure_all_app env pre post :
  forall t,
    configure_all env t (pre ++ post)
    = Res.bind (configure_all env t pre)
               (fun t' => configure_all env t' post).
Proof.
  induction pre as [|p pre IH]; intros t; simpl; [reflexivity|].
  destruct (configure env t p); simpl; [apply IH|reflexivity].
Qed.

(** The environment variable of a requested provider: the only two
    providers the orchestrator knows a variable for. *)
Lemma missing_key_step env t provider var :
  (provider = py "anthropic" /\ var = py "ANTHROPIC_API_KEY") \/
  (provider = py "openai" /\ var = py "OPENAI_API_KEY") ->
  (exists cfg m, get_provider_config env provider = Ok cfg /\
                 subscript cfg (py "default_model") = Ok m) ->
  getenv env var = None \/ getenv env var = Some [] ->
  configure env t provider
  = Raise (Exn ValueError (var ++ py " not found in environment variables")).
Proof.
  intros Hp (cfg & m & Hc & Hm) Hk. unfold configure.
  rewrite Hc. cbn [Res.bind]. rewrite Hm. cbn [Res.bind].
  assert (require_key env var
          = Raise (Exn ValueError
                     (var ++ py " not found in environment variables"))) as Hr
    by (unfold require_key; destruct Hk as [-> | ->]; reflexivity).
  destruct Hp as [[-> ->]|[-> ->]].
  - change (Str.eqb (py "anthropic") (py "anthropic")) with true.
    cbv iota. rewrite Hr. reflexivity.
  - change (Str.eqb (py "openai") (py "anthropic")) with false.
    change (Str.eqb (py "openai") (py "openai")) with true.
    cbv iota. rewrite Hr. reflexivity.
Qed.

(** A requested provider whose API key is not in the environment (unset
    or empty) ends the call in a [ValueError] that names the variable, as
    soon as the loop over the providers reaches it: whatever the agent
    type, valid or not, and before any agent is built. *)
Theorem missing_api_key env symbol market_data price show_reasoning
    provider_map agent_type t0 pre provider post var t :
  ModelConfig env = Ok tt ->
  providers_of provider_map = pre ++ provider :: post ->
  configure_all env (Tables [] []) pre = Ok t ->
  (provider = py "anthropic" /\ var = py "ANTHROPIC_API_KEY") \/
  (provider = py "openai" /\ var = py "OPENAI_API_KEY") ->
  (exists cfg m, get_provider_config env provider = Ok cfg /\
                 subscript cfg (py "default_model") = Ok m) ->
  getenv env var = None \/ getenv env var = Some [] ->
  analyze_market env symbol market_data price show_reasoning provider_map
                 agent_type t0
  = (Raise (Exn ValueError (var ++ py " not found in environment variables")),
     t0).
Proof.
  intros Hcfg Hpm Hpre Hp Hc Hk. unfold analyze_market, resolve_agents.
  rewrite Hcfg. cbn [Res.bind]. rewrite Hpm, configure_all_app, Hpre.
  cbn [Res.bind configure_all].
  rewrite (missing_key_step env t provider var Hp Hc Hk). reflexivity.
Qed.

(** The statement above for the providers [anthropic, openai] in a world
    without [OPENAI_API_KEY]. *)
Lemma missing_api_key_witness :
  analyze_market (without_variable env_ok (py "OPENAI_API_KEY")) BTC
                 (snapshot BTC quote_full) some_prices false
                 (ProvidersList [py "anthropic"; py "openai"])
                 (Some (py "no such agent")) 0
  = (Raise (Exn ValueError
              (py "OPENAI_API_KEY" ++ py " not found in environment variables")),
     0).
Proof.
  apply (missing_api_key (without_variable env_ok (py "OPENAI_API_KEY")) BTC
           (snapshot BTC quote_full) some_prices false
           (ProvidersList [py "anthropic"; py "openai"])
           (Some (py "no such agent")) 0
           [py "anthropic"] (py "openai") [] (py "OPENAI_API_KEY")
           (Tables [(py "anthropic", VStr (py "model-of-anthropic"))]
                   [(py "anthropic", py "secret")])).
  - reflexivity.
  - reflexivity.
  - vm_compute. reflexivity.
  - right. split; reflexivity.
  - eexists _, _. split; vm_compute; reflexivity.
  - left. vm_compute. reflexivity.
Defined.

Lemma dict_get_set {V} (d : list (pystr * V)) (k k' : pystr) (v : V) :
  dict_get (dict_set d k v) k'
  = if Str.eqb k k' then Some v else dict_get d k'.
Proof.
  induction d as [|[k0 v0] d IH]; simpl; [reflexivity|].
  destruct (Str.eqb k0 k) eqn:E; simpl.
  - apply eqb_eq in E. subst k0. destruct (Str.eqb k k'); reflexivity.
  - rewrite IH. destruct (Str.eqb k0 k') eqn:E'; [|reflexivity].
    apply eqb_eq in E'. subst k0. apply eqb_neq in E.
    assert (Str.eqb k k' = false) as -> by (apply eqb_neq; congruence).
    reflexivity.
Qed.

Lemma require_key_ok env var key :
  require_key env var = Ok key -> getenv env var = Some key /\ key <> [].
Proof.
  unfold require_key. destruct (getenv env var) as [[|c k]|];
    try discriminate.
  intros [= <-]. split; [reflexivity|discriminate].
Qed.

(** The keys the loop over the providers collects: non-empty, each read
    from the environment variable of its provider. *)
Lemma configure_all_keys_from_env env providers :
  forall t t',
    configure_all env t providers = Ok t' ->
    (forall p key, dict_get (api_keys t) p = Some key ->
                   key <> [] /\
                   ((p = py "anthropic" /\
                     getenv env (py "ANTHROPIC_API_KEY") = Some key) \/
                    (p = py "openai" /\
                     getenv env (py "OPENAI_API_KEY") = Some key))) ->
    forall p key, dict_get (api_keys t') p = Some key ->
                  key <> [] /\
                  ((p = py "anthropic" /\
                    getenv env (py "ANTHROPIC_API_KEY") = Some key) \/
                   (p = py "openai" /\
                    getenv env (py "OPENAI_API_KEY") = Some key)).
Proof.
  induction providers as [|q rest IH]; intros t t' H Hinv; simpl in H.
  - injection H as <-. exact Hinv.
  - destruct (configure env t q) as [t1|] eqn:E; cbn [Res.bind] in H;
      [|discriminate].
    apply (IH t1 t' H). clear IH H.
    unfold configure in E.
    destruct (get_provider_config env q) as [cfg|]; cbn [Res.bind] in E;
      [|discriminate].
    destruct (subscript cfg (py "default_model")) as [m|];
      cbn [Res.bind] in E; [|discriminate].
    destruct (Str.eqb q (py "anthropic")) eqn:Ea.
    + apply eqb_eq in Ea. subst q.
      destruct (require_key env (py "ANTHROPIC_API_KEY")) as [k0|] eqn:Ek;
        cbn [Res.bind] in E; [|discriminate].
      injection E as <-. cbn [api_keys].
      apply require_key_ok in Ek as [Hg Hne].
      intros p key. rewrite dict_get_set.
      destruct (Str.eqb (py "anthropic") p) eqn:Ep; [|apply Hinv].
      apply eqb_eq in Ep. subst p. intros [= <-]. split; [exact Hne|].
      left. now split.
    + destruct (Str.eqb q (py "openai")) eqn:Eo.
      * apply eqb_eq in Eo. subst q.
        destruct (require_key env (py "OPENAI_API_KEY")) as [k0|] eqn:Ek;
          cbn [Res.bind] in E; [|discriminate].
        injection E as <-. cbn [api_keys].
        apply require_key_ok in Ek as [Hg Hne].
        intros p key. rewrite dict_get_set.
        destruct (Str.eqb (py "openai") p) eqn:Ep; [|apply Hinv].
        apply eqb_eq in Ep. subst p. intros [= <-]. split; [exact Hne|].
        right. now split.
      * injection E as <-. exact Hinv.
Qed.

(** What a constructed agent holds. *)
Lemma construct_provider env t cls p a :
  construct env t cls p = Ok a ->
  exists model key provider_class,
    dict_get (api_keys t) p = Some key /\
    dict_get (PROVIDER_MAP env) p = Some provider_class /\
    provider a = Some (MkProvider provider_class model key) /\
    provider_name a = p.
Proof.
  unfold construct, __init__.
  destruct (dict_get (provider_configs t) p) as [model|];
    cbn [Res.bind]; [|discriminate].
  destruct (dict_get (api_keys t) p) as [key|]; cbn [Res.bind];
    [|discriminate].
  destruct (dict_get (PROVIDER_MAP env) p) as [pc|]; [|discriminate].
  assert (forall r, _initialize_provider env pc model key = Ok r ->
                    r = MkProvider pc model key) as Hinit.
  { intros r. unfold _initialize_provider. destruct pc.
    - match goal with
      | |- match ?b with Ok _ => _ | Raise _ => _ end = _ -> _ =>
          destruct b
      end; [now intros [= <-]|discriminate].
    - destruct (chat_client env OpenAIProvider model _ key);
        [now intros [= <-]|discriminate]. }
  destruct (_initialize_provider env pc model key) as [r|] eqn:E;
    cbn [Res.bind]; [|discriminate].
  intros [= <-]. rewrite (Hinit r eq_refl).
  exists model, key, pc. repeat split.
Qed.

Lemma build_all_members env t pl :
  forall mapping i acc agents,
    build_all env t pl mapping i acc = Ok agents ->
    NoDup (map fst acc ++ map (fun e => fst (snd e)) mapping) ->
    exists new,
      agents = acc ++ new /\
      Forall (fun na => exists cls p, construct env t cls p = Ok (snd na))
             new.
Proof.
  induction mapping as [|[key [name cls]] rest IH]; intros i acc agents H ND.
  - simpl in H. injection H as <-. exists []. now rewrite app_nil_r.
  - simpl in H.
    destruct (round_robin pl i) as [p|] eqn:Hp; cbn [Res.bind] in H;
      [|discriminate].
    destruct (construct env t cls p) as [a|] eqn:Ha; cbn [Res.bind] in H;
      [|discriminate].
    simpl in ND.
    rewrite dict_set_fresh in H.
    2:{ apply NoDup_remove_2 in ND. intros Hin. apply ND.
        apply in_or_app. now left. }
    apply IH in H.
    2:{ rewrite map_app. simpl. rewrite <- app_assoc. exact ND. }
    destruct H as (new & -> & HF).
    exists ((name, a) :: new). rewrite <- app_assoc. split; [reflexivity|].
    constructor; [|exact HF]. simpl. now exists cls, p.
Qed.

(** The agents of a resolved request were all constructed from the tables
    that the loop over the providers filled. *)
Lemma resolved_agents_constructed env provider_map agent_type agents :
  resolve_agents env provider_map agent_type = Ok agents ->
  exists t,
    configure_all env (Tables [] []) (providers_of provider_map) = Ok t /\
    Forall (fun na => exists cls p, construct env t cls p = Ok (snd na))
           agents.
Proof.
  intros H. unfold resolve_agents in H.
  destruct (ModelConfig env); cbn [Res.bind] in H; [|discriminate].
  destruct (configure_all env (Tables [] []) (providers_of provider_map))
    as [t|]; cbn [Res.bind] in H; [|discriminate].
  exists t. split; [reflexivity|].
  assert (build_all env t (map fst (provider_configs t)) agent_mapping 0 []
          = Ok agents ->
          Forall (fun na => exists cls p,
                      construct env t cls p = Ok (snd na)) agents) as Hall.
  { intros Hb. apply build_all_members in Hb;
      [|exact agent_mapping_nodup].
    now destruct Hb as (new & -> & HF). }
  destruct agent_type as [[|c k]|]; try (apply Hall; exact H).
  destruct (dict_get agent_mapping (c :: k)) as [[name cls]|];
    [|discriminate].
  destruct (first (map fst (provider_configs t))) as [p|];
    cbn [Res.bind] in H; [|discriminate].
  destruct (construct env t cls p) as [ag|] eqn:Ha; cbn [Res.bind] in H;
    [|discriminate].
  injection H as <-. repeat constructor. simpl. now exists cls, p.
Qed.

(** They are agents of [anthropic] or [openai]. *)
Lemma resolved_provider_names env provider_map agent_type agents :
  resolve_agents env provider_map agent_type = Ok agents ->
  Forall (fun na => provider_name (snd na) = py "anthropic" \/
                    provider_name (snd na) = py "openai") agents.
Proof.
  intros H.
  destruct (resolved_agents_constructed env provider_map agent_type agents H)
    as (t & Ht & HF).
  apply Forall_forall. intros na Hin.
  rewrite Forall_forall in HF. destruct (HF na Hin) as (cls & p & Hc).
  apply construct_provider in Hc
    as (model & key & pc & Hkey & _ & _ & Hname).
  destruct (configure_all_keys_from_env env (providers_of provider_map)
              (Tables [] []) t Ht
              ltac:(intros ? ? Hd; discriminate Hd) p key Hkey)
    as [_ Hsrc].
  rewrite Hname. destruct Hsrc as [[-> _]|[-> _]]; [now left|now right].
Qed.

(** Every agent of a resolved request holds a provider of the class
    registered under its provider's name, built with a non-empty API key
    read from that provider's environment variable; the provider is
    [anthropic] or [openai], the only names the orchestrator reads a key
    for. *)
Theorem resolved_agents_hold_keys env provider_map agent_type agents :
  resolve_agents env provider_map agent_type = Ok agents ->
  Forall
    (fun na =>
       exists p,
         provider (snd na) = Some p /\
         api_key p <> [] /\
         dict_get (PROVIDER_MAP env) (provider_name (snd na))
         = Some (prov_class p) /\
         ((provider_name (snd na) = py "anthropic" /\
           getenv env (py "ANTHROPIC_API_KEY") = Some (api_key p)) \/
          (provider_name (snd na) = py "openai" /\
           getenv env (py "OPENAI_API_KEY") = Some (api_key p))))
    agents.
Proof.
  intros H.
  destruct (resolved_agents_constructed env provider_map agent_type agents H)
    as (t & Ht & HF).
  apply Forall_forall. intros na Hin.
  rewrite Forall_forall in HF. destruct (HF na Hin) as (cls & p & Hc).
  apply construct_provider in Hc
    as (model & key & pc & Hkey & Hmap & Hprov & Hname).
  destruct (configure_all_keys_from_env env (providers_of provider_map)
              (Tables [] []) t Ht
              ltac:(intros ? ? Hd; discriminate Hd) p key Hkey)
    as [Hne Hsrc].
  exists (MkProvider pc model key). rewrite Hname.
  repeat split; assumption.
Qed.

(** The statement above for a request for the Risk agent with the
    provider [openai]. *)
Lemma resolved_agents_hold_keys_witness :
  resolve_agents env_ok (ProvidersStr (py "openai")) (Some (py "risk"))
  = Ok [(py "risk_management_agent",
        MkAgent RiskManagementAgent
          (Some (MkProvider OpenAIProvider (VStr (py "model-of-openai"))
                            (py "secret")))
          (py "openai") None (py "redis://localhost"))] /\
  Forall
    (fun na =>
       exists p,
         provider (snd na) = Some p /\
         api_key p <> [] /\
         dict_get (PROVIDER_MAP env_ok) (provider_name (snd na))
         = Some (prov_class p) /\
         ((provider_name (snd na) = py "anthropic" /\
           getenv env_ok (py "ANTHROPIC_API_KEY") = Some (api_key p)) \/
          (provider_name (snd na) = py "openai" /\
           getenv env_ok (py "OPENAI_API_KEY") = Some (api_key p))))
    [(py "risk_management_agent",
      MkAgent RiskManagementAgent
        (Some (MkProvider OpenAIProvider (VStr (py "model-of-openai"))
                          (py "secret")))
        (py "openai") None (py "redis://localhost"))].
Proof.
  split; [vm_compute; reflexivity|].
  apply (resolved_agents_hold_keys env_ok (ProvidersStr (py "openai"))
           (Some (py "risk"))).
  vm_compute. reflexivity.
Defined.

(** A request for all agents that resolves named one or two distinct
    providers: with three or more, the third agent would need a key the
    orchestrator never reads. *)
Theorem all_agents_need_at_most_two_providers env provider_map agent_type
    agents :
  resolve_agents env provider_map agent_type = Ok agents ->
  match agent_type with Some (_ :: _) => False | _ => True end ->
  1 <= List.length (first_occurrences (providers_of provider_map)) <= 2.
Proof.
  intros H Hty.
  pose proof (resolved_provider_names env provider_map agent_type agents H)
    as Hkeys.
  apply resolve_all in H; [|exact Hty].
  destruct H as (t & Ht & Hk & _ & Hrr).
  rewrite (provider_list_distinct env provider_map t Ht) in Hrr.
  destruct (first_occurrences_spec (providers_of provider_map)) as [ND _].
  set (D := first_occurrences (providers_of provider_map)) in *.
  assert (List.length agents = 5) as Hlen
    by (rewrite <- (length_map fst agents), Hk; reflexivity).
  destruct agents as [|a0 [|a1 [|a2 rest]]]; try discriminate Hlen.
  pose proof (Hrr 0 a0 eq_refl) as H0.
  pose proof (Hrr 1 a1 eq_refl) as H1.
  pose proof (Hrr 2 a2 eq_refl) as H2.
  inversion Hkeys as [|? ? K0 Hkeys1]; subst.
  inversion Hkeys1 as [|? ? K1 Hkeys2]; subst.
  inversion Hkeys2 as [|? ? K2 _]; subst.
  destruct D as [|d0 [|d1 [|d2 more]]]; simpl.
  - discriminate H0.
  - lia.
  - lia.
  - exfalso.
    assert (forall j, j < 3 ->
                      j mod List.length (d0 :: d1 :: d2 :: more) = j) as Hm
      by (intros j Hj; apply Nat.mod_small; simpl; lia).
    unfold round_robin in H0, H1, H2.
    rewrite (Hm 0) in H0 by lia. rewrite (Hm 1) in H1 by lia.
    rewrite (Hm 2) in H2 by lia. simpl in H0, H1, H2.
    injection H0 as E0. injection H1 as E1. injection H2 as E2.
    apply NoDup_cons_iff in ND as [N0 ND1].
    apply NoDup_cons_iff in ND1 as [N1 _].
    simpl in N0, N1.
    destruct K0 as [A0|A0]; destruct K1 as [A1|A1];
      destruct K2 as [A2|A2];
      rewrite <- E0 in A0; rewrite <- E1 in A1; rewrite <- E2 in A2;
      clear E0 E1 E2 Hrr; subst d0 d1 d2;
      first [apply N0; left; reflexivity
            |apply N0; right; left; reflexivity
            |apply N1; left; reflexivity].
Qed.

(** The statement above for the providers [openai, anthropic, openai]. *)
Lemma all_agents_need_at_most_two_providers_witness :
  exists agents,
    resolve_agents env_ok
      (ProvidersList [py "openai"; py "anthropic"; py "openai"]) None
    = Ok agents /\
    1 <= List.length
           (first_occurrences
              (providers_of
                 (ProvidersList [py "openai"; py "anthropic"; py "openai"])))
      <= 2.
Proof.
  eexists. split; [vm_compute; reflexivity|].
  eapply (all_agents_need_at_most_two_providers env_ok
            (ProvidersList [py "openai"; py "anthropic"; py "openai"]) None).
  - vm_compute. reflexivity.
  - exact I.
Defined.

(** A provider the orchestrator has no key for.  The loop over the
    providers accepts any name that has a configuration, but stores a key
    for [anthropic] and [openai] only: a request with another name as its
    one provider ends, for every known agent type and for all agents, in
    the [KeyError] of [api_keys[provider]] -- not in a message about the
    provider. *)
Theorem other_provider_is_key_error env symbol market_data price
    show_reasoning provider agent_type t0 cfg model :
  ModelConfig env = Ok tt ->
  provider <> [] ->
  provider <> py "anthropic" ->
  provider <> py "openai" ->
  get_provider_config env provider = Ok cfg ->
  subscript cfg (py "default_model") = Ok model ->
  match agent_type with
  | Some (c :: k) => dict_get agent_mapping (c :: k) <> None
  | _ => True
  end ->
  exists text,
    analyze_market env symbol market_data price show_reasoning
                   (ProvidersStr provider) agent_type t0
    = (Raise (Exn KeyError text), t0).
Proof.
  intros Hcfg Hne Ha Ho Hc Hm Hty.
  exists (repr_key provider).
  unfold analyze_market, resolve_agents. rewrite Hcfg. cbn [Res.bind].
  destruct provider as [|p0 ps]; [contradiction|].
  cbn [providers_of configure_all]. unfold configure.
  rewrite Hc. cbn [Res.bind]. rewrite Hm. cbn [Res.bind].
  apply eqb_neq in Ha, Ho. rewrite Ha, Ho. cbn [Res.bind].
  cbn [provider_configs api_keys dict_set map fst].
  assert (forall cls,
             construct env (Tables [(p0 :: ps, model)] []) cls (p0 :: ps)
             = Raise (Exn KeyError (repr_key (p0 :: ps)))) as Hcons.
  { intros cls. unfold construct. cbn [provider_configs api_keys dict_get].
    rewrite eqb_refl. reflexivity. }
  destruct agent_type as [[|c k]|].
  - cbn [build_all agent_mapping round_robin]. unfold agent_mapping.
    cbn [build_all round_robin List.length Nat.modulo nth Res.bind].
    rewrite Hcons. reflexivity.
  - destruct (dict_get agent_mapping (c :: k)) as [[name cls]|];
      [|contradiction].
    cbn [first Res.bind]. rewrite Hcons. reflexivity.
  - unfold agent_mapping.
    cbn [build_all round_robin List.length Nat.modulo nth Res.bind].
    rewrite Hcons. reflexivity.
Qed.

(** The statement above for the provider [gemini] and the Risk agent. *)
Lemma other_provider_is_key_error_witness :
  exists text,
    analyze_market env_ok BTC (snapshot BTC quote_full) some_prices false
                   (ProvidersStr (py "gemini")) (Some (py "risk")) 0
    = (Raise (Exn KeyError text), 0).
Proof.
  apply (other_provider_is_key_error env_ok BTC (snapshot BTC quote_full)
           some_prices false (py "gemini") (Some (py "risk")) 0
           (VDict [(py "default_model", VStr (py "model-of-" ++ py "gemini"))])
           (VStr (py "model-of-" ++ py "gemini")));
    try reflexivity; discriminate.
Defined.

End Requests.

(* ================================================================== *)
(** * The provider adapters *)
(* ================================================================== *)

Module Adapters.

Import Provider Agent Orchestrator Scenario Worlds Facts Lines.

Lemma startswith_prefix (s p q : pystr) :
  Str.startswith s (p ++ q) = true -> Str.startswith s p = true.
Proof.
  revert s; induction p as [|y p IH]; intros s H; simpl in *.
  - now destruct s.
  - destruct s as [|x s]; [discriminate|].
    apply andb_true_iff in H as [Hxy Hp].
    apply andb_true_iff. split; [exact Hxy|now apply IH].
Qed.

(** A text that contains a pattern contains every beginning of it. *)
Lemma contains_prefix (s p q : pystr) :
  Str.contains s (p ++ q) = true -> Str.contains s p = true.
Proof.
  induction s as [|c s IH]; intros H;
    cbn [Str.contains] in H |- *;
    apply orb_true_iff in H as [H|H]; try discriminate.
  - apply startswith_prefix in H. now rewrite H.
  - apply startswith_prefix in H. now rewrite H.
  - rewrite (IH H). apply orb_true_r.
Qed.

(** The two adapters give an exception the same class, except that the
    OpenAI adapter also calls a quota error whatever mentions [rate]
    anywhere (the Anthropic adapter asks for [rate limit]).  The class
    depends on the message alone, whatever the case of its letters, never
    on the class of the exception itself. *)
Theorem adapters_classify_alike (e : exn) :
  (exn_cls (openai_classify e) = exn_cls (anthropic_classify e) \/
   (exn_cls (openai_classify e) = ProviderQuotaError /\
    Str.contains (Str.lower (exn_str e)) (py "rate") = true)) /\
  (exn_cls (anthropic_classify e) = ProviderQuotaError ->
   exn_cls (openai_classify e) = ProviderQuotaError) /\
  (exn_cls (anthropic_classify e) = ProviderAuthenticationError <->
   exn_cls (openai_classify e) = ProviderAuthenticationError) /\
  (forall e',
      Str.lower (exn_str e') = Str.lower (exn_str e) ->
      exn_cls (anthropic_classify e') = exn_cls (anthropic_classify e) /\
      exn_cls (openai_classify e') = exn_cls (openai_classify e)).
Proof.
  assert (Str.contains (Str.lower (exn_str e)) (py "rate limit") = true ->
          Str.contains (Str.lower (exn_str e)) (py "rate") = true) as Hrate.
  { intros H. apply (contains_prefix _ (py "rate") (py " limit")). exact H. }
  unfold anthropic_classify, openai_classify, provider_error.
  repeat split.
  - destruct (Str.contains (Str.lower (exn_str e)) (py "authentication"));
      [left; reflexivity|].
    destruct (Str.contains (Str.lower (exn_str e)) (py "rate limit")) eqn:E1.
    + rewrite (Hrate eq_refl). left. reflexivity.
    + destruct (Str.contains (Str.lower (exn_str e)) (py "rate"));
        [right; split; reflexivity|].
      destruct (Str.contains (Str.lower (exn_str e)) (py "connection"));
        left; reflexivity.
  - destruct (Str.contains (Str.lower (exn_str e)) (py "authentication"));
      [discriminate|].
    destruct (Str.contains (Str.lower (exn_str e)) (py "rate limit")) eqn:E1.
    + now rewrite (Hrate eq_refl).
    + destruct (Str.contains (Str.lower (exn_str e)) (py "connection"));
        discriminate.
  - destruct (Str.contains (Str.lower (exn_str e)) (py "authentication"));
      [reflexivity|].
    destruct (Str.contains (Str.lower (exn_str e)) (py "rate limit"));
      [discriminate|].
    destruct (Str.contains (Str.lower (exn_str e)) (py "connection"));
      discriminate.
  - destruct (Str.contains (Str.lower (exn_str e)) (py "authentication"));
      [reflexivity|].
    destruct (Str.contains (Str.lower (exn_str e)) (py "rate"));
      [discriminate|].
    destruct (Str.contains (Str.lower (exn_str e)) (py "connection"));
      discriminate.
  - rewrite H.
    repeat match goal with
           | |- context [if ?b then _ else _] => destruct b
           end; reflexivity.
  - rewrite H.
    repeat match goal with
           | |- context [if ?b then _ else _] => destruct b
           end; reflexivity.
Qed.

(** What the adapters raise: one of the four errors of the taxonomy, whose
    text begins with the provider's name in brackets.  The Anthropic
    adapter keeps the message of the underlying exception; the OpenAI
    adapter keeps it for the unclassified error only. *)
Lemma classified_errors (e : exn) :
  In (exn_cls (anthropic_classify e))
     [ProviderAuthenticationError; ProviderQuotaError;
      ProviderConnectionError; ModelProviderError] /\
  exn_str (anthropic_classify e) = py "[Anthropic] " ++ exn_str e /\
  In (exn_cls (openai_classify e))
     [ProviderAuthenticationError; ProviderQuotaError;
      ProviderConnectionError; ModelProviderError] /\
  Str.startswith (exn_str (openai_classify e)) (py "[OpenAI] ") = true /\
  (exn_cls (openai_classify e) = ModelProviderError ->
   exn_str (openai_classify e)
   = py "[OpenAI] OpenAI response generation failed: " ++ exn_str e).
Proof.
  unfold anthropic_classify, openai_classify, provider_error.
  repeat split;
    repeat match goal with
           | |- context [if ?b then _ else _] => destruct b
           end;
    simpl; try tauto; try reflexivity; try discriminate.
Qed.

(** [create_message] calls the chat client exactly once, whatever the
    outcome: the call that follows the calls already made on this client;
    it takes the time of that call.  It returns the content of the reply
    unchanged, and what it raises is a classified error that names the
    provider. *)
Theorem create_message_calls_once env owner p messages st :
  let input :=
    match prov_class p with
    | AnthropicProvider => VStr (nl ++ nl ++ messages)
    | OpenAIProvider => VStr messages
    end in
  let call := chat_invoke env owner (attempts st) input in
  let outcome := create_message env owner p messages st in
  snd outcome = TState (now st + snd call) (S (attempts st)) /\
  match fst outcome with
  | Ok content => fst call = Ok content
  | Raise e =>
      In (exn_cls e) [ProviderAuthenticationError; ProviderQuotaError;
                      ProviderConnectionError; ModelProviderError] /\
      Str.startswith (exn_str e)
        match prov_class p with
        | AnthropicProvider => py "[Anthropic] "
        | OpenAIProvider => py "[OpenAI] "
        end = true /\
      exists e0, fst call = Raise e0
  end.
Proof.
  cbv zeta. unfold create_message.
  destruct (prov_class p);
    unfold Task.try_except, Task.bind, Task.next_attempt, Task.await,
           Task.raise;
    match goal with
    | |- context [fst (chat_invoke ?a ?b ?c ?d)] =>
        destruct (fst (chat_invoke a b c d)) as [content|e0] eqn:E
    end; simpl; (split; [reflexivity|]); try reflexivity.
  - destruct (classified_errors e0) as (H1 & H2 & _).
    split; [exact H1|]. split; [|now exists e0].
    rewrite H2. apply startswith_app.
  - destruct (classified_errors e0) as (_ & _ & H3 & H4 & _).
    split; [exact H3|]. split; [exact H4|now exists e0].
Qed.

(** [_handle_provider_error] never loops and never sends the prompt
    again (it does not receive it).  A connection error with a retry
    count below three costs a sleep of [2 ** retry_count] seconds -- four
    at most -- and one call to the provider's own client with a fixed
    text; a quota error goes to the fallback provider, on any retry count,
    without a call to the provider's own client; every other error, and a
    connection error on a retry count of three or more, is raised again
    as it came, at once. *)
Theorem handle_provider_error_cases env owner p error retry_count st :
  let outcome := _handle_provider_error env owner p error retry_count st in
  match exn_cls error with
  | ProviderConnectionError =>
      if retry_count <? 3 then
        outcome
        = generate_response env owner p (py "Retry after connection error")
            (py "Please try again")
            (TState (now st + 2 ^ retry_count) (attempts st)) /\
        attempts (snd outcome) = S (attempts st) /\
        2 ^ retry_count <= 4
      else outcome = (Raise error, st)
  | ProviderQuotaError =>
      fst outcome
      = fst (fallback_generate env (py "Fallback after quota error")
                               (py "Please try again")) /\
      attempts (snd outcome) = attempts st
  | _ => outcome = (Raise error, st)
  end.
Proof.
  cbv zeta. unfold _handle_provider_error.
  destruct (exn_cls error); try reflexivity.
  - destruct (retry_count <? 3) eqn:E; [|reflexivity].
    apply Nat.ltb_lt in E.
    split; [reflexivity|]. split.
    + unfold Task.bind, Task.sleep, generate_response.
      destruct (prov_class p);
        unfold Task.try_except, Task.bind, Task.next_attempt, Task.await,
               Task.raise;
        match goal with
        | |- context [fst (chat_invoke ?a ?b ?c ?d)] =>
            destruct (fst (chat_invoke a b c d))
        end; reflexivity.
    + destruct retry_count as [|[|[|n]]]; simpl; lia.
  - split; reflexivity.
Qed.

End Adapters.

(* ================================================================== *)
(** * The filter of the Market agent *)
(* ================================================================== *)

Module Filter.

Import Provider Agent Orchestrator Scenario Worlds Facts Lines.

Lemma filter_kept {A} (f : A -> bool) (l : list A) :
  forall x, In x (filter f l) -> f x = true.
Proof. intros x Hx. now apply filter_In in Hx. Qed.

(** Filtering leaves nothing to filter: no line of a filtered response
    looks like reasoning, so the filter applied twice is the filter applied
    once -- also when it removed every line and left the empty string. *)
Theorem filter_reasoning_idempotent (response : pystr) :
  Forall (fun line => looks_like_reasoning line = false)
         (Str.split_nl (filter_reasoning response)) /\
  filter_reasoning (filter_reasoning response) = filter_reasoning response.
Proof.
  destruct (filter_reasoning_spec response) as (Hj & Hs & He & _).
  cbv zeta in Hj, Hs, He.
  set (kept := filter (fun line => negb (looks_like_reasoning line))
                      (Str.split_nl response)) in *.
  assert (Forall (fun line => looks_like_reasoning line = false)
                 (Str.split_nl (filter_reasoning response))) as HF.
  { destruct kept as [|l ls] eqn:E.
    - rewrite (He eq_refl). repeat constructor.
    - rewrite Hs by discriminate. apply Forall_forall. intros x Hx.
      rewrite <- E in Hx. apply filter_kept in Hx.
      now apply negb_true_iff in Hx. }
  split; [exact HF|].
  destruct (filter_reasoning_spec (filter_reasoning response))
    as (_ & _ & _ & Hid).
  apply Hid. intros line Hin.
  rewrite Forall_forall in HF. now apply HF.
Qed.

End Filter.

(* ================================================================== *)
(** * The Market agent on arbitrary data *)
(* ================================================================== *)

Module MarketData.

Import Provider Agent Orchestrator Scenario Worlds Facts Analysis.

Open Scope task_scope.

(** What the lookups of the cache key establish about the payload. *)
Lemma lookups_validate market_data data ks symbol crypto q quote :
  subscript market_data (py "data") = Ok data ->
  keys data = Ok ks ->
  next_iter ks = Ok symbol ->
  subscript data symbol = Ok crypto ->
  subscript crypto (py "quote") = Ok q ->
  subscript q (py "USD") = Ok quote ->
  (if is_dict market_data then contains_key (py "data") market_data
   else Ok false) = Ok true /\
  (data <- subscript market_data (py "data") ;;
   vs <- values data ;;
   Ok (match vs with v :: _ => v | [] => VNone end))%res = Ok crypto /\
  (if negb (truthy crypto) then Ok false
   else
     has_quote <- contains_key (py "quote") crypto ;;
     if negb has_quote then Ok false
     else
       q <- subscript crypto (py "quote") ;;
       contains_key (py "USD") q)%res = Ok true /\
  (q <- subscript crypto (py "quote") ;; subscript q (py "USD"))%res
  = Ok quote.
Proof.
  intros Hd Hk Hn Hc Hq Hu.
  destruct market_data as [| | | | |l|d]; try discriminate Hd.
  destruct data as [| | | | |l|dd]; try discriminate Hk.
  simpl in Hk. injection Hk as <-.
  destruct dd as [|[k0 v0] dd]; [discriminate Hn|].
  simpl in Hn. injection Hn as <-.
  simpl in Hc. rewrite eqb_refl in Hc. injection Hc as <-.
  destruct v0 as [| | | | |l|dc]; try discriminate Hq.
  destruct q as [| | | | |l|dq]; try discriminate Hu.
  repeat split.
  - simpl. simpl in Hd. destruct (dict_get d (py "data")); [reflexivity|].
    discriminate Hd.
  - rewrite Hd. reflexivity.
  - assert (truthy (VDict dc) = true) as Ht.
    { destruct dc; [discriminate Hq|reflexivity]. }
    rewrite Ht. cbn [negb].
    simpl in Hq |- *.
    destruct (dict_get dc (py "quote")) as [x|]; [|discriminate Hq].
    injection Hq as ->. cbn [negb Res.bind].
    simpl in Hu |- *.
    destruct (dict_get dq (py "USD")); [reflexivity|discriminate Hu].
  - rewrite Hq. exact Hu.
Qed.

(** The validation of [MarketDataAgent.analyze] comes after the lookups
    that every payload it would reject fails: past them, the agent works
    on the first entry as on a payload that holds nothing else. *)
Lemma market_recompute_first_entry env self market_data show_reasoning key
    data ks symbol crypto q quote :
  subscript market_data (py "data") = Ok data ->
  keys data = Ok ks ->
  next_iter ks = Ok symbol ->
  subscript data symbol = Ok crypto ->
  subscript crypto (py "quote") = Ok q ->
  subscript q (py "USD") = Ok quote ->
  market_recompute env self market_data show_reasoning key
  = market_recompute env self (snapshot symbol quote) show_reasoning key.
Proof.
  intros Hd Hk Hn Hc Hq Hu.
  destruct (lookups_validate _ _ _ _ _ _ _ Hd Hk Hn Hc Hq Hu)
    as (H1 & H2 & H3 & H4).
  unfold market_recompute.
  rewrite H1, snapshot_has_data, !bind_lift_ok. cbn [negb].
  rewrite H2, snapshot_crypto_data, !bind_lift_ok.
  destruct (crypto_data_well_formed quote) as [Hw Hq'].
  cbv zeta in Hw, Hq'. rewrite H3, Hw, !bind_lift_ok. cbn [negb].
  rewrite H4, Hq', !bind_lift_ok. reflexivity.
Qed.

Lemma market_try_first_entry env self market_data show_reasoning st
    data ks symbol crypto q quote :
  subscript market_data (py "data") = Ok data ->
  keys data = Ok ks ->
  next_iter ks = Ok symbol ->
  subscript data symbol = Ok crypto ->
  subscript crypto (py "quote") = Ok q ->
  subscript q (py "USD") = Ok quote ->
  market_try env self market_data show_reasoning st
  = market_try env self (snapshot symbol quote) show_reasoning st.
Proof.
  intros Hd Hk Hn Hc Hq Hu.
  set (rhs := market_try env self (snapshot symbol quote) show_reasoning st).
  unfold market_try.
  rewrite Hd. cbn [Res.bind]. rewrite Hk. cbn [Res.bind]. rewrite Hn.
  rewrite bind_lift_ok. rewrite Hc. cbn [Res.bind]. rewrite Hq.
  cbn [Res.bind]. rewrite Hu. rewrite bind_lift_ok.
  subst rhs. unfold market_try.
  rewrite snapshot_symbol, bind_lift_ok, snapshot_quote, bind_lift_ok.
  unfold Task.try_except.
  destruct (subscript quote (py "price")) as [pv|e]; [|reflexivity].
  rewrite !bind_lift_ok.
  destruct (subscript quote (py "percent_change_24h")) as [cv|e];
    [|reflexivity].
  rewrite !bind_lift_ok.
  unfold Task.bind at 1 3. unfold Task.clock. cbv beta iota.
  rewrite (market_recompute_first_entry env self market_data show_reasoning
             (cache_key_of env symbol pv cv (now st))
             data ks symbol crypto q quote Hd Hk Hn Hc Hq Hu).
  reflexivity.
Qed.

(** Malformed data never reach the validation of [MarketDataAgent.analyze]:
    when one of the lookups that build the cache key raises, the agent
    answers with the text of that exception, at once, without a word to the
    cache or to the provider.  When they succeed, the answer is the one for
    the payload that holds the first entry's USD quote alone: the
    validation cannot reject what the lookups accepted, and the rest of the
    payload is never read. *)
Theorem market_agent_reads_first_quote env self market_data show_reasoning
    st :
  match
    (data <- subscript market_data (py "data") ;;
     ks <- keys data ;;
     symbol <- next_iter ks ;;
     crypto <- subscript data symbol ;;
     q <- subscript crypto (py "quote") ;;
     quote <- subscript q (py "USD") ;;
     Ok (symbol, quote))%res
  with
  | Raise e =>
      market_try env self market_data show_reasoning st
      = (Ok (VStr (py "Error analyzing market data: " ++ exn_str e)), st)
  | Ok (symbol, quote) =>
      market_try env self market_data show_reasoning st
      = market_try env self (snapshot symbol quote) show_reasoning st
  end.
Proof.
  destruct (subscript market_data (py "data")) as [data|e] eqn:Hd;
    cbn [Res.bind].
  2:{ unfold market_try. rewrite Hd. reflexivity. }
  destruct (keys data) as [ks|e] eqn:Hk; cbn [Res.bind].
  2:{ unfold market_try. rewrite Hd. cbn [Res.bind]. rewrite Hk.
      reflexivity. }
  destruct (next_iter ks) as [symbol|e] eqn:Hn; cbn [Res.bind].
  2:{ unfold market_try. rewrite Hd. cbn [Res.bind]. rewrite Hk.
      cbn [Res.bind]. rewrite Hn. reflexivity. }
  destruct (subscript data symbol) as [crypto|e] eqn:Hc; cbn [Res.bind].
  2:{ unfold market_try. rewrite Hd. cbn [Res.bind]. rewrite Hk.
      cbn [Res.bind]. rewrite Hn. rewrite bind_lift_ok. rewrite Hc.
      reflexivity. }
  destruct (subscript crypto (py "quote")) as [q|e] eqn:Hq; cbn [Res.bind].
  2:{ unfold market_try. rewrite Hd. cbn [Res.bind]. rewrite Hk.
      cbn [Res.bind]. rewrite Hn. rewrite bind_lift_ok. rewrite Hc.
      cbn [Res.bind]. rewrite Hq. reflexivity. }
  destruct (subscript q (py "USD")) as [quote|e] eqn:Hu; cbn [Res.bind].
  2:{ unfold market_try. rewrite Hd. cbn [Res.bind]. rewrite Hk.
      cbn [Res.bind]. rewrite Hn. rewrite bind_lift_ok. rewrite Hc.
      cbn [Res.bind]. rewrite Hq. cbn [Res.bind]. rewrite Hu.
      reflexivity. }
  exact (market_try_first_entry env self market_data show_reasoning st
           data ks symbol crypto q quote Hd Hk Hn Hc Hq Hu).
Qed.

End MarketData.

(* ================================================================== *)
(** * The cache of the Market agent, on a hit *)
(* ================================================================== *)

Module CacheHit.

Import Provider Agent Orchestrator Scenario Worlds Facts Analysis MarketData.

Open Scope task_scope.

(** A stored analysis is served as it is: the Market agent decodes what the
    cache holds under the key and returns it -- whatever it decodes to --
    without a call to the provider and without storing anything; the time
    that passes is that of the lookup.  The key names the symbol, the
    price, the change and the hour: neither [show_reasoning] nor the agent
    and its provider have a say, so an analysis stored with its reasoning
    is what a caller who asked for none receives. *)
Theorem cached_analysis_is_served_as_stored env self market_data
    show_reasoning st data symbol crypto q quote price_v change_v cached :
  subscript market_data (py "data") = Ok data ->
  (ks <- keys data ;; next_iter ks)%res = Ok symbol ->
  subscript data symbol = Ok crypto ->
  subscript crypto (py "quote") = Ok q ->
  subscript q (py "USD") = Ok quote ->
  subscript quote (py "price") = Ok price_v ->
  subscript quote (py "percent_change_24h") = Ok change_v ->
  let key := cache_key_of env symbol price_v change_v (now st) in
  fst (redis_get env key) = Ok (Some cached) ->
  cached <> [] ->
  let outcome := market_try env self market_data show_reasoning st in
  fst outcome
  = match json_loads env cached with
    | Ok v => Ok v
    | Raise e => Ok (VStr (py "Error analyzing market data: " ++ exn_str e))
    end /\
  snd outcome = TState (now st + snd (redis_get env key)) (attempts st) /\
  forall other flag, market_try env other market_data flag st = outcome.
Proof.
  intros Hd Hkn Hc Hq Hu Hp Hch key Hget Hne.
  destruct (keys data) as [ks|] eqn:Hk; [|discriminate Hkn].
  cbn [Res.bind] in Hkn.
  assert (forall agent flag,
             market_try env agent market_data flag st
             = (match json_loads env cached with
                | Ok v => Ok v
                | Raise e =>
                    Ok (VStr (py "Error analyzing market data: "
                                 ++ exn_str e))
                end,
                TState (now st + snd (redis_get env key)) (attempts st)))
    as Hall.
  { intros agent flag.
    rewrite (market_try_first_entry env agent market_data flag st
               data ks symbol crypto q quote Hd Hk Hkn Hc Hq Hu).
    unfold market_try.
    rewrite snapshot_symbol, bind_lift_ok, snapshot_quote, bind_lift_ok.
    rewrite Hp, bind_lift_ok, Hch, bind_lift_ok.
    unfold Task.try_except, Task.bind at 1, Task.clock. cbv beta iota.
    unfold Task.bind, Task.await. fold key. rewrite Hget.
    destruct cached as [|c cached]; [contradiction|].
    cbn [cache_hit]. unfold Task.lift, Task.ret.
    destruct (json_loads env (c :: cached)); reflexivity. }
  cbv zeta. rewrite (Hall self show_reasoning).
  split; [reflexivity|]. split; [reflexivity|].
  intros other flag. apply Hall.
Qed.

Lemma cached_analysis_is_served_as_stored_witness :
  let outcome :=
    market_try env_cached (with_provider MarketDataAgent)
               (snapshot BTC quote_four) false start in
  fst outcome = Ok (VStr (py "Stored analysis")) /\
  snd outcome = TState 1 0 /\
  forall other flag,
    market_try env_cached other (snapshot BTC quote_four) flag start
    = outcome.
Proof.
  exact (cached_analysis_is_served_as_stored env_cached
           (with_provider MarketDataAgent) (snapshot BTC quote_four) false
           start
           (VDict [(BTC, VDict [(py "quote", VDict [(py "USD", quote_four)])])])
           BTC (VDict [(py "quote", VDict [(py "USD", quote_four)])])
           (VDict [(py "USD", quote_four)]) quote_four
           (VFloat 100.00) (VFloat 12.0) (py "Stored analysis")
           eq_refl eq_refl eq_refl eq_refl eq_refl eq_refl eq_refl eq_refl
           ltac:(discriminate)).
Defined.

End CacheHit.

(* ================================================================== *)
(** * How often an agent calls its provider *)
(* ================================================================== *)

Module Calls.

Import Provider Agent Orchestrator Scenario Worlds Facts.

Open Scope task_scope.

Lemma calls_ret {A} (a : A) : calls_at_most 0 (Task.ret a).
Proof. intros st. simpl. lia. Qed.

Lemma calls_raise {A} (e : exn) : calls_at_most 0 (@Task.raise A e).
Proof. intros st. simpl. lia. Qed.

Lemma calls_lift {A} (r : result A) : calls_at_most 0 (Task.lift r).
Proof. intros st. simpl. lia. Qed.

Lemma calls_await {A} (o : result A * nat) : calls_at_most 0 (Task.await o).
Proof. intros st. simpl. lia. Qed.

Lemma calls_clock : calls_at_most 0 Task.clock.
Proof. intros st. simpl. lia. Qed.

Lemma calls_weaken {A} (n k : nat) (m : task A) :
  n <= k -> calls_at_most n m -> calls_at_most k m.
Proof. intros Hle H st. specialize (H st). lia. Qed.

Lemma calls_bind {A B} (n k : nat) (m : task A) (f : A -> task B) :
  calls_at_most n m -> (forall a, calls_at_most k (f a)) ->
  calls_at_most (n + k) (Task.bind m f).
Proof.
  intros Hm Hf st. specialize (Hm st). unfold Task.bind.
  destruct (m st) as [[a|e] st1]; simpl in *; [|lia].
  specialize (Hf a st1). lia.
Qed.

Lemma calls_try {A} (n k : nat) (body : task A) (h : exn -> task A) :
  calls_at_most n body -> (forall e, calls_at_most k (h e)) ->
  calls_at_most (n + k) (Task.try_except body h).
Proof.
  intros Hm Hh st. specialize (Hm st). unfold Task.try_except.
  destruct (body st) as [[a|e] st1]; simpl in *; [lia|].
  specialize (Hh e st1). lia.
Qed.

Lemma calls_create_message env owner p messages :
  calls_at_most 1 (create_message env owner p messages).
Proof.
  intros st. unfold create_message.
  destruct (prov_class p);
    unfold Task.try_except, Task.bind, Task.next_attempt, Task.await,
           Task.raise;
    match goal with
    | |- context [fst (chat_invoke ?a ?b ?c ?d)] =>
        destruct (fst (chat_invoke a b c d))
    end; simpl; lia.
Qed.

Ltac no_call :=
  repeat first
    [ apply calls_ret | apply calls_raise | apply calls_lift
    | apply calls_await | apply calls_clock
    | apply (calls_bind 0 0); [|intros ?]
    | apply (calls_try 0 0); [|intros ?]
    | match goal with
      | |- calls_at_most _ (if ?b then _ else _) => destruct b
      | |- calls_at_most _ (match ?x with _ => _ end) => destruct x
      end ].

Ltac one_call :=
  first
    [ solve [apply (calls_weaken 0 1); [lia|no_call]]
    | apply calls_create_message
    | apply (calls_bind 0 1); [solve [no_call]|intros ?; one_call]
    | apply (calls_bind 1 0); [one_call|intros ?; solve [no_call]]
    | apply (calls_try 1 0); [one_call|intros ?; solve [no_call]]
    | match goal with
      | |- calls_at_most _ (if ?b then _ else _) => destruct b; one_call
      | |- calls_at_most _ (match ?x with _ => _ end) => destruct x; one_call
      end ].

Lemma analyze_calls_once env self symbol price market_data show_reasoning :
  calls_at_most 1
    (analyze env self symbol price market_data show_reasoning).
Proof.
  unfold analyze.
  destruct (agent_cls self);
    [ unfold market_analyze, market_try, market_recompute, _init_redis
    | unfold sentiment_analyze | unfold technical_analyze
    | unfold risk_analyze | unfold portfolio_analyze ];
    cbv zeta; solve [one_call].
Qed.

Lemma init_redis_keeps_provider env self st :
  match _init_redis env self st with
  | (Ok self', st1) =>
      provider self' = provider self /\
      attempts st1 = attempts st /\ now st <= now st1
  | (Raise _, st1) => attempts st1 = attempts st /\ now st <= now st1
  end.
Proof.
  unfold _init_redis. destruct (redis_client self).
  - simpl. repeat split; lia.
  - unfold Task.bind, Task.await, Task.ret.
    destruct (fst (redis_from_url env (redis_url self))); simpl;
      repeat split; lia.
Qed.

Lemma market_try_without_provider env self market_data show_reasoning :
  provider self = None ->
  calls_at_most 0 (market_try env self market_data show_reasoning).
Proof.
  intros Hnone. unfold market_try, market_recompute. cbv zeta.
  rewrite Hnone. solve [no_call].
Qed.

Lemma analyze_without_provider env self symbol price market_data
    show_reasoning :
  provider self = None ->
  calls_at_most 0
    (analyze env self symbol price market_data show_reasoning).
Proof.
  intros Hnone. unfold analyze.
  destruct (agent_cls self);
    [ | unfold sentiment_analyze | unfold technical_analyze
      | unfold risk_analyze | unfold portfolio_analyze ];
    cbv zeta; rewrite ?Hnone; try solve [no_call].
  intros st. unfold market_analyze, Task.bind.
  pose proof (init_redis_keeps_provider env self st) as Hi.
  destruct (_init_redis env self st) as [[self'|e] st1].
  - destruct Hi as (Hp & Ha & Hn). rewrite Hnone in Hp.
    pose proof (market_try_without_provider env self' market_data
                  show_reasoning Hp st1) as Ht.
    lia.
  - simpl. lia.
Qed.

(** No agent asks twice.  In one analysis, whatever the inputs and
    whatever the outside world answers, an agent calls the chat client of
    its provider once at most -- a failed call is never repeated -- and
    not at all when it has no provider; its clock never runs backwards. *)
Theorem agents_call_their_provider_once env self symbol price market_data
    show_reasoning st :
  let st' :=
    snd (analyze env self symbol price market_data show_reasoning st) in
  attempts st <= attempts st' <= S (attempts st) /\
  now st <= now st' /\
  (provider self = None -> attempts st' = attempts st).
Proof.
  cbv zeta.
  pose proof (analyze_calls_once env self symbol price market_data
                show_reasoning st) as H1.
  split; [lia|]. split; [lia|].
  intros Hnone.
  pose proof (analyze_without_provider env self symbol price market_data
                show_reasoning Hnone st) as H0.
  lia.
Qed.

End Calls.

(* ================================================================== *)
(** * What the entries of the result hold *)
(* ================================================================== *)

Module Entries.

Import Provider Agent Orchestrator Scenario Worlds Facts Resolution Requests.

Open Scope task_scope.

Lemma text_ret (s : pystr) : text_or_raises (Task.ret (VStr s)).
Proof. intros st. exact I. Qed.

Lemma text_bind {A} (m : task A) (f : A -> task pyval) :
  (forall a, text_or_raises (f a)) -> text_or_raises (Task.bind m f).
Proof.
  intros Hf st. unfold Task.bind.
  destruct (m st) as [[a|e] st1]; [apply Hf|exact I].
Qed.

Lemma text_try (body : task pyval) (h : exn -> pystr) (st : tstate) :
  text_or_raises body ->
  exists text st',
    Task.try_except body (fun e => Task.ret (VStr (h e))) st
    = (Ok (VStr text), st').
Proof.
  intros Hb. specialize (Hb st). unfold Task.try_except, Task.ret.
  destruct (body st) as [[v|e] st1]; simpl in Hb.
  - destruct v; try contradiction. eexists _, _. reflexivity.
  - eexists _, _. reflexivity.
Qed.

Ltac text :=
  repeat first
    [ apply text_ret
    | apply text_bind; intros ?
    | match goal with
      | |- text_or_raises (if ?b then _ else _) => destruct b
      | |- text_or_raises (match ?x with _ => _ end) => destruct x
      end ].

(** The agents whose whole body stands in the [try] answer with a
    string, whatever happens. *)
Lemma analyze_answers_text env self symbol price market_data show_reasoning
    st :
  agent_cls self <> MarketDataAgent ->
  exists text st',
    analyze env self symbol price market_data show_reasoning st
    = (Ok (VStr text), st').
Proof.
  intros Hc. unfold analyze.
  destruct (agent_cls self); [contradiction| | | |];
    [ unfold sentiment_analyze | unfold technical_analyze
    | unfold risk_analyze | unfold portfolio_analyze ];
    cbv zeta; apply text_try; solve [text].
Qed.

Lemma construct_redis env t cls p a :
  construct env t cls p = Ok a ->
  redis_client a = None /\ redis_url a = py "redis://localhost".
Proof.
  unfold construct, __init__.
  destruct (dict_get (provider_configs t) p) as [model|];
    cbn [Res.bind]; [|discriminate].
  destruct (dict_get (api_keys t) p) as [key|]; cbn [Res.bind];
    [|discriminate].
  destruct (dict_get (PROVIDER_MAP env) p) as [pc|]; [|discriminate].
  destruct (_initialize_provider env pc model key); cbn [Res.bind];
    [|discriminate].
  intros [= <-]. split; reflexivity.
Qed.

(** What a caller finds in the mapping that [analyze_market] returns.
    Under every name but [market_data_agent] stands a string -- an
    analysis or an error text -- never an exception object and never
    another kind of value.  Under [market_data_agent] stands a value (a
    string, or whatever the cache held), or else the very exception that
    [aioredis.from_url('redis://localhost')] raised. *)
Theorem result_entries env symbol market_data price show_reasoning
    provider_map agent_type t0 results t1 :
  analyze_market env symbol market_data price show_reasoning provider_map
                 agent_type t0 = (Ok results, t1) ->
  forall name entry,
    In (name, entry) results ->
    if Str.eqb name (py "market_data_agent") then
      (exists v, entry = Returned v) \/
      (exists e, fst (redis_from_url env (py "redis://localhost")) = Raise e /\
                 entry = Raised e)
    else exists text, entry = Returned (VStr text).
Proof.
  unfold analyze_market. intros H name entry Hin.
  destruct (resolve_agents env provider_map agent_type) as [agents|]
    eqn:Hr; [|discriminate H].
  destruct (resolve_names _ _ _ _ Hr) as [ND Hnames].
  destruct (resolved_agents_constructed _ _ _ _ Hr) as (t & _ & Hcons).
  rewrite run_agents_spec in H by exact ND.
  injection H as <- _.
  apply in_map_iff in Hin as ([n a] & [= <- <-] & Hin).
  rewrite Forall_forall in Hnames, Hcons.
  pose proof (Hnames _ Hin) as Hn. destruct (Hcons _ Hin) as (cls & p & Hc).
  simpl in Hn, Hc |- *. subst n.
  unfold run_task.
  destruct (agent_cls a) eqn:Hcls; cbn [name_of_class];
    match goal with
    | |- context [Str.eqb ?x ?y] =>
        let b := eval vm_compute in (Str.eqb x y) in
        change (Str.eqb x y) with b
    end; cbv iota.
  - apply construct_redis in Hc as [Hnone Hurl].
    unfold analyze. rewrite Hcls.
    destruct (fst (redis_from_url env (py "redis://localhost"))) as [u|e]
      eqn:E.
    + destruct u.
      destruct (Boundary.market_never_raises_after_init env a price
                  market_data show_reasoning (TState t0 0))
        as (v & st' & ->).
      { right. rewrite Hurl. exact E. }
      left. now exists v.
    + right. exists e. split; [reflexivity|].
      unfold market_analyze, _init_redis. rewrite Hnone, Hurl.
      unfold Task.bind at 1, Task.bind at 1, Task.await. rewrite E.
      reflexivity.
  - destruct (analyze_answers_text env a symbol price market_data
                show_reasoning (TState t0 0)) as (text & st' & ->);
      [congruence|now exists text].
  - destruct (analyze_answers_text env a symbol price market_data
                show_reasoning (TState t0 0)) as (text & st' & ->);
      [congruence|now exists text].
  - destruct (analyze_answers_text env a symbol price market_data
                show_reasoning (TState t0 0)) as (text & st' & ->);
      [congruence|now exists text].
  - destruct (analyze_answers_text env a symbol price market_data
                show_reasoning (TState t0 0)) as (text & st' & ->);
      [congruence|now exists text].
Qed.

(** The statement above for a request for all agents with the provider
    [openai], in the world in which everything works. *)
Lemma result_entries_witness :
  exists results t1,
    analyze_market env_ok BTC (snapshot BTC quote_full) some_prices false
                   (ProvidersStr (py "openai")) None 0 = (Ok results, t1) /\
    forall name entry,
      In (name, entry) results ->
      if Str.eqb name (py "market_data_agent") then
        (exists v, entry = Returned v) \/
        (exists e,
            fst (redis_from_url env_ok (py "redis://localhost")) = Raise e /\
            entry = Raised e)
      else exists text, entry = Returned (VStr text).
Proof.
  match eval vm_compute in
        (analyze_market env_ok BTC (snapshot BTC quote_full) some_prices false
                        (ProvidersStr (py "openai")) None 0) with
  | (Ok ?r, ?t) => exists r, t
  end.
  split; [vm_compute; reflexivity|].
  eapply (result_entries env_ok BTC (snapshot BTC quote_full) some_prices
            false (ProvidersStr (py "openai")) None 0).
  vm_compute. reflexivity.
Defined.

End Entries.

(* ================================================================== *)
(** * The rules of the agents without a provider *)
(* ================================================================== *)

Module Rules.

Import Provider Agent Orchestrator Scenario Worlds Facts Analysis Reasoning.

Open Scope task_scope.

Lemma lit_0 : Prim2SF (float_lit 0) = S754_zero false.
Proof. vm_compute. reflexivity. Qed.

Lemma lit_5 : Prim2SF (float_lit 5) = S754_finite false 5629499534213120 (-50).
Proof. vm_compute. reflexivity. Qed.

Lemma lit_10 :
  Prim2SF (float_lit 10) = S754_finite false 5629499534213120 (-49).
Proof. vm_compute. reflexivity. Qed.

Lemma lit_minus_5 :
  Prim2SF (float_lit (-5)) = S754_finite true 5629499534213120 (-50).
Proof. vm_compute. reflexivity. Qed.

(** The thresholds on a float: above 5 means above 0 and not below -5;
    below -5 means not above 0; the absolute value is above 5 exactly when
    the number is above 5 or below -5, and it is above 5 when it is above
    10.  A NaN is on no side of any threshold. *)
Lemma float_thresholds (f : float) :
  let up := PrimFloat.ltb (float_lit 0) f in
  let take := PrimFloat.ltb (float_lit 5) f in
  let dip := PrimFloat.ltb f (float_lit (-5)) in
  let high := PrimFloat.ltb (float_lit 10) (PrimFloat.abs f) in
  let medium := PrimFloat.ltb (float_lit 5) (PrimFloat.abs f) in
  (take = true -> up = true /\ dip = false) /\
  (dip = true -> up = false) /\
  (high = true -> medium = true) /\
  medium = take || dip.
Proof.
  cbv zeta. rewrite !ltb_spec, abs_spec, lit_0, lit_5, lit_10, lit_minus_5.
  destruct (Prim2SF f) as [s|s| |s m e]; try destruct s;
    cbn [SFabs SFltb SFcompare].
  1-5: repeat split; intros; first [discriminate | reflexivity].
  - pose proof (Pos.compare_cont_antisym m 5629499534213120 Eq) as Hanti.
    cbn [CompOpp] in Hanti. rewrite <- Hanti. clear Hanti.
    generalize (Pos.compare_cont Eq m 5629499534213120). intros c.
    destruct (Z.compare_spec e (-50)); destruct (Z.compare_spec (-50) e);
      destruct (Z.compare_spec (-49) e); try (exfalso; lia).
    all: destruct c; cbn [CompOpp orb]; repeat split; intros;
      first [discriminate | reflexivity].
  - generalize (PosDef.Pos.compare_cont Eq 5629499534213120 m). intros c.
    destruct (Z.compare_spec (-50) e); destruct (Z.compare_spec (-49) e);
      try (exfalso; lia).
    all: destruct c; cbn [orb]; repeat split; intros;
      first [discriminate | reflexivity].
Qed.

Lemma int_thresholds (z : Z) :
  let up := (0 <? z)%Z in
  let take := (5 <? z)%Z in
  let dip := (z <? -5)%Z in
  let high := (10 <? Z.abs z)%Z in
  let medium := (5 <? Z.abs z)%Z in
  (take = true -> up = true /\ dip = false) /\
  (dip = true -> up = false) /\
  (high = true -> medium = true) /\
  medium = take || dip.
Proof.
  cbv zeta.
  destruct (Z.ltb_spec 0 z); destruct (Z.ltb_spec 5 z);
    destruct (Z.ltb_spec z (-5)); destruct (Z.ltb_spec 10 (Z.abs z));
    destruct (Z.ltb_spec 5 (Z.abs z)); try lia;
    cbn [orb]; repeat split; congruence.
Qed.

(** The thresholds of the three rules, on the number [change] and its
    absolute value. *)
Lemma thresholds (change volatility : pyval) :
  py_abs change = Ok volatility ->
  exists up take dip high medium,
    gt_int change 0 = Ok up /\
    gt_int change 5 = Ok take /\
    lt_int change (-5) = Ok dip /\
    gt_int volatility 10 = Ok high /\
    gt_int volatility 5 = Ok medium /\
    (take = true -> up = true /\ dip = false) /\
    (dip = true -> up = false) /\
    (high = true -> medium = true) /\
    medium = take || dip.
Proof.
  unfold py_abs, gt_int, lt_int.
  destruct (as_number change) as [[z|f]|] eqn:E; [| |discriminate];
    intros [= <-]; cbn [as_number]; eexists _, _, _, _, _;
    (do 5 (split; [reflexivity|])).
  - apply int_thresholds.
  - apply float_thresholds.
Qed.

Lemma ok_inj {A} (a b : A) : Ok a = Ok b -> a = b.
Proof. now intros [= ->]. Qed.

(** The three rules read the same number, and so they agree. *)
Lemma fallbacks_agree quote change volatility s r p :
  subscript quote (py "percent_change_24h") = Ok change ->
  py_abs change = Ok volatility ->
  sentiment_fallback quote = Ok s ->
  risk_fallback quote volatility = Ok r ->
  portfolio_fallback quote = Ok p ->
  exists sentiment level action direction rest_s rest_r shown,
    s = py "Market Sentiment: " ++ sentiment ++ nl ++ rest_s /\
    r = py "Risk Level: " ++ level ++ nl ++ rest_r /\
    p = py "Recommended Action: " ++ action ++ nl
        ++ py "Price Trend: " ++ shown ++ py "%" ++ nl
        ++ py "Market Direction: " ++ direction /\
    In (sentiment, level, action, direction)
       [(py "BULLISH", py "HIGH", py "TAKE PROFIT", py "Upward");
        (py "BULLISH", py "MEDIUM", py "TAKE PROFIT", py "Upward");
        (py "BULLISH", py "LOW", py "HOLD", py "Upward");
        (py "BEARISH", py "LOW", py "HOLD", py "Downward");
        (py "BEARISH", py "MEDIUM", py "BUY DIP", py "Downward");
        (py "BEARISH", py "HIGH", py "BUY DIP", py "Downward")].
Proof.
  intros Hc Ha Hs Hr Hp.
  destruct (thresholds change volatility Ha)
    as (up & take & dip & high & medium & Hup & Htake & Hdip & Hhigh & Hmed
        & C1 & C2 & C3 & C4).
  unfold sentiment_fallback in Hs. rewrite Hc in Hs. cbn [Res.bind] in Hs.
  rewrite Hup in Hs. cbn [Res.bind] in Hs.
  destruct (field_f 2 quote (py "percent_change_24h")) as [c24|];
    [|discriminate Hs].
  cbn [Res.bind] in Hs.
  destruct (field_f 2 quote (py "percent_change_7d")) as [c7|];
    [|discriminate Hs].
  cbn [Res.bind] in Hs. apply ok_inj in Hs. subst s.
  unfold portfolio_fallback in Hp. rewrite Hc in Hp. cbn [Res.bind] in Hp.
  rewrite Htake in Hp. cbn [Res.bind] in Hp.
  unfold risk_fallback in Hr. rewrite Hhigh in Hr. cbn [Res.bind] in Hr.
  destruct take, dip, up, high, medium; cbn [orb] in C4;
    try discriminate C4;
    try (destruct (C1 eq_refl); discriminate);
    try (pose proof (C2 eq_refl); discriminate);
    try (pose proof (C3 eq_refl); discriminate);
    rewrite ?Hmed in Hr; rewrite ?Hdip in Hp; cbn [Res.bind] in Hr, Hp;
    destruct (format_spec_f 2 volatility) as [vol|]; try discriminate Hr;
    cbn [Res.bind] in Hr;
    destruct (field_f 2 quote (py "volume_change_24h")) as [vc|];
    try discriminate Hr;
    cbn [Res.bind] in Hr; apply ok_inj in Hr; subst r;
    destruct (format_spec_f 2 change) as [shown|]; try discriminate Hp;
    cbn [Res.bind] in Hp; rewrite Hup in Hp; cbn [Res.bind] in Hp;
    apply ok_inj in Hp; subst p;
    eexists _, _, _, _, _, _, _;
    (split; [reflexivity|]); (split; [reflexivity|]);
    (split; [reflexivity|]);
    cbn [In]; repeat first [left; reflexivity | right].
Qed.

Ltac error_text H Hne :=
  apply ok_inj in H; injection H as <-; vm_compute in Hne; discriminate Hne.

(** Without providers the Sentiment, Risk and Portfolio agents never
    contradict each other.  On the same market data, whenever none of the
    three answers is an error text, the first lines of the answers are one
    of six combinations: TAKE PROFIT comes with BULLISH, Upward and a
    risk level of MEDIUM or HIGH; BUY DIP with BEARISH, Downward and
    MEDIUM or HIGH; HOLD with LOW, and with BULLISH and Upward or BEARISH
    and Downward.  This holds for every number the 24h change may be: an
    integer, a boolean, a float, an infinity or a NaN. *)
Theorem local_rules_agree env sentiment_agent risk_agent portfolio_agent
    price market_data show_reasoning st s r p :
  provider sentiment_agent = None ->
  provider risk_agent = None ->
  provider portfolio_agent = None ->
  fst (sentiment_analyze env sentiment_agent price market_data show_reasoning
                         st) = Ok (VStr s) ->
  fst (risk_analyze env risk_agent price market_data show_reasoning st)
  = Ok (VStr r) ->
  fst (portfolio_analyze env portfolio_agent price market_data show_reasoning
                         st) = Ok (VStr p) ->
  Str.startswith s (py "Error") = false ->
  Str.startswith r (py "Error") = false ->
  Str.startswith p (py "Error") = false ->
  exists sentiment level action direction rest_s rest_r shown,
    s = py "Market Sentiment: " ++ sentiment ++ nl ++ rest_s /\
    r = py "Risk Level: " ++ level ++ nl ++ rest_r /\
    p = py "Recommended Action: " ++ action ++ nl
        ++ py "Price Trend: " ++ shown ++ py "%" ++ nl
        ++ py "Market Direction: " ++ direction /\
    In (sentiment, level, action, direction)
       [(py "BULLISH", py "HIGH", py "TAKE PROFIT", py "Upward");
        (py "BULLISH", py "MEDIUM", py "TAKE PROFIT", py "Upward");
        (py "BULLISH", py "LOW", py "HOLD", py "Upward");
        (py "BEARISH", py "LOW", py "HOLD", py "Downward");
        (py "BEARISH", py "MEDIUM", py "BUY DIP", py "Downward");
        (py "BEARISH", py "HIGH", py "BUY DIP", py "Downward")].
Proof.
  intros N1 N2 N3 Hs Hr Hp Es Er Ep.
  unfold sentiment_analyze in Hs. rewrite N1, try_bind_lift in Hs.
  unfold risk_analyze in Hr. rewrite N2, try_bind_lift in Hr.
  unfold portfolio_analyze in Hp. rewrite N3, try_bind_lift in Hp.
  destruct (first_quote market_data) as [quote|e]; [|error_text Hs Es].
  cbv beta iota in Hs, Hr, Hp.
  rewrite try_bind_lift in Hs. rewrite try_bind_lift in Hr.
  rewrite try_bind_lift in Hp.
  destruct (sentiment_stats_of quote); [|error_text Hs Es].
  cbv beta iota in Hs. rewrite try_bind_lift in Hs.
  destruct (sentiment_fallback quote) as [s0|] eqn:Fs; [|error_text Hs Es].
  apply ok_inj in Hs. injection Hs as ->.
  destruct (subscript quote (py "percent_change_24h")) as [change|] eqn:Hc;
    cbn [Res.bind] in Hr; [|error_text Hr Er].
  destruct (py_abs change) as [volatility|] eqn:Ha; [|error_text Hr Er].
  cbv beta iota in Hr. rewrite try_bind_lift in Hr.
  destruct (risk_data_of quote volatility); [|error_text Hr Er].
  cbv beta iota in Hr. rewrite try_bind_lift in Hr.
  destruct (risk_fallback quote volatility) as [r0|] eqn:Fr;
    [|error_text Hr Er].
  apply ok_inj in Hr. injection Hr as ->.
  destruct (portfolio_data_of quote); [|error_text Hp Ep].
  cbv beta iota in Hp. rewrite try_bind_lift in Hp.
  destruct (portfolio_fallback quote) as [p0|] eqn:Fp; [|error_text Hp Ep].
  apply ok_inj in Hp. injection Hp as ->.
  exact (fallbacks_agree quote change volatility s r p Hc Ha Fs Fr Fp).
Qed.

(** The statement above on the full quote of the scenario. *)
Lemma local_rules_agree_witness :
  exists sentiment level action direction rest_s rest_r shown,
    py "Market Sentiment: BULLISH" ++ nl ++ py "24h Trend: 12.00%" ++ nl
    ++ py "7d Trend: 3.50%"
    = py "Market Sentiment: " ++ sentiment ++ nl ++ rest_s /\
    py "Risk Level: HIGH" ++ nl ++ py "Volatility: 12.00%" ++ nl
    ++ py "Volume Change: 0.50%"
    = py "Risk Level: " ++ level ++ nl ++ rest_r /\
    py "Recommended Action: TAKE PROFIT" ++ nl ++ py "Price Trend: 12.00%"
    ++ nl ++ py "Market Direction: Upward"
    = py "Recommended Action: " ++ action ++ nl
      ++ py "Price Trend: " ++ shown ++ py "%" ++ nl
      ++ py "Market Direction: " ++ direction /\
    In (sentiment, level, action, direction)
       [(py "BULLISH", py "HIGH", py "TAKE PROFIT", py "Upward");
        (py "BULLISH", py "MEDIUM", py "TAKE PROFIT", py "Upward");
        (py "BULLISH", py "LOW", py "HOLD", py "Upward");
        (py "BEARISH", py "LOW", py "HOLD", py "Downward");
        (py "BEARISH", py "MEDIUM", py "BUY DIP", py "Downward");
        (py "BEARISH", py "HIGH", py "BUY DIP", py "Downward")].
Proof.
  apply (local_rules_agree env_ok (without_provider SentimentAgent)
           (without_provider RiskManagementAgent)
           (without_provider PortfolioAgent) no_prices
           (snapshot BTC quote_full) false start);
    vm_compute; reflexivity.
Defined.

End Rules.

(* ================================================================== *)
(** * The routes *)
(* ================================================================== *)

Module Endpoints.

Import Provider Agent Orchestrator Scenario Worlds Api Facts Resolution.

(** What [tools.get_market_data] hands over: the answer of the service
    itself, which is true and in which ['data'] occurs; or else an
    exception of class [Exception] whose text begins with
    [Failed to get market data: ], whatever was raised. *)
Theorem market_data_source env cmc symbol :
  match Tools.get_market_data env cmc symbol with
  | Ok market_data =>
      cmc symbol = Ok market_data /\
      truthy market_data = true /\
      contains_key (py "data") market_data = Ok true /\
      exists key, CMCClient.__init__ env = Ok key
  | Raise e =>
      exn_cls e = OtherException /\
      Str.startswith (exn_str e) (py "Failed to get market data: ") = true
  end.
Proof.
  unfold Tools.get_market_data, CryptoMarketProvider.__init__,
    CMCClient.__init__.
  destruct (getenv env (py "COINMARKETCAP_API_KEY")) as [[|c k]|];
    try (split; [reflexivity|apply startswith_app]).
  cbn [Res.bind]. unfold CryptoMarketProvider.get_market_data.
  destruct (cmc symbol) as [response|e]; cbn [Res.bind];
    [|split; [reflexivity|apply startswith_app]].
  unfold CryptoMarketProvider.invalid.
  destruct (truthy response) eqn:Ht; cbn [negb Res.bind];
    [|split; [reflexivity|apply startswith_app]].
  destruct (contains_key (py "data") response) as [[|]|e] eqn:Hc;
    cbn [negb Res.bind];
    try (split; [reflexivity|apply startswith_app]).
  split; [reflexivity|]. split; [exact Ht|]. split; [exact Hc|].
  now exists (c :: k).
Qed.

(** [GET /api/market-data/{symbol}] never answers 404.  The route answers
    with the four fields of the USD quote of the symbol, in upper case, as
    the service gave them; or else with status 500, the detail being the
    text of what [tools.get_market_data] raised or of the lookup that
    failed.  The branch that raises 404 is never taken, since
    [tools.get_market_data] returns nothing false -- and what it would
    raise would leave the route as a 500. *)
Theorem market_route_never_404 env http_str upper cmc symbol :
  match get_crypto_market_data env http_str upper cmc symbol with
  | Responds answer =>
      exists market_data,
        cmc (upper symbol) = Ok market_data /\
        market_answer market_data (upper symbol) = Ok answer
  | Throws (HTTPException status_code detail) =>
      status_code = 500%Z /\
      exists e,
        detail = exn_str e /\
        (Tools.get_market_data env cmc (upper symbol) = Raise e \/
         exists market_data,
           cmc (upper symbol) = Ok market_data /\
           market_answer market_data (upper symbol) = Raise e)
  | Throws (Thrown _) => False
  end.
Proof.
  unfold get_crypto_market_data. cbv zeta.
  pose proof (market_data_source env cmc (upper symbol)) as Hsrc.
  destruct (Tools.get_market_data env cmc (upper symbol))
    as [market_data|e].
  - destruct Hsrc as (Hcmc & Ht & _). rewrite Ht. cbn [negb].
    destruct (market_answer market_data (upper symbol)) as [answer|e] eqn:Ha.
    + exists market_data. split; assumption.
    + split; [reflexivity|]. exists e. split; [reflexivity|].
      right. exists market_data. split; assumption.
  - split; [reflexivity|]. exists e. split; [reflexivity|]. now left.
Qed.

(** The names of [agent_functions] are those under which [analyze_market]
    files the agent of each type. *)
Lemma functions_match_mapping name ty :
  In (name, ty) agent_functions ->
  exists cls, dict_get agent_mapping ty = Some (name, cls).
Proof.
  unfold agent_functions. cbn [In].
  intros [H|[H|[H|[H|[H|[]]]]]]; injection H as <- <-; eexists;
    vm_compute; reflexivity.
Qed.

Lemma single_entry env symbol market_data price show_reasoning provider_map
    name cls ty t0 results t1 :
  dict_get agent_mapping ty = Some (name, cls) ->
  analyze_market env symbol market_data price show_reasoning provider_map
                 (Some ty) t0 = (Ok results, t1) ->
  exists entry, results = [(name, entry)].
Proof.
  intros Hm H. destruct ty as [|c k]; [vm_compute in Hm; discriminate Hm|].
  unfold analyze_market in H.
  match type of H with
  | context [resolve_agents ?a ?b ?c] =>
      destruct (resolve_agents a b c) as [agents|] eqn:Hr
  end; [|discriminate H].
  destruct (resolve_names _ _ _ _ Hr) as [ND _].
  rewrite run_agents_spec in H by exact ND.
  apply resolve_single in Hr
    as (t & name' & cls' & a & p & _ & Hm' & -> & _).
  rewrite Hm in Hm'. injection Hm' as <- <-.
  cbn [map fst snd] in H. injection H as <- _.
  eexists. reflexivity.
Qed.

Lemma format_agents_titles titles analysis_results :
  forall agents,
    format_agents titles analysis_results = Ok agents ->
    map fst agents = map fst titles.
Proof.
  induction titles as [|[title name] rest IH]; intros agents H; simpl in H.
  - injection H as <-. reflexivity.
  - destruct (dict_get analysis_results name); [|discriminate H].
    destruct (format_agents rest analysis_results) as [l|];
      cbn [Res.bind] in H; [|discriminate H].
    injection H as <-. simpl. f_equal. now apply IH.
Qed.

(** The status codes of [GET /api/analysis/{symbol}].  A provider other
    than [openai] and [anthropic] is answered with 400 and the detail that
    names it, before anything is fetched.  Otherwise the route answers
    with the five titles in their order, or with status 500: no exception
    other than an [HTTPException] leaves the route, and no other status
    occurs. *)
Theorem analysis_route_statuses env http_str upper symbol provider fetched
    t0 :
  match get_crypto_analysis env http_str upper symbol provider fetched t0
  with
  | Responds agents =>
      existsb (Str.eqb provider) [py "openai"; py "anthropic"] = true /\
      map fst agents
      = [py "Market Data Agent"; py "Sentiment Agent"; py "Technical Agent";
         py "Risk Agent"; py "Portfolio Agent"]
  | Throws (HTTPException status_code detail) =>
      if existsb (Str.eqb provider) [py "openai"; py "anthropic"]
      then status_code = 500%Z
      else status_code = 400%Z /\
           detail = py "Invalid provider: " ++ provider
                       ++ py ". Supported providers are: openai, anthropic"
  | Throws (Thrown _) => False
  end.
Proof.
  unfold get_crypto_analysis. cbv zeta.
  destruct (existsb (Str.eqb provider) [py "openai"; py "anthropic"]);
    cbn [negb]; [|split; reflexivity].
  destruct (CryptoMarketProvider.__init__ env); [|reflexivity].
  destruct fetched as [[market_data price_data]|e]; [|reflexivity].
  match goal with
  | |- context [await_tasks ?l ?b ?r] => destruct (await_tasks l b r) as [res|t]
  end; [|reflexivity].
  destruct (format_agents agent_titles res) as [agents|e] eqn:Hf;
    [|reflexivity].
  split; [reflexivity|].
  apply format_agents_titles in Hf. exact Hf.
Qed.

(** When nothing fails, every lookup of the route finds its entry.  With
    a valid provider, the key of the market data service set, the data
    fetched and the five calls of [analyze_market] -- one for each agent
    type, with [show_reasoning=True] and the one provider -- all
    returning, [GET /api/analysis/{symbol}] answers with the five analyses
    under their titles: each is the entry that the call for its agent type
    filed under the agent's name. *)
Theorem analysis_route_answer env http_str upper symbol provider market_data
    price_data t0 key :
  existsb (Str.eqb provider) [py "openai"; py "anthropic"] = true ->
  CryptoMarketProvider.__init__ env = Ok key ->
  let call := fun agent_type =>
    analyze_market env (upper symbol) market_data (PriceVal price_data) true
                   (ProvidersStr provider) (Some agent_type) t0 in
  (forall name agent_type,
      In (name, agent_type) agent_functions ->
      exists results t1, call agent_type = (Ok results, t1)) ->
  exists market sentiment technical risk portfolio,
    slot_of (call (py "market")) (py "market_data_agent") = Some market /\
    slot_of (call (py "sentiment")) (py "sentiment_agent") = Some sentiment /\
    slot_of (call (py "technical")) (py "technical_agent") = Some technical /\
    slot_of (call (py "risk")) (py "risk_management_agent") = Some risk /\
    slot_of (call (py "portfolio")) (py "portfolio_agent") = Some portfolio /\
    get_crypto_analysis env http_str upper symbol provider
                        (Ok (market_data, price_data)) t0
    = Responds [(py "Market Data Agent", market);
                (py "Sentiment Agent", sentiment);
                (py "Technical Agent", technical);
                (py "Risk Agent", risk);
                (py "Portfolio Agent", portfolio)].
Proof.
  intros Hp Hk call Hcalls.
  assert (forall name agent_type,
             In (name, agent_type) agent_functions ->
             exists entry t1, call agent_type = (Ok [(name, entry)], t1))
    as Hone.
  { intros name ty Hin.
    destruct (Hcalls name ty Hin) as (results & t1 & Hc).
    destruct (functions_match_mapping name ty Hin) as [cls Hm].
    destruct (single_entry _ _ _ _ _ _ _ _ _ _ _ _ Hm Hc) as [entry ->].
    now exists entry, t1. }
  destruct (Hone (py "market_data_agent") (py "market"))
    as (e1 & t1 & H1); [simpl; tauto|].
  destruct (Hone (py "sentiment_agent") (py "sentiment"))
    as (e2 & t2 & H2); [simpl; tauto|].
  destruct (Hone (py "technical_agent") (py "technical"))
    as (e3 & t3 & H3); [simpl; tauto|].
  destruct (Hone (py "risk_management_agent") (py "risk"))
    as (e4 & t4 & H4); [simpl; tauto|].
  destruct (Hone (py "portfolio_agent") (py "portfolio"))
    as (e5 & t5 & H5); [simpl; tauto|].
  exists e1, e2, e3, e4, e5.
  unfold slot_of. rewrite H1, H2, H3, H4, H5.
  repeat (split; [vm_compute; reflexivity|]).
  unfold get_crypto_analysis. cbv zeta. rewrite Hp, Hk. cbn [negb].
  unfold agent_functions. cbn [map fst snd].
  subst call. cbv beta in H1, H2, H3, H4, H5.
  rewrite H1, H2, H3, H4, H5.
  vm_compute. reflexivity.
Qed.

(** The statement above for [GET /api/analysis/btc?provider=openai] in
    the world in which everything works. *)
Lemma analysis_route_answer_witness :
  let call := fun agent_type =>
    analyze_market env_ok (Str.upper (py "btc")) (snapshot BTC quote_full)
                   (PriceVal VNone) true (ProvidersStr (py "openai"))
                   (Some agent_type) 0 in
  exists market sentiment technical risk portfolio,
    slot_of (call (py "market")) (py "market_data_agent") = Some market /\
    slot_of (call (py "sentiment")) (py "sentiment_agent") = Some sentiment /\
    slot_of (call (py "technical")) (py "technical_agent") = Some technical /\
    slot_of (call (py "risk")) (py "risk_management_agent") = Some risk /\
    slot_of (call (py "portfolio")) (py "portfolio_agent") = Some portfolio /\
    get_crypto_analysis env_ok (fun _ detail => detail) Str.upper (py "btc")
                        (py "openai") (Ok (snapshot BTC quote_full, VNone)) 0
    = Responds [(py "Market Data Agent", market);
                (py "Sentiment Agent", sentiment);
                (py "Technical Agent", technical);
                (py "Risk Agent", risk);
                (py "Portfolio Agent", portfolio)].
Proof.
  apply (analysis_route_answer env_ok (fun _ detail => detail) Str.upper
           (py "btc") (py "openai") (snapshot BTC quote_full) VNone 0
           (py "secret")).
  - reflexivity.
  - reflexivity.
  - intros name agent_type Hin. unfold agent_functions in Hin.
    cbn [In] in Hin.
    destruct Hin as [H|[H|[H|[H|[H|[]]]]]]; injection H as <- <-;
      match goal with
      | |- exists results t1, ?c = _ =>
          let v := eval vm_compute in c in
          match v with
          | (Ok ?r, ?t) => exists r, t; vm_compute; reflexivity
          end
      end.
Defined.

(** When the first call fails.  The route awaits the call for the Market
    agent first.  If it raises, the answer is a 500 whose detail wraps the
    text of a second [HTTPException] -- the one raised for the agent, caught
    again two lines below -- so what the client reads depends on how the
    library prints such an exception.  And if what is raised is a
    [TypeError], its message is lost: the handler reads the variable
    [result], which no iteration has bound yet. *)
Theorem analysis_route_first_failure env http_str upper symbol provider
    market_data price_data t0 key e :
  existsb (Str.eqb provider) [py "openai"; py "anthropic"] = true ->
  CryptoMarketProvider.__init__ env = Ok key ->
  fst (analyze_market env (upper symbol) market_data (PriceVal price_data)
                      true (ProvidersStr provider) (Some (py "market")) t0)
  = Raise e ->
  get_crypto_analysis env http_str upper symbol provider
                      (Ok (market_data, price_data)) t0
  = Throws
      (HTTPException 500%Z
         (py "Failed during agent analysis: "
             ++ (if is_type_error e then
                   py "cannot access local variable 'result' where it is not associated with a value"
                 else
                   http_str 500%Z
                     (py "Failed during market_data_agent analysis: "
                         ++ exn_str e)))).
Proof.
  intros Hp Hk He. unfold get_crypto_analysis. cbv zeta.
  rewrite Hp, Hk. cbn [negb]. unfold agent_functions.
  cbn [map fst snd await_tasks]. rewrite He.
  destruct (is_type_error e); reflexivity.
Qed.

(** The statement above when the key of the provider is not set. *)
Lemma analysis_route_first_failure_witness :
  get_crypto_analysis (without_variable env_ok (py "OPENAI_API_KEY"))
                      (fun _ detail => detail) Str.upper (py "btc")
                      (py "openai") (Ok (snapshot BTC quote_full, VNone)) 0
  = Throws
      (HTTPException 500%Z
         (py "Failed during agent analysis: "
             ++ py "Failed during market_data_agent analysis: "
             ++ py "OPENAI_API_KEY not found in environment variables")).
Proof.
  exact (analysis_route_first_failure
           (without_variable env_ok (py "OPENAI_API_KEY"))
           (fun _ detail => detail) Str.upper (py "btc") (py "openai")
           (snapshot BTC quote_full) VNone 0 (py "secret")
           (Exn ValueError
                (py "OPENAI_API_KEY not found in environment variables"))
           eq_refl eq_refl eq_refl).
Defined.

End Endpoints.

(* ================================================================== *)
(** * What [analyze_market] can raise *)
(* ================================================================== *)

Module Failures.

Import Provider Agent Orchestrator Scenario Worlds Facts Resolution
       Assignment Adapters.

Lemma configure_raises env t p e :
  configure env t p = Raise e ->
  get_provider_config env p = Raise e \/
  (exists cfg, get_provider_config env p = Ok cfg /\
               subscript cfg (py "default_model") = Raise e) \/
  (p = py "anthropic" /\
   e = Exn ValueError
         (py "ANTHROPIC_API_KEY" ++ py " not found in environment variables"))
  \/
  (p = py "openai" /\
   e = Exn ValueError
         (py "OPENAI_API_KEY" ++ py " not found in environment variables")).
Proof.
  unfold configure. intros H.
  destruct (get_provider_config env p) as [cfg|e0]; cbn [Res.bind] in H;
    [|left; injection H as <-; reflexivity].
  destruct (subscript cfg (py "default_model")) as [m|e0] eqn:Hm;
    cbn [Res.bind] in H;
    [|right; left; exists cfg; injection H as <-; now split].
  assert (forall var r,
             require_key env var = Raise r ->
             r = Exn ValueError
                   (var ++ py " not found in environment variables")) as Hk.
  { intros var r. unfold require_key.
    destruct (getenv env var) as [[|c k]|]; intros [= <-]; reflexivity. }
  destruct (Str.eqb p (py "anthropic")) eqn:Ea.
  - apply eqb_eq in Ea.
    destruct (require_key env (py "ANTHROPIC_API_KEY")) as [k|r] eqn:Hr;
      cbn [Res.bind] in H; [discriminate H|].
    injection H as <-. right. right. left. split; [exact Ea|].
    now apply Hk.
  - destruct (Str.eqb p (py "openai")) eqn:Eo; [|discriminate H].
    apply eqb_eq in Eo.
    destruct (require_key env (py "OPENAI_API_KEY")) as [k|r] eqn:Hr;
      cbn [Res.bind] in H; [discriminate H|].
    injection H as <-. right. right. right. split; [exact Eo|].
    now apply Hk.
Qed.

Lemma configure_all_raises env ps :
  forall t e,
    configure_all env t ps = Raise e ->
    exists p t', In p ps /\ configure env t' p = Raise e.
Proof.
  induction ps as [|p ps IH]; intros t e H; simpl in H; [discriminate H|].
  destruct (configure env t p) as [t1|e1] eqn:Hc; cbn [Res.bind] in H.
  - destruct (IH t1 e H) as (q & t' & Hin & Hq).
    exists q, t'. split; [now right|exact Hq].
  - injection H as <-. exists p, t. split; [now left|exact Hc].
Qed.

(** The errors of the taxonomy, each with the name of its provider. *)
Lemma init_raises env cls model key name e :
  __init__ env cls model key name = Raise e ->
  e = Exn KeyError (repr_key name) \/
  (In (exn_cls e) [ProviderAuthenticationError; ProviderQuotaError;
                   ProviderConnectionError; ModelProviderError] /\
   (Str.startswith (exn_str e) (py "[Anthropic] ") = true \/
    Str.startswith (exn_str e) (py "[OpenAI] ") = true)).
Proof.
  unfold __init__.
  destruct (dict_get (PROVIDER_MAP env) name) as [pc|];
    [|intros [= <-]; now left].
  unfold _initialize_provider. intros H. right.
  destruct pc.
  - match type of H with
    | context [match ?b with Ok _ => _ | Raise _ => _ end] =>
        destruct b as [u|e0]
    end; cbn [Res.bind] in H; [discriminate H|].
    injection H as <-.
    destruct (classified_errors e0) as (Hc & Hs & _).
    split; [exact Hc|]. left. rewrite Hs. apply startswith_app.
  - destruct (chat_client env OpenAIProvider model
                          (ClientSettings 1.0 4096 1.0) key);
      cbn [Res.bind] in H; [discriminate H|].
    injection H as <-. split; [simpl; tauto|]. right. reflexivity.
Qed.

Lemma construct_raises env t cls p e :
  construct env t cls p = Raise e ->
  e = Exn KeyError (repr_key p) \/
  (In (exn_cls e) [ProviderAuthenticationError; ProviderQuotaError;
                   ProviderConnectionError; ModelProviderError] /\
   (Str.startswith (exn_str e) (py "[Anthropic] ") = true \/
    Str.startswith (exn_str e) (py "[OpenAI] ") = true)).
Proof.
  unfold construct. intros H.
  destruct (dict_get (provider_configs t) p) as [model|];
    cbn [Res.bind] in H; [|injection H as <-; now left].
  destruct (dict_get (api_keys t) p) as [key|]; cbn [Res.bind] in H;
    [|injection H as <-; now left].
  now apply init_raises in H.
Qed.

Lemma round_robin_in pl i p : round_robin pl i = Ok p -> In p pl.
Proof.
  unfold round_robin. destruct pl as [|q pl]; [discriminate|].
  set (l := q :: pl). intros H.
  assert (p = nth (i mod List.length l) l q) as -> by congruence.
  apply nth_In. apply Nat.mod_upper_bound. discriminate.
Qed.

Lemma build_all_raises env t pl :
  forall mapping i acc e,
    build_all env t pl mapping i acc = Raise e ->
    (pl = [] /\
     e = Exn ZeroDivisionError (py "integer modulo by zero")) \/
    exists cls p, In p pl /\ construct env t cls p = Raise e.
Proof.
  induction mapping as [|[key [name cls]] rest IH]; intros i acc e H;
    simpl in H; [discriminate H|].
  destruct (round_robin pl i) as [p|e0] eqn:Hp; cbn [Res.bind] in H.
  - destruct (construct env t cls p) as [a|e1] eqn:Hc; cbn [Res.bind] in H.
    + exact (IH _ _ _ H).
    + injection H as <-. right. exists cls, p.
      split; [exact (round_robin_in _ _ _ Hp)|exact Hc].
  - injection H as <-. left. unfold round_robin in Hp.
    destruct pl; [|discriminate Hp]. injection Hp as <-. now split.
Qed.

(** Every exception that leaves [analyze_market].  The call raises before
    it starts an agent or not at all, and what it raises is: what
    [ModelConfig()] or [config.get_provider_config] raised; the failed
    lookup of ['default_model']; the [ValueError] for a key that is not
    set; the [ValueError] for an unknown agent type; the division by zero
    or the index error of an empty provider list; a [KeyError] (of the
    keys or of [PROVIDER_MAP]); or an error of the provider taxonomy whose text
    begins with [[Anthropic] ] or [[OpenAI] ], from the construction of
    the provider.  In particular, nothing an agent does makes the call
    raise. *)
Theorem analyze_market_raises_only env symbol market_data price
    show_reasoning provider_map agent_type t0 e t :
  analyze_market env symbol market_data price show_reasoning provider_map
                 agent_type t0 = (Raise e, t) ->
  let providers := providers_of provider_map in
  t = t0 /\
  (ModelConfig env = Raise e \/
   (exists p, In p providers /\ get_provider_config env p = Raise e) \/
   (exists p cfg,
       In p providers /\ get_provider_config env p = Ok cfg /\
       subscript cfg (py "default_model") = Raise e) \/
   (In (py "anthropic") providers /\
    e = Exn ValueError
          (py "ANTHROPIC_API_KEY"
              ++ py " not found in environment variables")) \/
   (In (py "openai") providers /\
    e = Exn ValueError
          (py "OPENAI_API_KEY" ++ py " not found in environment variables")) \/
   (exists ty,
       agent_type = Some ty /\
       e = Exn ValueError (py "Invalid agent_type: " ++ ty)) \/
   (providers = [] /\
    (e = Exn ZeroDivisionError (py "integer modulo by zero") \/
     e = Exn IndexError (py "list index out of range"))) \/
   exn_cls e = KeyError \/
   (In (exn_cls e) [ProviderAuthenticationError; ProviderQuotaError;
                    ProviderConnectionError; ModelProviderError] /\
    (Str.startswith (exn_str e) (py "[Anthropic] ") = true \/
     Str.startswith (exn_str e) (py "[OpenAI] ") = true))).
Proof.
  intros H. cbv zeta. unfold analyze_market in H.
  destruct (resolve_agents env provider_map agent_type) as [agents|e0]
    eqn:Hr.
  { destruct (run_agents env symbol market_data price show_reasoning agents
                         t0); discriminate H. }
  injection H as <- <-. split; [reflexivity|].
  unfold resolve_agents in Hr.
  destruct (ModelConfig env) as [u|e1]; cbn [Res.bind] in Hr;
    [|left; injection Hr as <-; reflexivity].
  right.
  destruct (configure_all env (Tables [] []) (providers_of provider_map))
    as [tb|e1] eqn:Ht; cbn [Res.bind] in Hr.
  2:{ injection Hr as <-.
      apply configure_all_raises in Ht as (p & t' & Hin & Hc).
      apply configure_raises in Hc
        as [Hc|[(cfg & Hg & Hs)|[[-> ->]|[-> ->]]]].
      - left. now exists p.
      - right. left. now exists p, cfg.
      - right. right. left. now split.
      - right. right. right. left. now split. }
  do 4 right.
  pose proof (provider_list_distinct env provider_map tb Ht) as Hpl.
  destruct (first_occurrences_spec (providers_of provider_map))
    as [_ Hmem].
  assert (forall cls p,
             In p (map fst (provider_configs tb)) ->
             construct env tb cls p = Raise e0 ->
             exn_cls e0 = KeyError \/
             (In (exn_cls e0)
                 [ProviderAuthenticationError; ProviderQuotaError;
                  ProviderConnectionError; ModelProviderError] /\
              (Str.startswith (exn_str e0) (py "[Anthropic] ") = true \/
               Str.startswith (exn_str e0) (py "[OpenAI] ") = true)))
    as Hcons.
  { intros cls p Hin Hc. apply construct_raises in Hc as [->|Hc].
    - left. reflexivity.
    - now right. }
  assert (map fst (provider_configs tb) = [] ->
          providers_of provider_map = []) as Hempty.
  { intros E. rewrite Hpl in E.
    destruct (providers_of provider_map) as [|p ps]; [reflexivity|].
    assert (In p (first_occurrences (p :: ps))) as Hin
      by (apply Hmem; now left).
    rewrite E in Hin. destruct Hin. }
  assert (build_all env tb (map fst (provider_configs tb)) agent_mapping 0 []
          = Raise e0 ->
          (providers_of provider_map = [] /\
           (e0 = Exn ZeroDivisionError
                   (py "integer modulo by zero") \/
            e0 = Exn IndexError (py "list index out of range"))) \/
          exn_cls e0 = KeyError \/
          (In (exn_cls e0)
              [ProviderAuthenticationError; ProviderQuotaError;
               ProviderConnectionError; ModelProviderError] /\
           (Str.startswith (exn_str e0) (py "[Anthropic] ") = true \/
            Str.startswith (exn_str e0) (py "[OpenAI] ") = true))) as Hall.
  { intros Hb. apply build_all_raises in Hb as [[E ->]|(cls & p & Hin & Hc)].
    - left. split; [now apply Hempty|now left].
    - right. exact (Hcons cls p Hin Hc). }
  destruct agent_type as [[|c k]|].
  - right. exact (Hall Hr).
  - destruct (dict_get agent_mapping (c :: k)) as [[name cls]|].
    + right.
      destruct (first (map fst (provider_configs tb))) as [p|e1] eqn:Hf;
        cbn [Res.bind] in Hr.
      * destruct (construct env tb cls p) as [a|e1] eqn:Hc;
          cbn [Res.bind] in Hr; [discriminate Hr|].
        injection Hr as <-. right.
        apply (Hcons cls p); [|exact Hc].
        destruct (map fst (provider_configs tb)); [discriminate Hf|].
        injection Hf as <-. now left.
      * injection Hr as <-. left.
        destruct (map fst (provider_configs tb)) eqn:E; [|discriminate Hf].
        injection Hf as <-. split; [now apply Hempty|now right].
    + injection Hr as <-. left. now exists (c :: k).
  - right. exact (Hall Hr).
Qed.

(** The statement above for a request without a provider. *)
Lemma analyze_market_raises_only_witness :
  let e := Exn ZeroDivisionError (py "integer modulo by zero") in
  let providers := providers_of ProvidersNone in
  analyze_market env_ok BTC (snapshot BTC quote_full) some_prices false
                 ProvidersNone None 0 = (Raise e, 0) /\
  0 = 0 /\
  (ModelConfig env_ok = Raise e \/
   (exists p, In p providers /\ get_provider_config env_ok p = Raise e) \/
   (exists p cfg,
       In p providers /\ get_provider_config env_ok p = Ok cfg /\
       subscript cfg (py "default_model") = Raise e) \/
   (In (py "anthropic") providers /\
    e = Exn ValueError
          (py "ANTHROPIC_API_KEY"
              ++ py " not found in environment variables")) \/
   (In (py "openai") providers /\
    e = Exn ValueError
          (py "OPENAI_API_KEY" ++ py " not found in environment variables")) \/
   (exists ty,
       @None pystr = Some ty /\
       e = Exn ValueError (py "Invalid agent_type: " ++ ty)) \/
   (providers = [] /\
    (e = Exn ZeroDivisionError (py "integer modulo by zero") \/
     e = Exn IndexError (py "list index out of range"))) \/
   exn_cls e = KeyError \/
   (In (exn_cls e) [ProviderAuthenticationError; ProviderQuotaError;
                    ProviderConnectionError; ModelProviderError] /\
    (Str.startswith (exn_str e) (py "[Anthropic] ") = true \/
     Str.startswith (exn_str e) (py "[OpenAI] ") = true))).
Proof.
  split; [reflexivity|].
  exact (analyze_market_raises_only env_ok BTC (snapshot BTC quote_full)
           some_prices false ProvidersNone None 0
           (Exn ZeroDivisionError (py "integer modulo by zero"))
           0 eq_refl).
Defined.

End Failures.
